(* ===== verification/_CoqProject ===== *)
-Q . S2P
Prelude.v
PyBuiltins.v
PyFloat.v
FloatBounds.v
PyRepr.v
PyObject.v
PyIO.v
PyHeap.v
PyDict.v
RoutePlanner.v
RouteBounds.v
RouteSteps.v
RouteHeap.v
RouteDyn.v
Inventory.v
InventoryDyn.v
InventoryHeap.v
Simulation.v
Script.v
SimulationHeap.v
