(* ===== verification/Prelude.v ===== *)
(** * Smart Delivery: a verification development for [src/main.py]

    ** The program

    The Python code block of [src/main.py] (lines 4-95; the file wraps it in
    a line of prose and closing notes): two imports, two classes and a
    driver.

    - [RoutePlanner] (lines 10-35) holds a list of delivery locations
      (pairs of floats).  [calculate_distance] is the planar Euclidean
      distance [np.sqrt((a0-b0)**2 + (a1-b1)**2)]; [find_optimal_route]
      copies the list, then loops: [min] with the distance to the current
      position as key, [append] to the route, [remove] from the copy, until
      the copy is empty.  The whole body is under [try/except Exception],
      which prints a message and returns [[]].
    - [InventoryManager] (lines 37-52) keeps a [dict] from item name to
      quantity, with [update_inventory] (add or create),
      [get_inventory_status] and [check_inventory] ([dict.get] with default
      0, compared with [>=]).
    - [simulate_deliveries] (lines 54-92) builds a planner over
      [DELIVERY_LOCATIONS] (line 8), prints the route from San Francisco,
      fills an inventory, checks one item and prints the status.
    - The module itself (lines 4-5 and 94-95) imports [numpy] and [random]
      and calls [simulate_deliveries] when it is run as a script.

    ** Files, in dependency order

    - [Prelude] (this file): Python exceptions as values ([exn]), the
      outcome of an evaluation ([result]: [Ok] or [Raise]) as an stdpp monad,
      [try_except], the [inspect] device used by the loop's definition, the
      tactic [simplify_result], and the hint databases [py] (resolution)
      and [py_rw] (rewriting) that the other files fill; lemmas on
      integers and lists that several files use.
    - [PyBuiltins]: the built-ins the planner calls, over the interfaces
      [PyEq] ([==]) and [PyOrd] ([<], [<=]) with the laws [PyOrdLaws],
      [PyTotalOn] (totality on a subset) and [PyKeyProper] (equal values
      have equal keys).  [py_min] is [min(iterable, key=f)] as CPython's
      [min_max] computes it (a left-to-right scan that replaces the best item
      only on a strict [<]), [py_list_remove] is [list.remove] (first item
      identical or equal to the argument, [ValueError] when there is none),
      [py_list_copy] is the slice [l[:]].  An object reference is a position
      together with the value found there ([item]).  The specification of
      [min] is [first_min]; [int] is an instance of the interfaces.  The
      lemmas on lists of images ([py_min_fmap], [py_list_remove_fmap])
      carry the built-ins from one representation of the elements to
      another.
    - [PyFloat]: Python's [float] as the kernel's binary64 numbers
      ([PrimFloat.float]), so that every definition computes with the
      roundings the interpreter uses.  [py_float_pow2] is [x ** 2] with the
      [OverflowError] of a finite operand whose square is infinite;
      [np_sqrt] is [numpy.sqrt].  The order laws of [<], [<=] and [==] (NaN
      included) are derived from the specification of the primitives
      ([FloatAxioms]) through a rank function into triples of integers, and
      discharge the interfaces of [PyBuiltins] for floats.  The lemmas on
      the digits of a mantissa ([digits2_pos_lower], [binary_round_small])
      say how an integer below [2 ^ 53] is rounded.
    - [FloatBounds]: the magnitude of floats.  [float_below k x] says that
      [x] is a zero or a finite number below [2 ^ k]; the lemmas bound what
      rounding ([binary_round_aux_below]), [-], [+], [** 2] and
      [numpy.sqrt] return by the magnitude of their operands, following
      the definitions of [SpecFloat] ([binary_round_aux_spec] says what
      rounding computes); [square_overflows] is the set of floats on
      which [** 2] raises.
    - [PyRepr]: the text of numbers: [int_str] for an [int], and
      [float_repr] for a [float], the shortest decimal that reads back as
      the float ([float_digits], found by [shortest] among the decimals
      [candidate] accepts) in the notation of [repr] ([format_finite]).
    - [PyObject]: the objects that can be passed as quantities ([pyobj]:
      [None], [bool], [int], [float] and [str] objects), their class
      ([type_of]), and the operators [+] ([py_add]) and [>=] ([py_ge]) with
      their [TypeError]: numbers ([as_num], a [bool] being the [int] 1 or
      0) are added by [num_add] and compared by [num_ge], with the
      conversion of an [int] operand to a [float] ([py_float_of_int]) and
      the exact comparison of an [int] with a [float]
      ([int_float_compare]).  [add_type] and [comparable] are the typing
      rules of the operators.
    - [PyIO]: standard output.  [print] writes a [line], the literal parts
      and the formatted values of an f-string; [io] is a block that prints
      and returns, [prog] a block that prints and may raise; [prog_try] is
      the [try] statement and [for_each] the [for] statement over blocks.
      [py_str], [line_text] and [stdout_text] give the text written.
    - [PyHeap]: lists as objects.  A statement ([stm]) maps a state to its
      outcome and the state it leaves, or to [None] when its fuel runs
      out, with [stm_try] and [stm_for_each] for [try] and [for].  A [ref]
      names a list in a heap ([gmap ref (list A)]); a [world] is a heap
      and the output.  [py_copy_ref], [py_append_ref], [py_remove_ref],
      [py_min_ref] and [py_truth_ref] are the slice, [append], [remove],
      [min] and the truth test on references.
    - [PyDict]: the dictionary operations the inventory uses, on an
      insertion-ordered association list ([pydict]), the invariant
      [pydict_wf] (each key once) and the abstraction [pydict_map] to a
      finite map with the lemmas that relate the two.
    - [RoutePlanner]: the class.  [calculate_distance], the loop state
      [loop_state] (the three local variables), one evaluation of the
      [while] test and body ([loop_iter], [loop_body]), the loop
      [while_loop], the body of the [try] block [find_optimal_route_body]
      and the method [find_optimal_route] with its [except] handler.  The
      specification is the relation [greedy_route].
    - [RouteBounds]: the planner on coordinates of bounded magnitude
      ([coordinates_below]), latitudes and longitudes among them
      ([geographic]).
    - [RouteSteps]: the same loop as a transition system on [loop_state]
      ([loop_step], [loop_raises], [loop_exit]), its runs (stdpp's [rtc]
      and [nsteps]), the loop invariant [route_inv], the predicate
      [eventually] (every run reaches a state with a given property) and
      the number of distances a run evaluates ([loop_cost]).
    - [RouteHeap]: the method with its lists on the heap
      ([find_optimal_route_h] over [loop_body_h] and [while_loop_h]): the
      planner holds a reference to its list of locations, the slice
      allocates the list of remaining locations, and [append] and [remove]
      change the lists in place.
    - [RouteDyn]: the class on locations that are tuples of floats of any
      length ([pytuple]), indexed as the code indexes them
      ([py_tuple_getitem], with [IndexError]): [calculate_distance_dyn],
      [while_loop_dyn], [find_optimal_route_dyn], the embedding
      [of_location] of the pairs of [RoutePlanner] and the projection
      [to_location] of a tuple to its first two coordinates.
    - [Inventory]: the class [InventoryManager], its abstract specification
      ([spec_increment], [spec_quantity_of], [spec_has_at_least] on
      [gmap string Z] through [inv_abs]), the inventories reachable from a
      new one ([inv_reachable]), sequences of updates ([update_all]) and
      the equivalence [inv_equiv] of inventories that hold the same stock,
      for which the methods are [Proper].
    - [InventoryDyn]: the same class on quantities that are objects of any
      class of [PyObject] ([update_inventory_dyn], [check_inventory_dyn]),
      the typing predicate [stock_typed] and the embedding [of_typed] of
      the inventories of [Inventory].
    - [InventoryHeap]: the class with its dictionary as an object of the
      heap of [PyHeap] ([update_inventory_h], [get_inventory_status_h],
      [check_inventory_h] over [py_dict_setitem_ref] and the like): the
      manager holds a reference, and the status is that reference.
    - [Simulation]: [simulate_deliveries] as four blocks ([route_block],
      [stock_block], [check_block], [status_block]) and their composition;
      [check_block_dyn] is the availability check on untyped quantities.
    - [Script]: the module: the interpreter's environment ([pyenv]), the
      imports ([py_import], [imports]), the guard [main] and the sequence
      of the module's statements [script].
    - [SimulationHeap]: the driver and the module on one [store], which
      holds the list objects, the dictionary objects and the output.  A
      statement of [RouteHeap] or of [InventoryHeap] runs on its part of
      the store ([in_lists], [in_dicts]); [simulate_deliveries_h] composes
      the blocks [route_block_h], [stock_block_h], [check_block_h] and
      [status_block_h], and [script_h] is the module, which allocates the
      list of line 8.

    ** What the theorems show

    - Route planner: a returned route is the start followed by a
      nearest-neighbour tour ([find_optimal_route_greedy]), hence a
      permutation of the locations with the expected length, in which no
      later stop is nearer than the one visited; the tour is unique when no
      distance is NaN; the method returns whenever no square overflows
      ([find_optimal_route_total]); the only exception of the [try] block is
      [OverflowError], after which one line is printed and [[]] returned
      ([find_optimal_route_except]); [min] never sees an empty list and
      [list.remove] never fails in the loop.  The distance is symmetric and
      never negative in binary64 arithmetic, and [np.sqrt] is never
      applied to a negative number, the one case in which numpy warns.
      The route is the nearest-neighbour tour and not always a shortest
      one ([find_optimal_route_not_shortest]).
    - Coordinates of bounded magnitude: when every coordinate is below
      [2 ^ 508] in magnitude no square overflows: each distance is
      returned, finite, not NaN and not negative
      ([calculate_distance_bounded]), and the method returns the start
      followed by the one nearest-neighbour tour, without entering its
      [except] clause ([find_optimal_route_bounded]).  Latitudes and
      longitudes, as the comparisons [abs(lat) <= 90] and
      [abs(lon) <= 180] decide them, are such coordinates
      ([find_optimal_route_geographic]).  The distance raises exactly
      when two first or two second coordinates differ by a finite number
      of absolute value [2 ^ 512] or more, and is otherwise the square
      root of the sum of the squared differences in IEEE 754 arithmetic
      ([calculate_distance_threshold]).
    - Loop as a transition system: the [try] block returns a route exactly
      when a run of iterations ends in a state without locations
      ([find_optimal_route_body_run]) and raises exactly what the last
      iteration of a run raises; a run of [n] steps removes [n] locations;
      [route_inv] holds in every reachable state.  Liveness: a location
      that is left is eventually a stop of the route unless an iteration
      raises ([loop_eventually_visits]), and when no square overflows
      every run reaches the exit of the loop with every location in the
      route ([find_optimal_route_eventually_delivers]).  Cost: a call
      over [n] locations evaluates [n (n + 1) / 2] distances
      ([find_optimal_route_evaluations]).
    - Heap: with fuel for one iteration per location the method on the
      heap returns a new list holding the route of the functional model
      and writes the same lines ([find_optimal_route_h_refines]); it
      changes no list that existed, so the planner can be used again and
      gives the same route ([find_optimal_route_h_reusable]).
    - Unchecked locations: on tuples of two floats the method on tuples
      is the method on pairs ([find_optimal_route_dyn_typed]), which
      justifies [RoutePlanner]; a location with fewer than two
      coordinates makes the method print its error line and return [[]]
      ([find_optimal_route_dyn_malformed]); the [try] block raises only
      [IndexError] or [OverflowError]; a route that is returned holds
      every tuple once; coordinates after the second are
      ignored: tuples that have the two coordinates are visited in the
      order of their first two ([find_optimal_route_dyn_coordinates]).
    - Built-ins: [py_min] coincides with [first_min] on totally ordered
      keys; it raises exactly [ValueError] on [[]] or what the first
      failing key raises; [remove] after [min] drops the chosen element.
    - Floats: trichotomy of the comparisons away from NaN, all comparisons
      false on NaN; [x ** 2] raises [OverflowError] exactly on the finite
      [x] with [abs x >= 2 ^ 512] and otherwise returns a float that is
      NaN or infinite exactly when [x] is, the product [x * x]
      ([py_float_pow2_threshold]); an
      operation on floats below
      [2 ^ k] returns a float below [2 ^ (k + 2)] for [-] and [+], below
      [2 ^ (2 k + 1)] for [** 2], and of about half the exponent for
      [numpy.sqrt].
    - Inventory: [update_inventory] and [check_inventory] refine the
      abstract operations; no [KeyError]; insertion order and the
      one-entry-per-item invariant are preserved on every reachable
      inventory; a sequence of updates leaves for each item the sum of what
      it adds, whatever the order of the updates; what an update stores is
      read back from the status ([update_inventory_read_back]).
    - Typing: a stock of [int]s stays a stock of [int]s under updates by
      [int]s, which do not raise ([update_inventory_dyn_int]); a stock of
      numbers stays one or the update raises [OverflowError]; [TypeError]
      is raised exactly on the classes the typing rules refuse; on [int]s
      the untyped methods are the typed ones
      ([update_inventory_dyn_typed]), which justifies [Inventory]; a
      [bool] operand counts as its [int] ([py_add_decay]); the conversion
      of an [int] to a [float] is exact below [2 ^ 53]
      ([py_float_of_int_exact]) and rounds above.
    - Inventory on the heap: the methods change the manager's dictionary
      in place as the functional model says and touch nothing else
      ([update_inventory_h_refines]); the status is the manager's own
      dictionary, so a caller can change the stock through it
      ([get_inventory_status_h_alias]); a new manager has a dictionary of
      its own.
    - Text: the digits printed for a float read back as the float and are
      the shortest that do ([float_digits_read_back]); a status line
      determines the quantity it shows.
    - Driver: for any planner on coordinates of bounded magnitude the
      lines written are the header, the stops of the greedy tour in
      order and the inventory report
      ([simulate_deliveries_body_bounded]); the exact text of the eleven
      lines the script writes ([simulate_deliveries_stdout]); no
      exception escapes for any planner; both [except] clauses of the driver are unreachable; after a
      planner failure the driver still announces a route.  On untyped
      quantities the second [except] clause runs exactly when the stock is
      not a number ([check_block_dyn_handler]).
    - Module: run as a script with its imports found, the module writes
      what [simulate_deliveries] writes; imported, it writes nothing
      ([script_guard]); it
      ends with [ModuleNotFoundError], before writing anything, exactly
      when an import is not found ([script_Raise]).
    - Driver and module on the heap: with the planner's lists and the
      inventory's dictionary as objects of one store, the driver writes
      the lines of the functional driver, for the locations the global
      list holds when it is called, and changes no object that existed
      ([simulate_deliveries_h_refines]); it can be called again and
      writes the same lines, each call stocking a dictionary of its own
      ([simulate_deliveries_h_twice]); the module on the heap refines
      [script] ([script_h_refines]) and writes the same eleven lines of
      text ([script_h_stdout]).
    - Scenarios evaluated in the kernel with binary64 arithmetic.

    ** Bounds and termination

    The loop is defined by well-founded recursion on the number of
    remaining locations, which each iteration that does not raise decreases
    by one: [while_loop] is a total function and needs no fuel.  On the
    heap the loop takes fuel ([while_loop_h]), because a loop whose two
    lists are the same object does not terminate; the lists of the method
    are distinct new objects, and fuel equal to the number of locations is
    proved to be enough; [simulate_deliveries_h] and [script_h] pass
    their fuel to the method, and the same bound is proved to be enough
    for them (4 for the script).  The loop on tuples ([while_loop_dyn])
    is defined like [while_loop] and needs no fuel.  Lists and quantities
    are unbounded (Python's [int] is [Z]); floats are binary64, and an
    [int] becomes a [float] without rounding below [2 ^ 53].  The bound
    [2 ^ 508] on coordinates is sufficient and not the largest possible
    (the method fails on coordinates of magnitude [2 ^ 511],
    [calculate_distance_overflow_512]; the exact condition is on the
    difference of two coordinates, [calculate_distance_threshold]):
    a difference of two coordinates is below [2 ^ 510], its square below
    [2 ^ 1021], and the sum of two squares below [2 ^ 1023], each step
    counting one digit for its rounding; binary64 holds the numbers below
    [2 ^ 1024].  The search for the digits of a
    float tries the lengths 1 to 16 and takes the nearest decimal of 17
    digits otherwise: 17 digits identify every binary64 number; this
    bound is a known property of the format, it is not proved here, and
    [float_digits_read_back] is stated for the floats whose shortest
    decimal has at most 16 digits (those of the program are among them).

    ** Modelling assumptions

    - [x ** 2] on floats is C's [pow(x, 2.0)]; it is taken to be correctly
      rounded, that is equal to [x * x] in binary64, and CPython raises
      [OverflowError] when the result of a finite operand is infinite.
    - Tuples of two floats are values; the identity of the object that
      [min] returns is its position in the list it was taken from, and an
      [item] is only passed to [remove] on that list.  [==] on tuples is
      [==] on both components; CPython also accepts components that are
      the same object, which differs only for NaN, and a location at a
      NaN distance is only ever chosen at the first position
      ([first_min_nan_first]), where [remove] finds it by identity.
    - [float_repr] and [int_str] are what the f-strings of lines 66 and 92
      call in the interpreter; no line of the program computes them.
      [float_digits] and the definitions under it specify CPython's
      [repr] by a search for the shortest decimal that reads back, and
      the cost functions ([key_calls], [step_cost], [loop_cost]) count
      what the interpreter evaluates: both are specifications written
      beside the code, not translations of it.
    - [float_of_decimal] reads a decimal with the rounding of the standard
      library's [SpecFloat] (division of integers followed by
      [binary_round_aux]), which is taken to be what [float(s)] computes.
    - The text of an exception ([str(e)]) is a parameter of the text
      functions: it depends on the operation that raised it and, for
      [OverflowError], on the message of the C library.
    - In the functional models a method call that mutates [self] returns
      the new object; in the heap models it changes the object in place.
    - The heap keeps the objects of each class in a map of its own
      ([st_lists], [st_dicts]): a list and a dictionary are never the same
      object, and the program never compares their references.
    - In [RoutePlanner] a location is a pair of floats; in [RouteDyn] it
      is a tuple of floats of any length.  Coordinates that are not
      floats are outside the model: what [numpy.sqrt] does on an [int] or
      on an object depends on numpy's conversions.
    - Item names are strings.  In [Inventory] quantities are [int]s; in
      [InventoryDyn] they are objects of the immutable classes
      [NoneType], [bool], [int], [float] and [str], for which [a += b] is
      [a = a + b].  Strings are sequences of bytes, compared byte by
      byte, which is the order of code points on UTF-8 text.
    - [import] finds a module or raises [ModuleNotFoundError]; an import
      that fails for another reason (an error raised by the imported
      module's own code) is outside the model.
    - Every exception of the model is an instance of [Exception], which
      both kinds of handler of the program catch.  [KeyboardInterrupt] and
      [SystemExit], which [except Exception] lets through, and the
      exhaustion of memory are outside the model.

    ** Not modelled

    - The free text around the code block in [src/main.py] (lines 1-3 and
      96-108), which makes the file as a whole a markdown document and not
      a Python module.
    - The code of [numpy] and [random]: of numpy only [sqrt] is called,
      which is [np_sqrt]; [random] is never used.
    - Quantities of other classes (lists, on which [+=] changes the
      object in place, tuples, [complex], [bytes], user classes with
      their own [__add__] or [__ge__]), item names that are not strings,
      and coordinates that are not floats: the methods accept them, the
      model does not describe what the operators do on them.  The classes
      of Python are an open set, and the program itself passes none of
      these.
    - The class and function objects that the [class] and [def]
      statements create: the module binds their names ([script]) and the
      calls are modelled by the definitions of the methods.
    - The text of exceptions, which is a parameter, and standard error, on
      which the interpreter writes the traceback of an exception that
      nothing catches. *)

From Stdlib Require Import String ZArith.
From stdpp Require Import prelude strings.

Declare Scope py_scope.
Delimit Scope py_scope with py.

(** ** Exceptions and outcomes *)

(** The exception classes the operations of the program can raise:
    [OverflowError] from [float.__pow__] and from the conversion of an
    [int] to a [float], [ValueError] from [min] on an empty iterable and
    from [list.remove] of an absent value, [KeyError] from
    [dict.__getitem__] of an absent key, [TypeError] from an operator
    applied to operands of classes it does not support, [IndexError] from
    an index past the end of a tuple, [ModuleNotFoundError] from
    [import]. *)
Inductive exn : Set :=
  | OverflowError
  | ValueError
  | KeyError
  | TypeError
  | IndexError
  | ModuleNotFoundError.

#[export] Instance exn_eq_dec : EqDecision exn.
Proof. solve_decision. Defined.

(** The outcome of evaluating an expression or a block: a value, or a raised
    exception that unwinds to the nearest handler. *)
Inductive result (A : Type) : Type :=
  | Ok (a : A)
  | Raise (e : exn).
Arguments Ok {A} a.
Arguments Raise {A} e.

#[export] Instance result_ret : MRet result := @Ok.
#[export] Instance result_bind : MBind result := λ A B f m,
  match m with Ok a => f a | Raise e => Raise e end.
#[export] Instance result_fmap : FMap result := λ A B f m,
  match m with Ok a => Ok (f a) | Raise e => Raise e end.

(** [try: body except Exception as e: handler e] where both branches end in a
    [return]. *)
Definition try_except {A B} (body : result A) (normal : A → B) (handler : exn → B) : B :=
  match body with Ok a => normal a | Raise e => handler e end.

Definition is_ok {A} (r : result A) : bool :=
  match r with Ok _ => true | Raise _ => false end.

(** Outcomes related by a relation on their values: both return related
    values, or both raise the same exception. *)
Definition result_rel {A} (R : relation A) : relation (result A) := λ r1 r2,
  match r1, r2 with
  | Ok a1, Ok a2 => R a1 a2
  | Raise e1, Raise e2 => e1 = e2
  | _, _ => False
  end.

(** [inspect x] keeps the equation between [x] and the pattern it is matched
    against; the loop's termination proof needs it. *)
Definition inspect {A} (a : A) : {b | a = b} := exist _ a eq_refl.

(** ** Lemmas on outcomes *)

Section result_lemmas.
Context {A B : Type}.
Implicit Types (m : result A) (f : A → result B) (g : A → B).

Lemma bind_Ok a f : Ok a ≫= f = f a.
Proof. done. Qed.

Lemma bind_Raise e f : Raise e ≫= f = Raise e.
Proof. done. Qed.

Lemma bind_Ok_inv m f b : m ≫= f = Ok b ↔ ∃ a, m = Ok a ∧ f a = Ok b.
Proof.
  destruct m as [a|e]; simpl; split.
  - eauto.
  - by intros (? & [= <-] & ?).
  - done.
  - by intros (? & ? & ?).
Qed.

Lemma bind_Raise_inv m f e :
  m ≫= f = Raise e ↔ m = Raise e ∨ ∃ a, m = Ok a ∧ f a = Raise e.
Proof.
  destruct m as [a|e']; simpl; split.
  - eauto.
  - by intros [?|(? & [= <-] & ?)].
  - intros [= ->]; eauto.
  - by intros [[= ->]|(? & ? & ?)].
Qed.

Lemma fmap_Ok_inv m g b : g <$> m = Ok b ↔ ∃ a, m = Ok a ∧ b = g a.
Proof.
  destruct m as [a|e]; simpl; split.
  - intros [= <-]; eauto.
  - by intros (? & [= <-] & ->).
  - done.
  - by intros (? & ? & ?).
Qed.

Lemma fmap_Raise_inv m g e : g <$> m = Raise e ↔ m = Raise e.
Proof. destruct m; simpl; split; congruence. Qed.

Lemma is_ok_true m : is_ok m = true ↔ ∃ a, m = Ok a.
Proof. destruct m; simpl; split; [eauto | done | done | by intros [? ?]]. Qed.

Lemma result_cases m : (∃ a, m = Ok a) ∨ (∃ e, m = Raise e).
Proof. destruct m; eauto. Qed.
End result_lemmas.

#[export] Instance result_rel_equivalence {A} (R : relation A) :
  Equivalence R → Equivalence (result_rel R).
Proof.
  intros HR. split.
  - by intros [a|e]; simpl.
  - intros [a1|e1] [a2|e2]; simpl; done.
  - intros [a1|e1] [a2|e2] [a3|e3]; simpl; try done; by etrans.
Qed.

Lemma result_rel_Ok {A} (R : relation A) (a1 a2 : A) :
  result_rel R (Ok a1) (Ok a2) ↔ R a1 a2.
Proof. done. Qed.

(** ** Lemmas on integers *)

(** Dividing by two powers of two is dividing by their product. *)
Lemma Z_div_pow2 (a n m : Z) :
  (0 ≤ n)%Z → (0 ≤ m)%Z → (a / 2 ^ n / 2 ^ m)%Z = (a / 2 ^ (n + m))%Z.
Proof.
  intros Hn Hm. pose proof (Z.pow_pos_nonneg 2 n). pose proof (Z.pow_pos_nonneg 2 m).
  by rewrite Z.pow_add_r, Z.div_div by lia.
Qed.

Lemma Z_div_pow2_nonneg (a n : Z) : (0 ≤ a)%Z → (0 ≤ a / 2 ^ n)%Z.
Proof.
  intros Ha. destruct (Z.le_gt_cases 0 n).
  - apply Z.div_pos; [done|]. by apply Z.pow_pos_nonneg.
  - rewrite Z.pow_neg_r by done. by rewrite Z.div_0_r.
Qed.

(** The half of an integer, rounded down. *)
Lemma Z_half_bounds (a : Z) : (a - 1 ≤ 2 * (a / 2) ≤ a)%Z.
Proof. Z.div_mod_to_equations. lia. Qed.

(** Comparison of integers is kept by a positive factor. *)
Lemma Z_compare_mul_r (x y c : Z) : (0 < c)%Z → (x * c ?= y * c)%Z = (x ?= y)%Z.
Proof.
  intros Hc. destruct (Z.compare_spec x y) as [->|Hlt|Hgt].
  - apply Z.compare_refl.
  - apply Z.compare_lt_iff. nia.
  - apply Z.compare_gt_iff. nia.
Qed.

(** ** Lemmas on lists *)

(** An element of a list is the one at position [k] or is still there when
    that position is deleted. *)
Lemma elem_of_delete_or {A} (l : list A) (k : nat) (x : A) :
  x ∈ l → l !! k = Some x ∨ x ∈ delete k l.
Proof.
  intros (i & Hi)%list_elem_of_lookup_1.
  destruct (lt_eq_lt_dec i k) as [[Hlt| ->]|Hgt]; [right|by left|right].
  - apply list_elem_of_lookup_2 with i. by rewrite list_lookup_delete_lt.
  - apply list_elem_of_lookup_2 with (pred i).
    rewrite list_lookup_delete_ge by lia. by replace (S (pred i)) with i by lia.
Qed.

(** ** Lemmas on strings *)

Lemma string_app_length (s t : string) :
  String.length (s +:+ t) = String.length s + String.length t.
Proof. induction s as [|a s IH]; simpl; [done|]. by rewrite IH. Qed.

Lemma string_app_nil_r (s : string) : s +:+ EmptyString = s.
Proof.
  induction s as [|a s IH]; [done|].
  change (String a (s +:+ EmptyString) = String a s). by rewrite IH.
Qed.

Lemma string_app_assoc (s t u : string) : (s +:+ t) +:+ u = s +:+ (t +:+ u).
Proof.
  induction s as [|a s IH]; [done|].
  change (String a ((s +:+ t) +:+ u) = String a (s +:+ t +:+ u)). by rewrite IH.
Qed.

(** Strings that have a common suffix after two prefixes have the same
    prefix. *)
Lemma string_app_inv_r (s1 s2 t : string) : s1 +:+ t = s2 +:+ t → s1 = s2.
Proof.
  revert s2. induction s1 as [|a s1 IH]; intros [|b s2] Heq.
  - done.
  - apply (f_equal String.length) in Heq.
    rewrite !string_app_length in Heq. simpl in Heq. lia.
  - apply (f_equal String.length) in Heq.
    rewrite !string_app_length in Heq. simpl in Heq. lia.
  - injection Heq as -> Heq. f_equal. by apply IH.
Qed.

Create HintDb py discriminated.
Create Rewrite HintDb py_rw.
#[export] Hint Rewrite @bind_Ok @bind_Raise : py_rw.

(** ** Tactics *)

(** [simplify_result] decomposes hypotheses that say that a bind or an fmap
    returned or raised, and closes goals with contradictory outcomes. *)
Ltac simplify_result :=
  repeat match goal with
  | H : Ok _ = Ok _ |- _ => injection H as H
  | H : Raise _ = Raise _ |- _ => injection H as H
  | H : Ok _ = Raise _ |- _ => discriminate H
  | H : Raise _ = Ok _ |- _ => discriminate H
  | H : mret _ = Ok _ |- _ => injection H as H
  | H : mret _ = Raise _ |- _ => discriminate H
  | H : _ ≫= _ = Ok _ |- _ => apply bind_Ok_inv in H as (? & ? & H)
  | H : _ <$> _ = Ok _ |- _ => apply fmap_Ok_inv in H as (? & H & ?)
  | H : _ <$> _ = Raise _ |- _ => apply fmap_Raise_inv in H
  | _ => progress simplify_eq
  end.
