(* ===== verification/PyBuiltins.v ===== *)
(** * The Python built-ins the program calls

    [min(iterable, key=f)], [list.remove(x)] and the slice [l[:]], over two
    interfaces: [PyEq] is [==] and [PyOrd] is [<] and [<=] on the values
    compared.  [PyOrdLaws] states the order laws the planner's theorems
    need; they hold for IEEE 754 comparisons even when an operand is NaN,
    which compares false with everything.  [PyTotalOn] adds totality on a
    subset (the floats that are not NaN).

    An object reference is an [item]: the position the object was found at
    and the value found there.  [list.remove] tests identity before [==];
    identity of an [item] with the element at position [j] is equality of
    the positions. *)

From stdpp Require Import prelude.
From S2P Require Import Prelude.

(** ** Interfaces *)

(** [py_eq x y] is the truth value of [x == y]. *)
Class PyEq (A : Type) := py_eq : A → A → bool.
#[global] Hint Mode PyEq ! : typeclass_instances.

(** [py_lt x y] is the truth value of [x < y], [py_le x y] of [x <= y]. *)
Class PyOrd (K : Type) := {
  py_lt : K → K → bool;
  py_le : K → K → bool;
}.
#[global] Hint Mode PyOrd ! : typeclass_instances.

Infix "=?" := py_eq (at level 70, no associativity) : py_scope.
Infix "<?" := py_lt (at level 70, no associativity) : py_scope.
Infix "<=?" := py_le (at level 70, no associativity) : py_scope.
#[local] Open Scope py_scope.

Class PyOrdLaws (K : Type) `{PyOrd K} : Prop := {
  py_lt_irrefl (x : K) : (x <? x) = false;
  py_lt_trans (x y z : K) : (x <? y) = true → (y <? z) = true → (x <? z) = true;
  py_le_lt_trans (x y z : K) : (x <=? y) = true → (y <? z) = true → (x <? z) = true;
  py_lt_le (x y : K) : (x <? y) = true → (x <=? y) = true;
  py_lt_le_refl (x y : K) : (x <? y) = true → (x <=? x) = true;
}.

(** The values of [K] that satisfy [ok] are totally ordered. *)
Class PyTotalOn (K : Type) `{PyOrd K} (ok : K → Prop) : Prop := {
  py_not_lt_le (x y : K) : ok x → ok y → (x <? y) = false → (y <=? x) = true;
}.

(** A key function gives equal values the same key. *)
Class PyKeyProper `{PyEq A} {K : Type} (key : A → result K) : Prop :=
  py_key_proper (x y : A) : (x =? y) = true → key x = key y.

(** Tuples of two compare component by component. *)
#[export] Instance prod_py_eq `{PyEq A, PyEq B} : PyEq (A * B) :=
  λ x y, (x.1 =? y.1) && (x.2 =? y.2).

(** ** Object references *)

Record item (A : Type) := Item {
  item_pos : nat;
  item_val : A;
}.
Arguments Item {A} _ _.
Arguments item_pos {A} _.
Arguments item_val {A} _.

(** The reference to the same position of a list of images. *)
Definition item_map {A B} (f : A → B) (x : item A) : item B :=
  Item (item_pos x) (f (item_val x)).

(** [x] refers to an element of [l]. *)
Definition item_in {A} (x : item A) (l : list A) : Prop :=
  l !! item_pos x = Some (item_val x).

Section item_lemmas.
Context {A : Type}.
Implicit Types (x : item A) (l : list A).

Lemma item_in_elem_of x l : item_in x l → item_val x ∈ l.
Proof. apply list_elem_of_lookup_2. Qed.

(** The object and the elements that remain once it is deleted are elements
    of the list. *)
Lemma item_in_cons_delete x l a :
  item_in x l → a ∈ item_val x :: delete (item_pos x) l → a ∈ l.
Proof.
  intros Hin [->|Ha%list_elem_of_delete_inv]%elem_of_cons; [|done].
  by apply item_in_elem_of.
Qed.
End item_lemmas.

(** ** [l[:]] *)

(** A slice of the whole list is a new list with the same elements. *)
Definition py_list_copy {A} (l : list A) : list A := l.

(** ** [min(l, key=f)] *)

Section py_min.
Context {A K : Type} `{PyOrd K} (key : A → result K).

(** The scan of [min_max]: [j] is the position of the next element, [best]
    and [kbest] the item kept so far and its key.  The key function is
    called on every element in order; the item kept changes only when the
    new key is strictly smaller. *)
Fixpoint min_scan (j : nat) (best : item A) (kbest : K) (l : list A)
    : result (item A * K) :=
  match l with
  | [] => Ok (best, kbest)
  | x :: l' =>
      k ← key x;
      if k <? kbest then min_scan (S j) (Item j x) k l'
      else min_scan (S j) best kbest l'
  end.

Definition py_min (l : list A) : result (item A) :=
  match l with
  | [] => Raise ValueError
  | x :: l' => k ← key x; fst <$> min_scan 1 (Item 0 x) k l'
  end.

(** What [min_scan] promises about its result [(it, k)]. *)
Record min_scan_post (j : nat) (best : item A) (kbest : K) (l : list A)
    (it : item A) (k : K) : Prop := {
  msp_keys : Forall (λ y, is_ok (key y) = true) l;
  msp_pick :
    (it = best ∧ k = kbest) ∨
    ((k <? kbest) = true ∧ (kbest <=? k) = false ∧
     ∃ i, item_pos it = j + i ∧ l !! i = Some (item_val it) ∧
          key (item_val it) = Ok k);
  msp_lower : ∀ y ky, y ∈ l → key y = Ok ky → (ky <? k) = false;
  msp_stable : ∀ i y ky,
    l !! i = Some y → key y = Ok ky → j + i < item_pos it → (ky <=? k) = false;
}.

(** What [py_min] promises: the item is an element of the list, no element
    has a strictly smaller key, no element before it has a key that is
    smaller or equal, and when it is not the first element its key is
    strictly smaller than the first one's. *)
Record first_min (l : list A) (it : item A) (k : K) : Prop := {
  fm_in : item_in it l;
  fm_key : key (item_val it) = Ok k;
  fm_keys : Forall (λ y, is_ok (key y) = true) l;
  fm_lower : ∀ y ky, y ∈ l → key y = Ok ky → (ky <? k) = false;
  fm_stable : ∀ i y ky,
    l !! i = Some y → key y = Ok ky → i < item_pos it → (ky <=? k) = false;
  fm_first : ∀ y ky,
    0 < item_pos it → l !! 0 = Some y → key y = Ok ky → (k <? ky) = true;
}.
(** [first_raise l e]: [e] is raised by the key of the first element of [l]
    whose key raises. *)
Definition first_raise (l : list A) (e : exn) : Prop :=
  ∃ pre y post, l = pre ++ y :: post ∧
    Forall (λ z, is_ok (key z) = true) pre ∧ key y = Raise e.

(** The number of calls of the key function that [min] makes on [l]: one
    for each element, up to the first call that raises. *)
Fixpoint key_calls (l : list A) : nat :=
  match l with
  | [] => 0
  | x :: l' => if is_ok (key x) then S (key_calls l') else 1
  end.
End py_min.

(** ** [l.remove(x)] *)

Section py_list_remove.
Context {A : Type} `{PyEq A}.

(** The scan of [list.remove]: the first element that is the object [x] or
    equal to it is dropped; [None] when the scan reaches the end. *)
Fixpoint remove_scan (j : nat) (x : item A) (l : list A) : option (list A) :=
  match l with
  | [] => None
  | y :: l' =>
      if (j =? item_pos x)%nat || (y =? item_val x) then Some l'
      else (y ::.) <$> remove_scan (S j) x l'
  end.

Definition py_list_remove (x : item A) (l : list A) : result (list A) :=
  match remove_scan 0 x l with
  | Some l' => Ok l'
  | None => Raise ValueError
  end.
End py_list_remove.

(** ** Consequences of the order laws *)

Section order_facts.
Context `{PyOrdLaws K}.
Implicit Types x y z : K.

Lemma py_lt_asym x y : (x <? y) = true → (y <? x) = false.
Proof.
  intros Hxy. apply not_true_iff_false. intros Hyx.
  pose proof (py_lt_trans _ _ _ Hxy Hyx) as Hxx. by rewrite py_lt_irrefl in Hxx.
Qed.

Lemma py_lt_not_le x y : (x <? y) = true → (y <=? x) = false.
Proof.
  intros Hxy. apply not_true_iff_false. intros Hyx.
  pose proof (py_le_lt_trans _ _ _ Hyx Hxy) as Hyy. by rewrite py_lt_irrefl in Hyy.
Qed.

Lemma py_lt_trans_false x y z : (y <? z) = true → (x <? z) = false → (x <? y) = false.
Proof.
  intros Hyz Hxz. apply not_true_iff_false. intros Hxy.
  by rewrite (py_lt_trans _ _ _ Hxy Hyz) in Hxz.
Qed.

Lemma py_le_lt_trans_false x y z : (y <? z) = true → (x <? z) = false → (x <=? y) = false.
Proof.
  intros Hyz Hxz. apply not_true_iff_false. intros Hxy.
  by rewrite (py_le_lt_trans _ _ _ Hxy Hyz) in Hxz.
Qed.
End order_facts.

#[export] Hint Resolve py_lt_irrefl py_lt_le py_lt_asym py_lt_not_le : py.
#[export] Hint Resolve item_in_elem_of item_in_cons_delete list_elem_of_delete_inv : py.
#[export] Hint Extern 2 ((_ <? _) = false) => eapply py_lt_trans_false; eassumption : py.
#[export] Hint Extern 2 ((_ <=? _) = false) => eapply py_le_lt_trans_false; eassumption : py.

(** [same_key] identifies the two names of the key of one element. *)
Ltac same_key :=
  match goal with
  | H1 : ?key ?x = Ok ?a, H2 : ?key ?x = Ok ?b |- _ =>
      assert (b = a) as -> by congruence; clear H2
  end.

(** ** Properties of [py_min] *)

Section py_min_lemmas.
Context {A K : Type} `{PyOrdLaws K} (key : A → result K).
Implicit Types (l : list A) (it best : item A) (k kbest : K).

Lemma min_scan_post_nil j best kbest : min_scan_post key j best kbest [] best kbest.
Proof.
  split; [done|by left| |]; intros *.
  - by intros ?%elem_of_nil.
  - by rewrite lookup_nil.
Qed.

(** The element is taken as the new best. *)
Lemma min_scan_post_take j best kbest x kx l it k :
  key x = Ok kx → (kx <? kbest) = true →
  min_scan_post key (S j) (Item j x) kx l it k →
  min_scan_post key j best kbest (x :: l) it k.
Proof.
  intros Hkx Hlt [Hkeys Hpick Hlower Hstable]. split.
  - constructor; [by rewrite Hkx|done].
  - right. destruct Hpick as [[-> ->]|(Hk & Hle & i & Hpos & Hi & Hki)].
    + split_and!; [auto with py..|]. exists 0. by rewrite Nat.add_0_r.
    + assert ((k <? kbest) = true) by (by eapply py_lt_trans).
      split_and!; [auto with py..|]. exists (S i). by rewrite Nat.add_succ_r.
  - intros y ky [->|Hy]%elem_of_cons Hky; [|by eapply Hlower].
    same_key. destruct Hpick as [[_ ->]|(Hk & _)]; auto with py.
  - intros [|i] y ky Hi Hky Hlt'; simplify_eq/=.
    + same_key. destruct Hpick as [[-> _]|(_ & Hle & _)]; [simpl in *; lia|done].
    + eapply Hstable; [done..|lia].
Qed.

(** The element is passed over. *)
Lemma min_scan_post_skip j best kbest x kx l it k :
  item_pos best < j →
  key x = Ok kx → (kx <? kbest) = false →
  min_scan_post key (S j) best kbest l it k →
  min_scan_post key j best kbest (x :: l) it k.
Proof.
  intros Hj Hkx Hlt [Hkeys Hpick Hlower Hstable]. split.
  - constructor; [by rewrite Hkx|done].
  - destruct Hpick as [?|(Hk & Hle & i & Hpos & Hi & Hki)]; [by left|right].
    split_and!; [done..|]. exists (S i). by rewrite Nat.add_succ_r.
  - intros y ky [->|Hy]%elem_of_cons Hky; [|by eapply Hlower].
    same_key. destruct Hpick as [[_ ->]|(Hk & _)]; auto with py.
  - intros [|i] y ky Hi Hky Hlt'; simplify_eq/=.
    + same_key. destruct Hpick as [[-> _]|(Hk & _)]; [lia|auto with py].
    + eapply Hstable; [done..|lia].
Qed.

Lemma min_scan_spec l : ∀ j best kbest it k,
  item_pos best < j →
  min_scan key j best kbest l = Ok (it, k) →
  min_scan_post key j best kbest l it k.
Proof.
  induction l as [|x l IH]; intros j best kbest it k Hj Hscan; simpl in Hscan.
  { simplify_result. apply min_scan_post_nil. }
  apply bind_Ok_inv in Hscan as (kx & Hkx & Hscan).
  destruct (kx <? kbest) eqn:Hlt.
  - eapply min_scan_post_take; [done..|]. apply IH; [simpl; lia|done].
  - eapply min_scan_post_skip; [done..|]. apply IH; [lia|done].
Qed.

(** When no call raises, the key is called once for each element. *)
Lemma key_calls_length l :
  Forall (λ y, is_ok (key y) = true) l → key_calls key l = length l.
Proof. induction 1 as [|x l Hx _ IH]; simpl; [done|]. by rewrite Hx, IH. Qed.

(** [py_min] returns the first element whose key is minimal. *)
Lemma py_min_spec l it :
  py_min key l = Ok it → ∃ k, first_min key l it k.
Proof.
  destruct l as [|x l]; [done|]. simpl. intros Hmin.
  apply bind_Ok_inv in Hmin as (kx & Hkx & Hmin).
  apply fmap_Ok_inv in Hmin as ([it' k] & Hscan & ->). simpl.
  apply min_scan_spec in Hscan as [Hkeys Hpick Hlower Hstable]; [|simpl; lia].
  exists k. split.
  - destruct Hpick as [[-> _]|(_ & _ & i & Hpos & Hi & _)]; [done|].
    unfold item_in. by rewrite Hpos.
  - by destruct Hpick as [[-> ->]|(_ & _ & i & _ & _ & Hki)].
  - constructor; [by rewrite Hkx|done].
  - intros y ky [->|Hy]%elem_of_cons Hky; [|by eapply Hlower].
    same_key. destruct Hpick as [[_ ->]|(Hk & _)]; auto with py.
  - intros [|i] y ky Hi Hky Hlt'; simplify_eq/=.
    + same_key. destruct Hpick as [[-> _]|(_ & Hle & _)]; [simpl in *; lia|done].
    + eapply Hstable; [done..|lia].
  - intros y ky Hpos [= <-] Hky. same_key.
    destruct Hpick as [[-> _]|(Hk & _)]; [simpl in *; lia|done].
Qed.

(** An item chosen after the first position has a key strictly below the
    key of the first element. *)
Lemma first_min_below_first l it k :
  first_min key l it k → 0 < item_pos it →
  ∃ y ky, l !! 0 = Some y ∧ key y = Ok ky ∧ (k <? ky) = true.
Proof.
  intros Hm Hpos. destruct (lookup_lt_is_Some_2 l 0) as [y Hy].
  { pose proof (fm_in _ _ _ _ Hm) as Hin%lookup_lt_Some. lia. }
  pose proof (Forall_lookup_1 _ _ _ _ (fm_keys _ _ _ _ Hm) Hy) as [ky Hky]%is_ok_true.
  exists y, ky. split_and!; [done..|]. by eapply (fm_first _ _ _ _ Hm).
Qed.

Lemma first_raise_cons_Ok x kx l e :
  key x = Ok kx → first_raise key l e → first_raise key (x :: l) e.
Proof.
  intros Hkx (pre & y & post & -> & Hpre & Hy).
  exists (x :: pre), y, post. split_and!; [done| |done].
  constructor; [by rewrite Hkx|done].
Qed.

Lemma first_raise_here x l e : key x = Raise e → first_raise key (x :: l) e.
Proof. intros Hx. by exists [], x, l. Qed.

(** Where the key of some element raises there is a first one. *)
Lemma first_raise_Exists l :
  Exists (λ y, is_ok (key y) = false) l → ∃ e, first_raise key l e.
Proof.
  induction 1 as [x l Hx|x l _ [e IH]].
  - destruct (key x) as [k|e] eqn:Hk; [done|]. exists e. by apply first_raise_here.
  - destruct (key x) as [k|e'] eqn:Hk.
    + exists e. by eapply first_raise_cons_Ok.
    + exists e'. by apply first_raise_here.
Qed.

Lemma min_scan_Raise l : ∀ j best kbest e,
  min_scan key j best kbest l = Raise e → first_raise key l e.
Proof.
  induction l as [|x l IH]; intros j best kbest e Hscan; simpl in Hscan; [done|].
  apply bind_Raise_inv in Hscan as [Hx|(kx & Hkx & Hscan)].
  - by apply first_raise_here.
  - eapply first_raise_cons_Ok; [done|]. destruct (kx <? kbest); eauto.
Qed.

Lemma min_scan_first_raise l e j best kbest :
  first_raise key l e → min_scan key j best kbest l = Raise e.
Proof.
  intros (pre & y & post & -> & Hpre & Hy). revert j best kbest.
  induction Hpre as [|x pre [kx Hkx]%is_ok_true _ IH]; intros j best kbest; simpl.
  - by rewrite Hy.
  - rewrite Hkx; simpl. by destruct (kx <? kbest).
Qed.

Lemma min_scan_Ok l : ∀ j best kbest,
  Forall (λ y, is_ok (key y) = true) l →
  ∃ r, min_scan key j best kbest l = Ok r.
Proof.
  induction l as [|x l IH]; intros j best kbest Hkeys; simpl; [eauto|].
  apply Forall_cons in Hkeys as [(kx & ->)%is_ok_true Hkeys]. simpl.
  destruct (kx <? kbest); eauto.
Qed.

(** [min] raises [ValueError] on an empty list, and otherwise only what the
    key function raises, at the first element where it does. *)
Lemma py_min_Raise l e :
  py_min key l = Raise e → (l = [] ∧ e = ValueError) ∨ first_raise key l e.
Proof.
  destruct l as [|x l]; simpl; [intros [= <-]; by left|]. intros Hmin. right.
  apply bind_Raise_inv in Hmin as [Hx|(kx & Hkx & Hmin)].
  - by apply first_raise_here.
  - apply fmap_Raise_inv in Hmin. eapply first_raise_cons_Ok; [done|].
    by eapply min_scan_Raise.
Qed.

(** [min] returns when the list is not empty and every key is defined. *)
Lemma py_min_Ok l :
  l ≠ [] → Forall (λ y, is_ok (key y) = true) l → ∃ it, py_min key l = Ok it.
Proof.
  destruct l as [|x l]; [done|]. intros _.
  intros [(kx & Hkx)%is_ok_true Hkeys]%Forall_cons. simpl. rewrite Hkx. simpl.
  destruct (min_scan_Ok l 1 (Item 0 x) kx Hkeys) as [r ->]. eauto.
Qed.

(** On keys that are totally ordered the element chosen is a least one, and
    it is the only position that satisfies [first_min]. *)
Section total.
Context (ok : K → Prop) `{!PyTotalOn K ok}.

Lemma first_min_least l it k :
  first_min key l it k →
  Forall (λ y, ∀ ky, key y = Ok ky → ok ky) l →
  ∀ y ky, y ∈ l → key y = Ok ky → (k <=? ky) = true.
Proof.
  intros [Hin Hk _ Hlower _] Hok y ky Hy Hky.
  rewrite Forall_forall in Hok.
  apply (py_not_lt_le (ok:=ok)); [by eapply Hok|..|by eapply Hlower].
  eapply Hok; [|done]. by eapply list_elem_of_lookup_2.
Qed.

Lemma first_min_not_before l it k it' k' :
  first_min key l it k → first_min key l it' k' →
  Forall (λ y, ∀ ky, key y = Ok ky → ok ky) l →
  ¬ item_pos it < item_pos it'.
Proof.
  intros Hm Hm' Hok Hlt.
  pose proof (fm_stable _ _ _ _ Hm' _ _ _ (fm_in _ _ _ _ Hm) (fm_key _ _ _ _ Hm) Hlt) as Hle.
  rewrite (first_min_least _ _ _ Hm Hok (item_val it') k') in Hle; [done| |apply Hm'].
  eapply list_elem_of_lookup_2, Hm'.
Qed.

Lemma first_min_unique l it k it' k' :
  first_min key l it k → first_min key l it' k' →
  Forall (λ y, ∀ ky, key y = Ok ky → ok ky) l →
  it = it' ∧ k = k'.
Proof.
  intros Hm Hm' Hok.
  pose proof (first_min_not_before _ _ _ _ _ Hm Hm' Hok).
  pose proof (first_min_not_before _ _ _ _ _ Hm' Hm Hok).
  pose proof (fm_in _ _ _ _ Hm) as Hin. pose proof (fm_in _ _ _ _ Hm') as Hin'.
  pose proof (fm_key _ _ _ _ Hm) as Hk. pose proof (fm_key _ _ _ _ Hm') as Hk'.
  unfold item_in in *. destruct it as [i x], it' as [i' x']; simpl in *.
  assert (i = i') as -> by lia. split; congruence.
Qed.
End total.
End py_min_lemmas.

(** ** Properties of [py_list_remove] *)

Section py_list_remove_lemmas.
Context {A : Type} `{PyEq A}.
Implicit Types (l : list A) (x : item A).

(** The scan drops one element: the first that is the object or is equal
    to it. *)
Lemma remove_scan_spec l : ∀ j x l',
  remove_scan j x l = Some l' →
  ∃ i y, l !! i = Some y ∧ l' = delete i l ∧
    (j + i = item_pos x ∨ (y =? item_val x) = true) ∧
    ∀ i' y', i' < i → l !! i' = Some y' →
      j + i' ≠ item_pos x ∧ (y' =? item_val x) = false.
Proof.
  induction l as [|y l IH]; intros j x l' Hscan; simpl in Hscan; [done|].
  destruct (j =? item_pos x)%nat eqn:Hj; simpl in Hscan.
  { apply Nat.eqb_eq in Hj. simplify_eq.
    exists 0, y. split_and!; [done..|left; lia|lia]. }
  apply Nat.eqb_neq in Hj.
  destruct (y =? item_val x) eqn:Hy; simplify_eq/=.
  { exists 0, y. split_and!; [done..|by right|lia]. }
  destruct (remove_scan (S j) x l) as [l''|] eqn:Hrec; simplify_eq/=.
  destruct (IH _ _ _ Hrec) as (i & z & Hi & -> & Hhit & Hbefore).
  exists (S i), z. split_and!; [done..| |].
  - destruct Hhit; [left; lia|by right].
  - intros [|i'] y' Hlt Hi'; simplify_eq/=; [split; [lia|done]|].
    destruct (Hbefore i' y') as [? ?]; [lia|done|]. split; [lia|done].
Qed.

(** The scan fails only when no element is the object or equal to it. *)
Lemma remove_scan_None l : ∀ j x,
  remove_scan j x l = None →
  Forall (λ y, (y =? item_val x) = false) l ∧
  ¬ (j ≤ item_pos x < j + length l).
Proof.
  induction l as [|y l IH]; intros j x Hscan; simpl in *; [split; [done|lia]|].
  destruct (j =? item_pos x)%nat eqn:Hj; simpl in Hscan; [done|].
  apply Nat.eqb_neq in Hj.
  destruct (y =? item_val x) eqn:Hy; [done|].
  destruct (remove_scan (S j) x l) eqn:Hrec; [done|].
  destruct (IH _ _ Hrec) as [? ?]. split; [by constructor|lia].
Qed.

(** When no element before the object is equal to it, the object itself is
    dropped. *)
Lemma remove_scan_first l : ∀ j x,
  (∀ i y, j + i < item_pos x → l !! i = Some y → (y =? item_val x) = false) →
  j ≤ item_pos x < j + length l →
  remove_scan j x l = Some (delete (item_pos x - j) l).
Proof.
  induction l as [|y l IH]; intros j x Hbefore Hj; simpl in *; [lia|].
  destruct (j =? item_pos x)%nat eqn:Hjx; simpl.
  { apply Nat.eqb_eq in Hjx. by replace (item_pos x - j) with 0 by lia. }
  apply Nat.eqb_neq in Hjx.
  rewrite (Hbefore 0 y) by (done || lia).
  rewrite IH; [|intros i z ??; apply (Hbefore (S i)); [lia|done]|lia].
  by replace (item_pos x - j) with (S (item_pos x - S j)) by lia.
Qed.

Lemma py_list_remove_spec x l l' :
  py_list_remove x l = Ok l' →
  ∃ i y, l !! i = Some y ∧ l' = delete i l ∧
    (i = item_pos x ∨ (y =? item_val x) = true) ∧
    ∀ i' y', i' < i → l !! i' = Some y' →
      i' ≠ item_pos x ∧ (y' =? item_val x) = false.
Proof.
  unfold py_list_remove. destruct (remove_scan 0 x l) as [l''|] eqn:Hscan; [|done].
  intros [= <-]. by apply remove_scan_spec in Hscan.
Qed.

(** [list.remove] shortens the list by one element and keeps the others. *)
Lemma py_list_remove_length x l l' :
  py_list_remove x l = Ok l' → length l = S (length l').
Proof.
  intros (i & y & Hi & -> & _)%py_list_remove_spec.
  rewrite length_delete by eauto. apply lookup_lt_Some in Hi. lia.
Qed.

(** [list.remove] raises [ValueError], and only when the argument is not an
    element of the list. *)
Lemma py_list_remove_Raise x l e :
  py_list_remove x l = Raise e →
  e = ValueError ∧ ¬ item_in x l ∧ Forall (λ y, (y =? item_val x) = false) l.
Proof.
  unfold py_list_remove. destruct (remove_scan 0 x l) eqn:Hscan; [done|].
  intros [= <-]. apply remove_scan_None in Hscan as [? Hpos].
  split_and!; [done| |done]. intros Hin%lookup_lt_Some. lia.
Qed.

Lemma py_list_remove_Ok x l : item_in x l → ∃ l', py_list_remove x l = Ok l'.
Proof.
  intros Hin. destruct (py_list_remove x l) as [l'|e] eqn:Hrm; [eauto|].
  by apply py_list_remove_Raise in Hrm as (_ & ? & _).
Qed.

Lemma py_list_remove_first x l :
  item_in x l →
  (∀ i y, i < item_pos x → l !! i = Some y → (y =? item_val x) = false) →
  py_list_remove x l = Ok (delete (item_pos x) l).
Proof.
  intros Hin%lookup_lt_Some Hbefore. unfold py_list_remove.
  rewrite remove_scan_first; [by rewrite Nat.sub_0_r|done|lia].
Qed.
End py_list_remove_lemmas.

(** ** [min] followed by [remove] *)

Section py_min_remove.
Context {A K : Type} `{PyEq A} `{PyOrdLaws K}.
Context (key : A → result K) `{!PyKeyProper key}.
Implicit Types (l : list A) (it : item A).

(** No element before the one chosen by [min] is equal to it: an equal
    element has the same key, and would have been chosen. *)
Lemma first_min_no_equal_before l it k i y :
  first_min key l it k → i < item_pos it → l !! i = Some y →
  (y =? item_val it) = false.
Proof.
  intros Hm Hi Hy. apply not_true_iff_false. intros Heq%py_key_proper.
  rewrite (fm_key _ _ _ _ Hm) in Heq.
  pose proof (fm_stable _ _ _ _ Hm _ _ _ Hy Heq Hi) as Hle.
  destruct (lookup_lt_is_Some_2 l 0) as [y0 Hy0].
  { apply lookup_lt_Some in Hy. lia. }
  pose proof (Forall_lookup_1 _ _ _ _ (fm_keys _ _ _ _ Hm) Hy0) as [k0 Hk0]%is_ok_true.
  pose proof (fm_first _ _ _ _ Hm _ _ ltac:(lia) Hy0 Hk0) as Hlt.
  by rewrite (py_lt_le_refl _ _ Hlt) in Hle.
Qed.

(** So [remove] drops exactly the element that [min] returned, and cannot
    raise. *)
Lemma py_min_remove l it :
  py_min key l = Ok it →
  py_list_remove it l = Ok (delete (item_pos it) l).
Proof.
  intros [k Hm]%py_min_spec. apply py_list_remove_first; [apply Hm|].
  intros i y Hi Hy. by eapply first_min_no_equal_before.
Qed.
End py_min_remove.

(** ** Python integers *)

(** [int] compares as the integers do; the order is total. *)
#[export] Instance int_py_eq : PyEq Z := Z.eqb.
#[export] Instance int_py_ord : PyOrd Z := {| py_lt := Z.ltb; py_le := Z.leb |}.

#[export] Instance int_py_ord_laws : PyOrdLaws Z.
Proof. split; unfold py_lt, py_le; simpl; intros; lia. Qed.

#[export] Instance int_py_total : PyTotalOn Z (λ _, True).
Proof. split; unfold py_lt, py_le; simpl; intros; lia. Qed.

(** ** Lists of images

    [min] and [list.remove] on the images of a list under a function that
    keeps keys and equality do on the images what they do on the list. *)

Section images.
Context {A B K : Type} `{PyEq A} `{PyEq B} `{PyOrd K}.
Context (f : A → B) (key : A → result K) (key' : B → result K).
Context (Heq : ∀ x y, (f x =? f y) = (x =? y)).

Lemma min_scan_fmap (l : list A) : ∀ j best kbest,
  Forall (λ x, key' (f x) = key x) l →
  min_scan key' j (item_map f best) kbest (f <$> l) =
    prod_map (item_map f) id <$> min_scan key j best kbest l.
Proof.
  induction l as [|x l IH]; intros j best kbest Hkey; [done|].
  apply Forall_cons in Hkey as [Hx Hkey]. rewrite fmap_cons. simpl. rewrite Hx.
  destruct (key x) as [k|e]; [|done]. simpl.
  destruct (k <? kbest); [by apply (IH _ (Item j x))|by apply IH].
Qed.

Lemma py_min_fmap (l : list A) :
  Forall (λ x, key' (f x) = key x) l →
  py_min key' (f <$> l) = item_map f <$> py_min key l.
Proof.
  destruct l as [|x l]; [done|]. intros [Hx Hkey]%Forall_cons.
  rewrite fmap_cons. simpl. rewrite Hx. destruct (key x) as [k|e]; [|done]. simpl.
  rewrite (min_scan_fmap l 1 (Item 0 x)) by done.
  by destruct (min_scan key _ _ _ l) as [[]|].
Qed.

Lemma remove_scan_fmap (l : list A) : ∀ j x,
  remove_scan j (item_map f x) (f <$> l) = fmap (M:=list) f <$> remove_scan j x l.
Proof using Heq.
  induction l as [|y l IH]; intros j x; [done|]. rewrite fmap_cons. simpl.
  rewrite Heq. destruct (_ || _); [done|]. rewrite IH.
  by destruct (remove_scan (S j) x l).
Qed.

Lemma py_list_remove_fmap x (l : list A) :
  py_list_remove (item_map f x) (f <$> l) = fmap (M:=list) f <$> py_list_remove x l.
Proof using Heq.
  unfold py_list_remove. rewrite remove_scan_fmap.
  by destruct (remove_scan 0 x l).
Qed.
End images.

(** ** Contracts *)

Section contracts.
Context {A K : Type} `{PyEq A} `{PyOrdLaws K}.
Context (key : A → result K).
Implicit Types (l : list A) (it : item A).

(** [min] raises [ValueError] exactly on the empty list, and otherwise
    raises exactly what the key function raises at the first element where
    it raises: the elements after it are not looked at. *)
Lemma py_min_Raise_iff l e :
  py_min key l = Raise e ↔ (l = [] ∧ e = ValueError) ∨ first_raise key l e.
Proof.
  split; [apply py_min_Raise|]. intros [[-> ->]|Hraise]; [done|].
  destruct Hraise as ([|x pre] & y & post & -> & Hpre & Hy); simpl.
  { by rewrite Hy. }
  apply Forall_cons in Hpre as [[kx Hkx]%is_ok_true Hpre]. rewrite Hkx; simpl.
  rewrite (min_scan_first_raise _ _ e); [done|]. by exists pre, y, post.
Qed.

(** C6: on keys that are totally ordered, [min] returns an item exactly
    when it is the first minimum of the list: an element whose key no other
    key is below, at the first position where this holds. *)
Theorem py_min_iff_first_min (ok : K → Prop) `{!PyTotalOn K ok} l it :
  Forall (λ y, ∀ ky, key y = Ok ky → ok ky) l →
  py_min key l = Ok it ↔ ∃ k, first_min key l it k.
Proof.
  intros Hok. split; [apply py_min_spec|]. intros [k Hm].
  destruct (py_min_Ok key l) as [it' Hit']; [|apply Hm|].
  { intros ->. by pose proof (fm_in _ _ _ _ Hm). }
  destruct (py_min_spec _ _ _ Hit') as [k' Hm'].
  by destruct (first_min_unique key ok _ _ _ _ _ Hm Hm' Hok) as [-> _].
Qed.

(** C12: removing from a list the item that [min] chose in it never
    raises, and leaves the other elements: the list is a permutation of the
    chosen value followed by what remains. *)
Theorem py_min_then_remove `{!PyKeyProper key} l it :
  py_min key l = Ok it →
  ∃ l', py_list_remove it l = Ok l' ∧ l ≡ₚ item_val it :: l' ∧
    length l = S (length l').
Proof.
  intros Hmin. rewrite (py_min_remove key l it Hmin).
  destruct (py_min_spec _ _ _ Hmin) as [k [Hin _ _ _ _ _]].
  eexists. split_and!; [done|by apply delete_Permutation|].
  rewrite length_delete by eauto. apply lookup_lt_Some in Hin. lia.
Qed.
End contracts.

(** ** Witnesses *)

(** The key of an integer is the integer. *)
Definition int_key (z : Z) : result Z := Ok z.

#[export] Instance int_key_proper : PyKeyProper int_key.
Proof. intros x y Heq%Z.eqb_eq. by rewrite Heq. Qed.

Lemma py_min_iff_first_min_witness :
  py_min int_key [3; 1; 2; 1]%Z = Ok (Item 1 1%Z) ↔
  ∃ k, first_min int_key [3; 1; 2; 1]%Z (Item 1 1%Z) k.
Proof. apply (py_min_iff_first_min int_key (λ _, True)). by repeat constructor. Defined.

Lemma py_min_then_remove_witness :
  ∃ l', py_list_remove (Item 1 1%Z) [3; 1; 2; 1]%Z = Ok l' ∧
    [3; 1; 2; 1]%Z ≡ₚ 1%Z :: l' ∧ length [3; 1; 2; 1]%Z = S (length l').
Proof. apply (py_min_then_remove int_key [3; 1; 2; 1]%Z (Item 1 1%Z)). reflexivity. Defined.
