(* ===== verification/PyFloat.v ===== *)
(** * Python floats

    A Python [float] (and a [numpy.float64]) is an IEEE 754 binary64 number.
    It is modelled by the kernel's primitive [float], whose operations are
    the hardware's: a definition of this development evaluates to the bits
    the interpreter computes.

    The file has three parts.
    - The order of binary64 numbers.  [SFrank] maps a number that is not NaN
      to a triple of integers ordered lexicographically, and
      [SFcompare_rank] shows that the comparison of [SpecFloat] is the
      comparison of ranks.  Every order law then is linear arithmetic.
    - The comparisons of floats ([<], [<=], [==]) as instances of the
      interfaces of [PyBuiltins], with their laws.
    - The arithmetic the planner uses: [-], [+], [** 2] with its
      [OverflowError], and [numpy.sqrt]. *)

From Stdlib Require Import Floats ZArith Lia.
From stdpp Require Import prelude.
From S2P Require Import Prelude PyBuiltins.

#[local] Open Scope Z_scope.

(** ** The order of binary64 numbers *)

Definition SFis_nan (x : spec_float) : bool :=
  match x with S754_nan => true | _ => false end.

(** Infinities are at the ends, zeros of both signs in the middle, and a
    finite number is ranked by its exponent and then its mantissa, negated
    for negative numbers. *)
Definition SFrank (x : spec_float) : Z * Z * Z :=
  match x with
  | S754_nan => (0, 0, 0)
  | S754_zero _ => (0, 0, 0)
  | S754_infinity true => (-2, 0, 0)
  | S754_infinity false => (2, 0, 0)
  | S754_finite true m e => (-1, - e, - Z.pos m)
  | S754_finite false m e => (1, e, Z.pos m)
  end.

Definition lex3_compare (a b : Z * Z * Z) : comparison :=
  match a.1.1 ?= b.1.1 with
  | Eq => match a.1.2 ?= b.1.2 with Eq => a.2 ?= b.2 | c => c end
  | c => c
  end.

Definition lex3_lt (a b : Z * Z * Z) : Prop :=
  a.1.1 < b.1.1 ∨ (a.1.1 = b.1.1 ∧ (a.1.2 < b.1.2 ∨ (a.1.2 = b.1.2 ∧ a.2 < b.2))).

Definition lex3_eq (a b : Z * Z * Z) : Prop :=
  a.1.1 = b.1.1 ∧ a.1.2 = b.1.2 ∧ a.2 = b.2.

Definition lex3_le (a b : Z * Z * Z) : Prop := lex3_lt a b ∨ lex3_eq a b.

(** [x] is not below zero: it is NaN, a zero, or positive. *)
Definition SFnot_neg (x : spec_float) : Prop :=
  match x with
  | S754_infinity true | S754_finite true _ _ => False
  | _ => True
  end.

(** The rank and NaN test of a primitive float. *)
Definition float_rank (x : float) : Z * Z * Z := SFrank (Prim2SF x).

Definition float_ordered (x : float) : Prop := is_nan x = false.

(** ** Comparisons as instances of the interfaces *)

#[export] Instance float_py_eq : PyEq float := PrimFloat.eqb.
#[export] Instance float_py_ord : PyOrd float :=
  {| py_lt := PrimFloat.ltb; py_le := PrimFloat.leb |}.

(** ** Arithmetic *)

(** [x - y] and [x + y] on floats never raise. *)
Definition py_float_sub (x y : float) : float := (x - y)%float.
Definition py_float_add (x y : float) : float := (x + y)%float.

(** [x ** 2], that is [float_pow] of CPython with exponent [2.0]: NaN is
    returned as it is, an infinity gives [+inf], and otherwise C's
    [pow(x, 2.0)] is called; a result that is infinite sets [ERANGE], which
    becomes [OverflowError].  A result that underflows to zero is returned. *)
Definition py_float_pow2 (x : float) : result float :=
  if is_nan x then Ok x
  else if is_infinity x then Ok (abs x)
  else
    let r := (x * x)%float in
    if is_infinity r then Raise OverflowError else Ok r.

(** [numpy.sqrt] on a scalar: the IEEE 754 square root; NaN for a negative
    operand, with a warning and no exception. *)
Definition np_sqrt (x : float) : float := PrimFloat.sqrt x.

(** ** The comparison of [SpecFloat] is the comparison of ranks *)

Lemma lex3_compare_Lt a b : lex3_compare a b = Lt ↔ lex3_lt a b.
Proof.
  unfold lex3_compare, lex3_lt.
  destruct (Z.compare_spec a.1.1 b.1.1), (Z.compare_spec a.1.2 b.1.2),
    (Z.compare_spec a.2 b.2); split; (done || lia).
Qed.

Lemma lex3_compare_Eq a b : lex3_compare a b = Eq ↔ lex3_eq a b.
Proof.
  unfold lex3_compare, lex3_eq.
  destruct (Z.compare_spec a.1.1 b.1.1), (Z.compare_spec a.1.2 b.1.2),
    (Z.compare_spec a.2 b.2); split; (done || lia).
Qed.

Lemma lex3_eq_eq a b : lex3_eq a b ↔ a = b.
Proof.
  destruct a as [[a1 a2] a3], b as [[b1 b2] b3]; unfold lex3_eq; simpl.
  split; [by intros (-> & -> & ->)|by intros [= -> -> ->]].
Qed.

Lemma SFcompare_rank x y :
  SFcompare x y =
    if SFis_nan x || SFis_nan y then None
    else Some (lex3_compare (SFrank x) (SFrank y)).
Proof.
  destruct x as [[]|[]| |[] mx ex], y as [[]|[]| |[] my ey]; try reflexivity;
    unfold lex3_compare; simpl.
  all: try (by destruct (ex ?= ey)).
  all: rewrite Z.compare_opp, (Z.compare_antisym ex ey).
  all: destruct (ex ?= ey); simpl; try reflexivity.
  all: by rewrite Z.compare_opp, <- Pos.compare_antisym.
Qed.

(** The three comparisons differ only in the outcomes of [SFcompare] they
    accept: NaN operands first, then the comparison of ranks. *)
Ltac rank_cases x y :=
  destruct (SFis_nan x), (SFis_nan y); simpl;
  try (split; [done|by intros (? & ? & ?)]);
  destruct (lex3_compare _ _); split; try done; try (by intros (? & ? & ?)).

Lemma SFltb_rank x y :
  SFltb x y = true ↔
  SFis_nan x = false ∧ SFis_nan y = false ∧ lex3_lt (SFrank x) (SFrank y).
Proof. unfold SFltb. rewrite SFcompare_rank, <- lex3_compare_Lt. rank_cases x y. Qed.

Lemma SFeqb_rank x y :
  SFeqb x y = true ↔
  SFis_nan x = false ∧ SFis_nan y = false ∧ lex3_eq (SFrank x) (SFrank y).
Proof. unfold SFeqb. rewrite SFcompare_rank, <- lex3_compare_Eq. rank_cases x y. Qed.

Lemma SFleb_rank x y :
  SFleb x y = true ↔
  SFis_nan x = false ∧ SFis_nan y = false ∧ lex3_le (SFrank x) (SFrank y).
Proof.
  unfold SFleb, lex3_le. rewrite SFcompare_rank, <- lex3_compare_Lt, <- lex3_compare_Eq.
  rank_cases x y; auto; by intros (? & ? & [?|?]).
Qed.

(** ** Comparisons of primitive floats *)

Lemma is_nan_spec x : is_nan x = SFis_nan (Prim2SF x).
Proof.
  unfold is_nan. rewrite FloatAxioms.eqb_spec.
  destruct (SFeqb (Prim2SF x) (Prim2SF x)) eqn:Heq.
  - apply SFeqb_rank in Heq as (-> & _). done.
  - destruct (SFis_nan (Prim2SF x)) eqn:Hnan; [done|].
    rewrite (proj2 (SFeqb_rank _ _)) in Heq; done.
Qed.

Lemma ltb_rank x y :
  (x <? y)%float = true ↔
  is_nan x = false ∧ is_nan y = false ∧ lex3_lt (float_rank x) (float_rank y).
Proof. by rewrite ltb_spec, SFltb_rank, !is_nan_spec. Qed.

Lemma leb_rank x y :
  (x <=? y)%float = true ↔
  is_nan x = false ∧ is_nan y = false ∧ lex3_le (float_rank x) (float_rank y).
Proof. by rewrite leb_spec, SFleb_rank, !is_nan_spec. Qed.

Lemma eqb_rank x y :
  (x =? y)%float = true ↔
  is_nan x = false ∧ is_nan y = false ∧ lex3_eq (float_rank x) (float_rank y).
Proof. by rewrite FloatAxioms.eqb_spec, SFeqb_rank, !is_nan_spec. Qed.

Lemma false_iff_not (b : bool) (P : Prop) : (b = true ↔ P) → (b = false ↔ ¬ P).
Proof. intros HP. rewrite <- HP. by destruct b. Qed.

Lemma ltb_false_rank x y :
  (x <? y)%float = false ↔
  ¬ (is_nan x = false ∧ is_nan y = false ∧ lex3_lt (float_rank x) (float_rank y)).
Proof. apply false_iff_not, ltb_rank. Qed.

Lemma leb_false_rank x y :
  (x <=? y)%float = false ↔
  ¬ (is_nan x = false ∧ is_nan y = false ∧ lex3_le (float_rank x) (float_rank y)).
Proof. apply false_iff_not, leb_rank. Qed.

Lemma eqb_false_rank x y :
  (x =? y)%float = false ↔
  ¬ (is_nan x = false ∧ is_nan y = false ∧ lex3_eq (float_rank x) (float_rank y)).
Proof. apply false_iff_not, eqb_rank. Qed.

(** [float_order] proves an order fact on floats: comparisons become facts
    about ranks, which are linear arithmetic on the components. *)
Ltac float_order :=
  intros;
  unfold py_lt, py_le, py_eq, float_py_ord, float_py_eq, float_ordered in *;
  rewrite ?ltb_rank, ?leb_rank, ?eqb_rank,
    ?ltb_false_rank, ?leb_false_rank, ?eqb_false_rank in *;
  unfold lex3_le, lex3_lt, lex3_eq in *;
  solve [intuition lia | repeat split; solve [tauto | lia] ].

#[export] Instance float_py_ord_laws : PyOrdLaws float.
Proof. split; intros *. all: float_order. Qed.

#[export] Instance float_py_total : PyTotalOn float float_ordered.
Proof. split; intros x y Hx Hy. float_order. Qed.

(** ** Floats that compare equal *)

(** Two numbers with the same rank are the same number, or two zeros. *)
Lemma SFrank_eq_cases x y :
  SFis_nan x = false → SFis_nan y = false → lex3_eq (SFrank x) (SFrank y) →
  x = y ∨ ∃ s s', x = S754_zero s ∧ y = S754_zero s'.
Proof.
  unfold lex3_eq.
  destruct x as [[]|[]| |[] mx ex], y as [[]|[]| |[] my ey]; simpl;
    intros Hx Hy (? & ? & ?); try done; try lia; eauto; left; f_equal; lia.
Qed.

Lemma float_eqb_cases x y :
  (x =? y)%float = true →
  x = y ∨ ∃ s s', Prim2SF x = S754_zero s ∧ Prim2SF y = S754_zero s'.
Proof.
  rewrite eqb_rank, !is_nan_spec. intros (Hx & Hy & Hr).
  destruct (SFrank_eq_cases _ _ Hx Hy Hr) as [?%Prim2SF_inj|?]; auto.
Qed.

(** Subtracting either zero gives the same number, or again two zeros. *)
Lemma float_sub_zero_cases c y y' s s' :
  Prim2SF y = S754_zero s → Prim2SF y' = S754_zero s' →
  (c - y = c - y')%float ∨
  ∃ t t', Prim2SF (c - y) = S754_zero t ∧ Prim2SF (c - y') = S754_zero t'.
Proof.
  intros Hy Hy'.
  assert (Prim2SF (c - y) = SF64sub (Prim2SF c) (S754_zero s)) as Hu
    by by rewrite sub_spec, Hy.
  assert (Prim2SF (c - y') = SF64sub (Prim2SF c) (S754_zero s')) as Hv
    by by rewrite sub_spec, Hy'.
  destruct (Prim2SF c) as [sc|sc| |sc mc ec] eqn:Hc.
  - right. rewrite Hu, Hv. destruct sc, s, s'; simpl; eauto.
  - left. apply Prim2SF_inj. by rewrite Hu, Hv.
  - left. apply Prim2SF_inj. by rewrite Hu, Hv.
  - left. apply Prim2SF_inj. by rewrite Hu, Hv.
Qed.

(** The square of a zero of either sign is [+0.0]. *)
Lemma py_float_pow2_zero u s :
  Prim2SF u = S754_zero s → py_float_pow2 u = Ok 0%float.
Proof.
  intros Hu. unfold py_float_pow2, is_infinity.
  rewrite is_nan_spec, !FloatAxioms.eqb_spec, !abs_spec, mul_spec, Hu. simpl.
  f_equal. apply Prim2SF_inj. rewrite mul_spec, Hu. by destruct s.
Qed.

(** [(c - x) ** 2] does not distinguish floats that compare equal. *)
Lemma py_float_pow2_sub_proper c x y :
  (x =? y)%float = true →
  py_float_pow2 (py_float_sub c x) = py_float_pow2 (py_float_sub c y).
Proof.
  unfold py_float_sub.
  intros [->|(s & s' & Hx & Hy)]%float_eqb_cases; [done|].
  destruct (float_sub_zero_cases c x y s s' Hx Hy) as [->|(t & t' & Ht & Ht')]; [done|].
  by rewrite (py_float_pow2_zero _ _ Ht), (py_float_pow2_zero _ _ Ht').
Qed.

(** ** [** 2] *)

(** [x ** 2] raises only [OverflowError], exactly when [x] is finite and its
    square is not. *)
Lemma py_float_pow2_Raise x e :
  py_float_pow2 x = Raise e ↔
  e = OverflowError ∧ is_finite x = true ∧ is_infinity (x * x) = true.
Proof.
  unfold py_float_pow2, is_finite.
  destruct (is_nan x), (is_infinity x), (is_infinity (x * x)); simpl;
    split; try done; try (by intros (? & ? & ?)); [by intros [= <-]|by intros (-> & _)].
Qed.

Lemma py_float_pow2_Ok x r :
  py_float_pow2 x = Ok r →
  r = (if is_infinity x then abs x else if is_nan x then x else x * x)%float.
Proof.
  unfold py_float_pow2.
  destruct (is_nan x) eqn:Hnan, (is_infinity x) eqn:Hinf; try by intros [= <-].
  - intros [= <-]. exfalso. revert Hnan Hinf. unfold is_infinity.
    rewrite is_nan_spec, FloatAxioms.eqb_spec, abs_spec.
    by destruct (Prim2SF x) as [[]|[]| |[] ? ?].
  - by destruct (is_infinity (x * x)); intros [= <-].
Qed.

(** The square of a finite float is finite when it is returned. *)
Lemma py_float_pow2_finite x r :
  is_finite x = true → py_float_pow2 x = Ok r → r = (x * x)%float ∧ is_infinity r = false.
Proof.
  unfold py_float_pow2, is_finite.
  destruct (is_nan x), (is_infinity x); simpl; try done. intros _.
  destruct (is_infinity (x * x)) eqn:Hr; [done|]. by intros [= <-].
Qed.

(** ** Signs and absolute values

    Facts on the specification of the operations: a rounded result has the
    sign it was given, so a square root is never negative, and swapping the
    operands of a subtraction changes at most the sign of the result. *)

Section spec_float.
Context (prec emax : Z).

Lemma binary_round_aux_abs s m e l :
  SFabs (binary_round_aux prec emax s m e l) = binary_round_aux prec emax false m e l.
Proof.
  unfold binary_round_aux.
  destruct (shr_fexp prec emax m e l) as [mrs' e'].
  destruct (shr_fexp prec emax _ e' loc_Exact) as [mrs'' e''].
  destruct (shr_m mrs''); [done| |done]. by destruct (_ <=? _).
Qed.

Lemma SFabs_not_neg x : SFnot_neg (SFabs x).
Proof. by destruct x. Qed.

Lemma binary_round_aux_not_neg m e l : SFnot_neg (binary_round_aux prec emax false m e l).
Proof. rewrite <- (binary_round_aux_abs false). apply SFabs_not_neg. Qed.

Lemma SFsqrt_not_neg x : SFnot_neg (SFsqrt prec emax x).
Proof.
  destruct x as [[]|[]| |[] m e]; simpl; try done.
  destruct (SFsqrt_core_binary prec emax (Z.pos m) e) as [[mz ez] lz].
  apply binary_round_aux_not_neg.
Qed.

Lemma binary_normalize_abs m e sz :
  SFabs (binary_normalize prec emax (- m) e sz) = SFabs (binary_normalize prec emax m e sz).
Proof.
  destruct m; simpl; [done|..]; unfold binary_round;
    destruct (shl_align _ _ _); by rewrite !binary_round_aux_abs.
Qed.

Lemma SFsub_swap_abs x y :
  SFabs (SFsub prec emax x y) = SFabs (SFsub prec emax y x).
Proof.
  destruct x as [[]|[]| |sx mx ex], y as [[]|[]| |sy my ey]; simpl; try done.
  rewrite (Z.min_comm ey ex), <- binary_normalize_abs. f_equal. f_equal. lia.
Qed.

Lemma SFmul_abs x : SFmul prec emax x x = SFmul prec emax (SFabs x) (SFabs x).
Proof. by destruct x as [[]|[]| |[] m e]. Qed.

(** A square is not negative, and neither is a sum of numbers that are
    not. *)
Lemma SFmul_not_neg x : SFnot_neg (SFmul prec emax x x).
Proof.
  destruct x as [[]|[]| |[] m e]; simpl; try done; apply binary_round_aux_not_neg.
Qed.

Lemma binary_round_not_neg m e : SFnot_neg (binary_round prec emax false m e).
Proof.
  unfold binary_round. destruct (shl_align _ _ _). apply binary_round_aux_not_neg.
Qed.

Lemma SFadd_not_neg x y :
  SFnot_neg x → SFnot_neg y → SFnot_neg (SFadd prec emax x y).
Proof.
  destruct x as [[]|[]| |[] mx ex], y as [[]|[]| |[] my ey]; simpl; try done.
  intros _ _. apply binary_round_not_neg.
Qed.
End spec_float.

Lemma is_infinity_spec x :
  is_infinity x = true ↔ ∃ s, Prim2SF x = S754_infinity s.
Proof.
  unfold is_infinity. rewrite FloatAxioms.eqb_spec, abs_spec.
  destruct (Prim2SF x) as [[]|[]| |[] ? ?]; split; try done; eauto; by intros [? [=]].
Qed.

Lemma is_infinity_abs x : is_infinity x = true → abs x = infinity.
Proof.
  intros [s Hs]%is_infinity_spec. apply Prim2SF_inj. by rewrite abs_spec, Hs.
Qed.

Lemma is_infinity_not_nan x : is_infinity x = true → is_nan x = false.
Proof. intros [s Hs]%is_infinity_spec. by rewrite is_nan_spec, Hs. Qed.

(** ** Integers as floats

    The digits of a mantissa, and the rounding of an integer that needs
    no rounding. *)

(** A number of [d] binary digits is at least [2 ^ (d - 1)]. *)
Lemma digits2_pos_lower p : 2 ^ (Z.pos (digits2_pos p) - 1) ≤ Z.pos p.
Proof.
  induction p as [p IH|p IH|]; simpl; [| |done].
  all: rewrite Pos2Z.inj_succ; replace (Z.succ (Z.pos (digits2_pos p)) - 1)
    with (Z.succ (Z.pos (digits2_pos p) - 1)) by lia.
  all: rewrite Z.pow_succ_r by lia; lia.
Qed.

(** A number of [d] binary digits is below [2 ^ d]. *)
Lemma digits2_pos_upper p : Z.pos p < 2 ^ Z.pos (digits2_pos p).
Proof.
  induction p as [p IH|p IH|]; simpl; [| |done].
  all: rewrite Pos2Z.inj_succ, Z.pow_succ_r by lia; lia.
Qed.

(** Shifting a mantissa left by [n] adds [n] digits and multiplies by
    [2 ^ n]. *)
Lemma digits2_pos_iter_xO n p :
  digits2_pos (Pos.iter xO p n) = (digits2_pos p + n)%positive.
Proof.
  induction n as [|n IH] using Pos.peano_ind.
  - simpl. lia.
  - rewrite Pos.iter_succ. simpl. rewrite IH. lia.
Qed.

Lemma iter_xO_Z n p : Z.pos (Pos.iter xO p n) = Z.pos p * 2 ^ Z.pos n.
Proof.
  induction n as [|n IH] using Pos.peano_ind.
  - simpl. lia.
  - rewrite Pos.iter_succ, Pos2Z.inj_xO, IH, Pos2Z.inj_succ, Z.pow_succ_r by lia. lia.
Qed.

(** Rounding a mantissa that is already canonical returns it. *)
Lemma binary_round_aux_bounded sx m e :
  bounded prec emax m e = true →
  binary_round_aux prec emax sx (Z.pos m) e loc_Exact = S754_finite sx m e.
Proof.
  unfold bounded, canonical_mantissa. intros [Hcan%Z.eqb_eq He]%andb_prop.
  unfold binary_round_aux, shr_fexp. simpl Zdigits2. rewrite Hcan, Z.sub_diag. simpl.
  rewrite Hcan, Z.sub_diag. simpl. by rewrite He.
Qed.

(** A mantissa of 53 digits is canonical at every exponent of the
    normal range. *)
Lemma bounded_53 m e :
  Z.pos (digits2_pos m) = 53 → -1074 ≤ e ≤ 971 → bounded prec emax m e = true.
Proof.
  intros Hm He. unfold bounded, canonical_mantissa, fexp, emin, prec, emax. rewrite Hm.
  apply andb_true_intro. split; [apply Z.eqb_eq|apply Z.leb_le]; lia.
Qed.

(** An integer below [2 ^ 53] is rounded to a float of the same value:
    its mantissa shifted to 53 digits. *)
Lemma binary_round_small sx p :
  Z.pos p < 2 ^ 53 →
  ∃ m e, binary_round prec emax sx p 0 = S754_finite sx m e ∧
    bounded prec emax m e = true ∧ e ≤ 0 ∧ Z.pos m = Z.pos p * 2 ^ (- e).
Proof.
  intros Hp. pose proof (digits2_pos_lower p) as Hd.
  assert (Z.pos (digits2_pos p) ≤ 53) as Hd53.
  { apply Z.nlt_ge. intros Hlt.
    pose proof (Z.pow_le_mono_r 2 53 (Z.pos (digits2_pos p) - 1)). lia. }
  unfold binary_round, shl_align.
  replace (fexp prec emax (Z.pos (digits2_pos p) + 0)) with (Z.pos (digits2_pos p) - 53)
    by (unfold fexp, emin, prec, emax; lia).
  destruct (Z.pos (digits2_pos p) - 53 - 0) as [|k|k] eqn:Hk; [|lia|].
  - exists p, 0.
    assert (bounded prec emax p 0 = true) as Hb by (apply bounded_53; lia).
    rewrite binary_round_aux_bounded by done. split_and!; [done|done|lia|simpl; lia].
  - exists (Pos.iter xO p k), (Z.pos (digits2_pos p) - 53).
    assert (bounded prec emax (Pos.iter xO p k) (Z.pos (digits2_pos p) - 53) = true) as Hb
      by (apply bounded_53; rewrite ?digits2_pos_iter_xO, ?Pos2Z.inj_add; lia).
    rewrite binary_round_aux_bounded by done. split_and!; [done|done|lia|].
    rewrite iter_xO_Z. do 2 f_equal. lia.
Qed.

(** A canonical mantissa and exponent are those of a finite float. *)
Lemma SF2Prim_finite sx m e :
  bounded prec emax m e = true →
  Prim2SF (SF2Prim (S754_finite sx m e)) = S754_finite sx m e ∧
  is_infinity (SF2Prim (S754_finite sx m e)) = false.
Proof.
  intros Hb. assert (Prim2SF (SF2Prim (S754_finite sx m e)) = S754_finite sx m e) as Heq
    by by apply Prim2SF_SF2Prim.
  split; [done|]. apply not_true_is_false. intros [s Hs]%is_infinity_spec. congruence.
Qed.

Lemma SFltb_not_neg x s : SFnot_neg x → SFltb x (S754_zero s) = false.
Proof. by destruct x as [[]|[]| |[] ? ?]. Qed.

Lemma np_sqrt_not_negative x : (np_sqrt x <? 0)%float = false.
Proof.
  unfold np_sqrt. rewrite ltb_spec, sqrt_spec.
  apply (SFltb_not_neg _ false), SFsqrt_not_neg.
Qed.

(** What [x ** 2] returns is not negative, and a sum of floats that are
    not negative is not negative: [np.sqrt] is never given a negative
    number by [calculate_distance]. *)
Lemma py_float_pow2_not_negative x r :
  py_float_pow2 x = Ok r → SFnot_neg (Prim2SF r).
Proof.
  unfold py_float_pow2. destruct (is_nan x) eqn:Hnan.
  { intros [= <-]. rewrite is_nan_spec in Hnan. by destruct (Prim2SF x). }
  destruct (is_infinity x).
  { intros [= <-]. rewrite abs_spec. apply SFabs_not_neg. }
  destruct (is_infinity (x * x)); [done|]. intros [= <-].
  rewrite mul_spec. apply SFmul_not_neg.
Qed.

Lemma py_float_add_not_negative x y :
  SFnot_neg (Prim2SF x) → SFnot_neg (Prim2SF y) →
  SFnot_neg (Prim2SF (py_float_add x y)).
Proof. unfold py_float_add. rewrite add_spec. apply SFadd_not_neg. Qed.

Lemma not_negative_ltb x : SFnot_neg (Prim2SF x) → (x <? 0)%float = false.
Proof. rewrite ltb_spec. apply (SFltb_not_neg _ false). Qed.

Lemma is_nan_abs x : is_nan (abs x) = is_nan x.
Proof. rewrite !is_nan_spec, abs_spec. by destruct (Prim2SF x). Qed.

Lemma is_nan_eq x y : is_nan x = true → is_nan y = true → x = y.
Proof.
  rewrite !is_nan_spec. intros Hx Hy. apply Prim2SF_inj.
  by destruct (Prim2SF x), (Prim2SF y).
Qed.

Lemma float_mul_abs x : (x * x = abs x * abs x)%float.
Proof. apply Prim2SF_inj. rewrite !mul_spec, abs_spec. apply SFmul_abs. Qed.

(** [x ** 2] depends on the absolute value of [x] only. *)
Lemma py_float_pow2_abs x y : abs x = abs y → py_float_pow2 x = py_float_pow2 y.
Proof.
  intros Habs. unfold py_float_pow2, is_infinity.
  rewrite (float_mul_abs x), (float_mul_abs y), <- (is_nan_abs x), <- (is_nan_abs y), Habs.
  destruct (is_nan (abs y)) eqn:Hnan; [|done].
  f_equal. apply is_nan_eq; rewrite <- is_nan_abs; [by rewrite Habs|done].
Qed.

Lemma float_sub_swap_abs x y : (abs (x - y) = abs (y - x))%float.
Proof. apply Prim2SF_inj. rewrite !abs_spec, !sub_spec. apply SFsub_swap_abs. Qed.

Lemma py_float_pow2_sub_swap x y :
  py_float_pow2 (py_float_sub x y) = py_float_pow2 (py_float_sub y x).
Proof. apply py_float_pow2_abs, float_sub_swap_abs. Qed.

Lemma is_finite_spec x :
  is_finite x = true ↔
  ∃ s, Prim2SF x = S754_zero s ∨ ∃ m e, Prim2SF x = S754_finite s m e.
Proof.
  unfold is_finite. rewrite is_nan_spec. destruct (is_infinity x) eqn:Hinf.
  - apply is_infinity_spec in Hinf as [s ->]. simpl.
    split; [done|]. by intros (s' & [?|(? & ? & ?)]).
  - apply not_true_iff_false in Hinf. rewrite is_infinity_spec in Hinf.
    destruct (Prim2SF x) as [s|s| |s m e]; simpl.
    + split; [eauto|done].
    + destruct Hinf. eauto.
    + split; [done|]. by intros (s' & [?|(? & ? & ?)]).
    + split; [eauto 6|done].
Qed.

Lemma float_sub_self x : is_finite x = true → (x - x)%float = 0%float.
Proof.
  intros (s & [Hx|(m & e & Hx)])%is_finite_spec; apply Prim2SF_inj;
    rewrite sub_spec, Hx; simpl.
  - by destruct s.
  - by rewrite Z.sub_diag.
Qed.

(** ** Contracts *)

Lemma lex3_trichotomy a b : lex3_lt a b ∨ lex3_eq a b ∨ lex3_lt b a.
Proof. unfold lex3_lt, lex3_eq. lia. Qed.

(** Two floats that are not NaN compare in exactly one of three
    ways: [x < y], [x == y] or [y < x], and [<=] is [<] or [==]. *)
Lemma float_compare_total (x y : float) :
  float_ordered x → float_ordered y →
  (py_lt x y = true ∧ py_eq x y = false ∧ py_lt y x = false ∧
   py_le x y = true ∧ py_le y x = false) ∨
  (py_lt x y = false ∧ py_eq x y = true ∧ py_lt y x = false ∧
   py_le x y = true ∧ py_le y x = true) ∨
  (py_lt x y = false ∧ py_eq x y = false ∧ py_lt y x = true ∧
   py_le x y = false ∧ py_le y x = true).
Proof.
  intros Hx Hy.
  destruct (lex3_trichotomy (float_rank x) (float_rank y)) as [Hr|[Hr|Hr]];
    [left|right; left|right; right]; float_order.
Qed.

(** Every comparison with a float that is not ordered, that is with
    NaN, is false, [==] with itself included. *)
Lemma float_compare_nan (x y : float) :
  ¬ float_ordered x →
  py_lt x y = false ∧ py_lt y x = false ∧ py_le x y = false ∧ py_le y x = false ∧
  py_eq x y = false ∧ py_eq y x = false ∧ py_eq x x = false.
Proof.
  intros Hx. unfold py_lt, py_le, py_eq, float_py_ord, float_py_eq.
  rewrite !ltb_false_rank, !leb_false_rank, !eqb_false_rank.
  repeat split; intros (? & ? & _); by destruct Hx.
Qed.

(** [x ** 2] on a finite [x] returns the rounded square when it is
    finite and raises [OverflowError] when it is infinite, so it never
    returns an infinity for a finite operand; on an infinite [x] it returns
    infinity, and on NaN it returns NaN. *)
Lemma py_float_pow2_outcome (x : float) :
  (is_finite x = true →
     (py_float_pow2 x = Ok (x * x)%float ∧ is_infinity (x * x) = false) ∨
     (py_float_pow2 x = Raise OverflowError ∧ is_infinity (x * x) = true)) ∧
  (is_infinity x = true → py_float_pow2 x = Ok infinity) ∧
  (is_nan x = true → py_float_pow2 x = Ok x).
Proof.
  unfold is_finite, py_float_pow2. split_and!.
  - destruct (is_nan x), (is_infinity x); simpl; [done..|]. intros _.
    destruct (is_infinity (x * x)); auto.
  - intros Hinf. by rewrite (is_infinity_not_nan x Hinf), Hinf, is_infinity_abs.
  - by intros ->.
Qed.
