(* ===== verification/FloatBounds.v ===== *)
(** * Magnitudes of floats

    [calculate_distance] ([src/main.py], lines 14-17) raises
    [OverflowError] when the square of a coordinate difference is too large
    for a float.  This file bounds the magnitude of what [-], [+], [** 2]
    and [numpy.sqrt] return by the magnitude of their operands, so that the
    planner can be shown to raise nothing on coordinates of a given size.

    A float is below [2 ^ k] ([float_below k]) when it is a zero, or a
    finite number whose mantissa [m] and exponent [e] satisfy
    [digits m + e ≤ k]; NaN and the infinities are below nothing.  The
    bounds follow the definitions of [SpecFloat]: [shr] divides the
    mantissa by a power of two, rounding to nearest adds at most one to
    it, and the exponent is the one [fexp] gives for the magnitude.  They
    are sufficient and not tight: each operation is allowed to add a digit
    for its rounding.

    The square is also bounded exactly: the square of a finite float is
    an infinity exactly when the float is [2 ^ 512] or more in absolute
    value ([square_overflows]), so that [** 2] raises on those floats and
    on no other ([py_float_pow2_threshold]).

    The file has five parts: the number of binary digits of an integer
    ([Zdigits2]), the shifts of [SpecFloat], rounding, the operations on
    [spec_float] and on primitive floats, and the threshold of the
    square. *)

From Stdlib Require Import Floats ZArith SpecFloat Lia.
From stdpp Require Import prelude.
From S2P Require Import Prelude PyBuiltins PyFloat.

#[local] Open Scope Z_scope.

(** ** Magnitudes *)

(** [x] is a zero or a finite number of magnitude below [2 ^ k]. *)
Definition SFbelow (k : Z) (x : spec_float) : Prop :=
  match x with
  | S754_zero _ => True
  | S754_finite _ m e => Z.pos (digits2_pos m) + e ≤ k
  | _ => False
  end.

Definition float_below (k : Z) (x : float) : Prop := SFbelow k (Prim2SF x).

#[export] Instance SFbelow_dec k x : Decision (SFbelow k x).
Proof. destruct x; simpl; apply _. Defined.

#[export] Instance float_below_dec k x : Decision (float_below k x).
Proof. unfold float_below. apply _. Defined.

(** [x] is a finite float of absolute value at least [2 ^ 512], as the
    comparisons of the program decide it: the operands on which [** 2]
    raises [OverflowError]. *)
Definition square_overflows (x : float) : bool :=
  is_finite x && (0x1p512 <=? abs x)%float.

(** ** Binary digits

    [Zdigits2 z] is the number of binary digits of [|z|]:
    [2 ^ (d - 1) ≤ |z| < 2 ^ d]. *)

Lemma Zdigits2_nonneg z : 0 ≤ Zdigits2 z.
Proof. by destruct z. Qed.

Lemma Zdigits2_upper z : Z.abs z < 2 ^ Zdigits2 z.
Proof. destruct z as [|p|p]; simpl; [done|apply digits2_pos_upper..]. Qed.

Lemma Zdigits2_lower z : z ≠ 0 → 2 ^ (Zdigits2 z - 1) ≤ Z.abs z.
Proof. destruct z as [|p|p]; simpl; [done|intros _; apply digits2_pos_lower..]. Qed.

Lemma Zdigits2_le z d : 0 ≤ d → Z.abs z < 2 ^ d → Zdigits2 z ≤ d.
Proof.
  intros Hd Hz. destruct (decide (z = 0)) as [->|Hz0]; [done|].
  pose proof (Zdigits2_lower z Hz0). apply Z.nlt_ge. intros Hlt.
  pose proof (Z.pow_le_mono_r 2 d (Zdigits2 z - 1)). lia.
Qed.

Lemma Zdigits2_ge z d : 2 ^ d ≤ Z.abs z → d < Zdigits2 z.
Proof.
  intros Hz. pose proof (Zdigits2_upper z). apply Z.nle_gt. intros Hle.
  pose proof (Zdigits2_nonneg z).
  pose proof (Z.pow_le_mono_r 2 (Zdigits2 z) d). lia.
Qed.

Lemma Zdigits2_eq z d : 0 < d → 2 ^ (d - 1) ≤ Z.abs z < 2 ^ d → Zdigits2 z = d.
Proof.
  intros Hd [Hl Hu]. pose proof (Zdigits2_le z d ltac:(lia) Hu).
  pose proof (Zdigits2_ge z (d - 1) Hl). lia.
Qed.

Lemma Zdigits2_mono z w : 0 ≤ z ≤ w → Zdigits2 z ≤ Zdigits2 w.
Proof.
  intros Hzw. apply Zdigits2_le; [apply Zdigits2_nonneg|].
  pose proof (Zdigits2_upper w). lia.
Qed.

(** Dividing by [2 ^ n] removes [n] digits, and adding one adds at most
    one. *)
Lemma Zdigits2_div z n d :
  0 ≤ z → 0 ≤ n → Zdigits2 z ≤ d → Zdigits2 (z / 2 ^ n) ≤ Z.max (d - n) 0.
Proof.
  intros Hz Hn Hd. apply Zdigits2_le; [lia|].
  pose proof (Zdigits2_upper z) as Hup. pose proof (Zdigits2_nonneg z).
  pose proof (Z_div_pow2_nonneg z n Hz).
  assert (z < 2 ^ d) by (pose proof (Z.pow_le_mono_r 2 (Zdigits2 z) d); lia).
  rewrite Z.abs_eq by done. pose proof (Z.pow_pos_nonneg 2 n).
  destruct (Z.le_gt_cases n d).
  - rewrite Z.max_l by lia. apply Z.div_lt_upper_bound; [lia|].
    rewrite <- Z.pow_add_r by lia. by replace (n + (d - n)) with d by lia.
  - rewrite Z.max_r by lia. simpl. apply Z.div_lt_upper_bound; [lia|].
    pose proof (Z.pow_le_mono_r 2 d n). lia.
Qed.

Lemma Zdigits2_succ z w : 0 ≤ z → w ≤ z + 1 → Zdigits2 w ≤ Zdigits2 z + 1 ∨ w < 0.
Proof.
  intros Hz Hw. destruct (Z.le_gt_cases 0 w); [left|by right].
  pose proof (Zdigits2_nonneg z).
  apply Zdigits2_le; [lia|]. pose proof (Zdigits2_upper z).
  rewrite Z.pow_add_r, Z.pow_1_r by lia. lia.
Qed.

(** The digits of a sum, a shifted mantissa, a product and a square
    root. *)
Lemma Zdigits2_add a b d :
  0 ≤ d → Z.abs a < 2 ^ d → Z.abs b < 2 ^ d →
  Zdigits2 (a + b) ≤ d + 1 ∧ Zdigits2 (a - b) ≤ d + 1.
Proof.
  intros Hd Ha Hb.
  split; (apply Zdigits2_le; [lia|]); rewrite Z.pow_add_r, Z.pow_1_r by lia; lia.
Qed.

Lemma Zdigits2_shift m s :
  0 ≤ s → Zdigits2 (Z.pos m * 2 ^ s) = Z.pos (digits2_pos m) + s.
Proof.
  intros Hs. pose proof (digits2_pos_lower m). pose proof (digits2_pos_upper m).
  pose proof (Z.pow_pos_nonneg 2 s).
  apply Zdigits2_eq; [lia|]. rewrite Z.abs_eq by lia.
  replace (Z.pos (digits2_pos m) + s - 1) with (Z.pos (digits2_pos m) - 1 + s) by lia.
  rewrite !Z.pow_add_r by lia. nia.
Qed.

Lemma digits2_pos_mul mx my :
  Z.pos (digits2_pos mx) + Z.pos (digits2_pos my) - 1 ≤ Z.pos (digits2_pos (mx * my)) ∧
  Z.pos (digits2_pos (mx * my)) ≤ Z.pos (digits2_pos mx) + Z.pos (digits2_pos my).
Proof.
  pose proof (digits2_pos_lower mx) as Hlx. pose proof (digits2_pos_upper mx) as Hux.
  pose proof (digits2_pos_lower my) as Hly. pose proof (digits2_pos_upper my) as Huy.
  set (dx := Z.pos (digits2_pos mx)) in *. set (dy := Z.pos (digits2_pos my)) in *.
  assert (2 ^ (dx - 1 + (dy - 1)) ≤ Z.pos (mx * my)) as Hl
    by (rewrite Z.pow_add_r, Pos2Z.inj_mul by lia; nia).
  assert (Z.pos (mx * my) < 2 ^ (dx + dy)) as Hu
    by (rewrite Z.pow_add_r, Pos2Z.inj_mul by lia; nia).
  split.
  - pose proof (Zdigits2_ge (Z.pos (mx * my)) (dx - 1 + (dy - 1)) ltac:(lia)). simpl in *. lia.
  - apply (Zdigits2_le (Z.pos (mx * my))); lia.
Qed.

Lemma Zdigits2_sqrt z : 0 < z → Zdigits2 (Z.sqrt z) = (Zdigits2 z + 1) / 2.
Proof.
  intros Hz. pose proof (Zdigits2_upper z) as Hu.
  pose proof (Zdigits2_lower z ltac:(lia)) as Hl. rewrite Z.abs_eq in Hu, Hl by lia.
  assert (0 < Zdigits2 z) by (destruct z; simpl; lia).
  set (h := (Zdigits2 z + 1) / 2).
  assert (0 < h ∧ Zdigits2 z ≤ 2 * h ≤ Zdigits2 z + 1) as Hh
    by (pose proof (Z_half_bounds (Zdigits2 z + 1)); unfold h; lia).
  clearbody h.
  pose proof (Z.sqrt_nonneg z). pose proof (Z.pow_pos_nonneg 2 h).
  pose proof (Z.pow_pos_nonneg 2 (h - 1)).
  apply Zdigits2_eq; [lia|]. rewrite Z.abs_eq by done. split.
  - apply Z.sqrt_le_square; [lia..|]. rewrite <- Z.pow_add_r by lia.
    pose proof (Z.pow_le_mono_r 2 (h - 1 + (h - 1)) (Zdigits2 z - 1)). lia.
  - apply Z.sqrt_lt_square; [lia..|]. rewrite <- Z.pow_add_r by lia.
    pose proof (Z.pow_le_mono_r 2 (Zdigits2 z) (h + h)). lia.
Qed.

(** ** Shifts

    A right shift by [n] divides the mantissa by [2 ^ n] and adds [n] to
    the exponent; a left shift to a smaller exponent keeps the magnitude. *)

Lemma shr_1_m mrs : 0 ≤ shr_m mrs → shr_m (shr_1 mrs) = shr_m mrs / 2.
Proof.
  destruct mrs as [[|[p|p|]|p] r s]; simpl; try done; intros _.
  - rewrite Pos2Z.inj_xI. apply Z.div_unique with 1; lia.
  - rewrite Pos2Z.inj_xO. apply Z.div_unique with 0; lia.
Qed.

Lemma iter_pos_shr_1_m n : ∀ mrs,
  0 ≤ shr_m mrs → shr_m (SpecFloat.iter_pos shr_1 n mrs) = shr_m mrs / 2 ^ Z.pos n.
Proof.
  induction n as [n IH|n IH|]; intros mrs Hm; simpl.
  - assert (0 ≤ shr_m (shr_1 mrs)) as H1
      by (rewrite shr_1_m by done; apply (Z_div_pow2_nonneg _ 1 Hm)).
    pose proof (Z_div_pow2_nonneg _ (Z.pos n) H1).
    rewrite !IH, shr_1_m by (rewrite ?IH; done).
    change (shr_m mrs / 2) with (shr_m mrs / 2 ^ 1).
    rewrite !Z_div_pow2 by lia. f_equal. f_equal. lia.
  - pose proof (Z_div_pow2_nonneg _ (Z.pos n) Hm).
    rewrite !IH by (rewrite ?IH; done).
    rewrite !Z_div_pow2 by lia. f_equal. f_equal. lia.
  - by apply shr_1_m.
Qed.

Lemma shr_spec mrs e n :
  0 ≤ shr_m mrs →
  ∃ mrs', shr mrs e n = (mrs', e + Z.max n 0) ∧ shr_m mrs' = shr_m mrs / 2 ^ Z.max n 0.
Proof.
  intros Hm. destruct n as [|p|p]; simpl.
  - exists mrs. by rewrite Z.add_0_r, Z.div_1_r.
  - eexists. split; [done|]. by apply iter_pos_shr_1_m.
  - exists mrs. by rewrite Z.add_0_r, Z.div_1_r.
Qed.

Lemma shr_record_of_loc_m m l : shr_m (shr_record_of_loc m l) = m.
Proof. by destruct l as [|[]]. Qed.

Lemma shl_align_spec mx ex ex' :
  ∃ mz, shl_align mx ex ex' = (mz, Z.min ex ex') ∧
    Z.pos mz = Z.pos mx * 2 ^ (ex - Z.min ex ex') ∧
    Z.pos (digits2_pos mz) = Z.pos (digits2_pos mx) + (ex - Z.min ex ex').
Proof.
  unfold shl_align. destruct (ex' - ex) as [|d|d] eqn:Hd.
  - exists mx. rewrite Z.min_l, Z.sub_diag by lia. split_and!; f_equal; lia.
  - exists mx. rewrite Z.min_l, Z.sub_diag by lia. split_and!; f_equal; lia.
  - exists (Pos.iter xO mx d). rewrite Z.min_r by lia.
    replace (ex - ex') with (Z.pos d) by lia.
    split_and!; [done|apply iter_xO_Z|]. rewrite digits2_pos_iter_xO. lia.
Qed.

Lemma shl_align_abs s mx ex ez k :
  ez ≤ ex → Z.pos (digits2_pos mx) + ex ≤ k →
  Z.abs (cond_Zopp s (Z.pos (shl_align mx ex ez).1)) < 2 ^ (k - ez).
Proof.
  intros Hez Hk. destruct (shl_align_spec mx ex ez) as (mz & -> & _ & Hdz).
  rewrite Z.min_r in Hdz by done. pose proof (digits2_pos_upper mz) as Hup.
  pose proof (Z.pow_le_mono_r 2 (Z.pos (digits2_pos mz)) (k - ez)).
  destruct s; simpl; lia.
Qed.

(** ** Rounding *)

Lemma SFbelow_mono k k' x : SFbelow k x → k ≤ k' → SFbelow k' x.
Proof. destruct x; simpl; lia. Qed.

Lemma round_nearest_even_bounds m l : m ≤ round_nearest_even m l ≤ m + 1.
Proof. destruct l as [|[]]; simpl; try destruct (Z.even m); lia. Qed.

Lemma bounded_canonical m e :
  bounded prec emax m e = true →
  e = fexp prec emax (Z.pos (digits2_pos m) + e) ∧ e ≤ 971.
Proof.
  unfold bounded, canonical_mantissa. intros [Hcan%Z.eqb_eq He%Z.leb_le]%andb_prop.
  unfold emax, prec in He. split; [done|lia].
Qed.

(** What [binary_round_aux] computes: the mantissa is shifted to the
    exponent [e1] of its magnitude and rounded to [m2]; when rounding added
    a digit it is shifted once more, to the exponent [e2]; the result is
    an infinity when [e2] is above the largest exponent. *)
Lemma binary_round_aux_spec sx mx ex lx :
  0 ≤ mx →
  ∃ m2 m3,
    let e1 := ex + Z.max (fexp prec emax (Zdigits2 mx + ex) - ex) 0 in
    let e2 := e1 + Z.max (fexp prec emax (Zdigits2 m2 + e1) - e1) 0 in
    mx / 2 ^ (e1 - ex) ≤ m2 ≤ mx / 2 ^ (e1 - ex) + 1 ∧
    m3 = m2 / 2 ^ (e2 - e1) ∧
    binary_round_aux prec emax sx mx ex lx =
      match m3 with
      | 0 => S754_zero sx
      | Z.pos m => if e2 <=? emax - prec then S754_finite sx m e2 else S754_infinity sx
      | Z.neg _ => S754_nan
      end.
Proof.
  intros Hmx. unfold binary_round_aux, shr_fexp.
  destruct (shr_spec (shr_record_of_loc mx lx) ex
    (fexp prec emax (Zdigits2 mx + ex) - ex)) as (mrs1 & -> & Hm1);
    [by rewrite shr_record_of_loc_m|].
  rewrite shr_record_of_loc_m in Hm1.
  set (n1 := Z.max (fexp prec emax (Zdigits2 mx + ex) - ex) 0) in *.
  pose proof (round_nearest_even_bounds (shr_m mrs1) (loc_of_shr_record mrs1)) as Hm2.
  set (m2 := round_nearest_even (shr_m mrs1) (loc_of_shr_record mrs1)) in *.
  pose proof (Z_div_pow2_nonneg mx n1 Hmx) as Hm1pos. rewrite <- Hm1 in Hm1pos.
  destruct (shr_spec (shr_record_of_loc m2 loc_Exact) (ex + n1)
    (fexp prec emax (Zdigits2 m2 + (ex + n1)) - (ex + n1))) as (mrs2 & -> & Hm3);
    [simpl; lia|].
  simpl shr_m in Hm3. exists m2, (shr_m mrs2). simpl.
  replace (ex + n1 - ex) with n1 by lia. rewrite <- Hm1.
  split_and!; [lia..| |done]. rewrite Hm3. f_equal. f_equal. lia.
Qed.

(** Rounding a mantissa of magnitude below [2 ^ k] gives a zero or a
    finite number below [2 ^ (k + 1)], not an infinity, as long as [k + 1]
    is at most the largest exponent. *)
Lemma binary_round_aux_below sx mx ex lx k :
  0 ≤ mx → ex ≤ fexp prec emax (Zdigits2 mx + ex) →
  Zdigits2 mx + ex ≤ k → -1074 ≤ k < 1024 →
  SFbelow (k + 1) (binary_round_aux prec emax sx mx ex lx).
Proof.
  intros Hmx Hex Hmag Hk.
  destruct (binary_round_aux_spec sx mx ex lx Hmx) as (m2 & m3 & Hm2 & Hm3 & ->).
  set (e1 := ex + Z.max (fexp prec emax (Zdigits2 mx + ex) - ex) 0) in *.
  set (e2 := e1 + Z.max (fexp prec emax (Zdigits2 m2 + e1) - e1) 0) in *.
  pose proof (Z_div_pow2_nonneg mx (e1 - ex) Hmx) as Hm1.
  pose proof (Zdigits2_div mx (e1 - ex) (Zdigits2 mx) Hmx ltac:(lia) ltac:(lia)) as Hd1.
  destruct (Zdigits2_succ _ m2 Hm1 ltac:(lia)) as [Hd2|?]; [|lia].
  pose proof (Zdigits2_div m2 (e2 - e1) (Zdigits2 m2) ltac:(lia) ltac:(lia) ltac:(lia))
    as Hd3.
  pose proof (Z_div_pow2_nonneg m2 (e2 - e1) ltac:(lia)) as Hm3pos.
  rewrite <- Hm3 in Hd3, Hm3pos.
  pose proof (Zdigits2_nonneg mx). pose proof (Zdigits2_nonneg m2).
  unfold fexp, emin, prec, emax in *.
  destruct m3 as [|m|m]; simpl in *; [done| |lia].
  destruct (Z.leb_spec e2 (1024 - 53)); simpl; lia.
Qed.

Lemma binary_round_below sx mx ex k :
  Z.pos (digits2_pos mx) + ex ≤ k → -1074 ≤ k < 1024 →
  SFbelow (k + 1) (binary_round prec emax sx mx ex).
Proof.
  intros Hmag Hk. unfold binary_round.
  destruct (shl_align_spec mx ex (fexp prec emax (Z.pos (digits2_pos mx) + ex)))
    as (mz & -> & _ & Hdz).
  apply binary_round_aux_below; simpl Zdigits2; rewrite ?Hdz; [done| |lia|done].
  replace (Z.pos (digits2_pos mx) + _ + _) with (Z.pos (digits2_pos mx) + ex) by lia.
  lia.
Qed.

Lemma binary_normalize_below m e sz k :
  Zdigits2 m + e ≤ k → -1074 ≤ k < 1024 →
  SFbelow (k + 1) (binary_normalize prec emax m e sz).
Proof. destruct m; simpl; [done|apply binary_round_below..]. Qed.

(** ** The operations on [spec_float] *)

(** The sum and the difference of two mantissas aligned to the smaller
    exponent have at most one digit more than the larger operand. *)
Lemma shl_align_sum sx mx ex sy my ey k :
  Z.pos (digits2_pos mx) + ex ≤ k → Z.pos (digits2_pos my) + ey ≤ k →
  let a := cond_Zopp sx (Z.pos (shl_align mx ex (Z.min ex ey)).1) in
  let b := cond_Zopp sy (Z.pos (shl_align my ey (Z.min ex ey)).1) in
  Zdigits2 (a + b) + Z.min ex ey ≤ k + 1 ∧ Zdigits2 (a - b) + Z.min ex ey ≤ k + 1.
Proof.
  intros Hx Hy a b.
  pose proof (shl_align_abs sx mx ex (Z.min ex ey) k ltac:(lia) Hx) as Ha.
  pose proof (shl_align_abs sy my ey (Z.min ex ey) k ltac:(lia) Hy) as Hb.
  pose proof (Zdigits2_add a b (k - Z.min ex ey) ltac:(lia) Ha Hb). lia.
Qed.

Lemma SFsub_below k x y :
  SFbelow k x → SFbelow k y → -1074 ≤ k → k + 1 < 1024 →
  SFbelow (k + 2) (SFsub prec emax x y).
Proof.
  intros Hx Hy Hk Hk'.
  destruct x as [sx|sx| |sx mx ex], y as [sy|sy| |sy my ey];
    try done; try (by destruct sx, sy); simpl in *; try lia.
  replace (k + 2) with (k + 1 + 1) by lia. apply binary_normalize_below; [|lia].
  by apply shl_align_sum.
Qed.

Lemma SFadd_below k x y :
  SFbelow k x → SFbelow k y → -1074 ≤ k → k + 1 < 1024 →
  SFbelow (k + 2) (SFadd prec emax x y).
Proof.
  intros Hx Hy Hk Hk'.
  destruct x as [sx|sx| |sx mx ex], y as [sy|sy| |sy my ey];
    try done; try (by destruct sx, sy); simpl in *; try lia.
  replace (k + 2) with (k + 1 + 1) by lia. apply binary_normalize_below; [|lia].
  by apply shl_align_sum.
Qed.

Lemma SFmul_below k x y :
  valid_binary prec emax x = true → valid_binary prec emax y = true →
  SFbelow k x → SFbelow k y → -1074 ≤ 2 * k < 1024 →
  SFbelow (2 * k + 1) (SFmul prec emax x y).
Proof.
  intros Hvx Hvy Hx Hy Hk.
  destruct x as [sx|sx| |sx mx ex], y as [sy|sy| |sy my ey]; try done.
  simpl in *. apply bounded_canonical in Hvx as [Hcx _], Hvy as [Hcy _].
  pose proof (digits2_pos_mul mx my) as [Hl Hu].
  apply binary_round_aux_below; simpl Zdigits2; [done| |lia..].
  unfold fexp, emin, prec, emax in *. lia.
Qed.

Lemma SFsqrt_core_binary_sqrt m e :
  let e' := Z.min (fexp prec emax (Z.div2 (Z.pos (digits2_pos m) + e + 1))) (Z.div2 e) in
  ∃ l, SFsqrt_core_binary prec emax (Z.pos m) e =
         (Z.sqrt (Z.pos m * 2 ^ (e - 2 * e')), e', l) ∧ 0 ≤ e - 2 * e'.
Proof.
  intros e'. pose proof (Z_half_bounds e) as He. rewrite <- Z.div2_div in He.
  assert (0 ≤ e - 2 * e') as Hs by (unfold e'; lia).
  unfold SFsqrt_core_binary. simpl Zdigits2. fold e'.
  assert (match e - 2 * e' with
          | 0 => Z.pos m
          | Z.pos _ => Z.shiftl (Z.pos m) (e - 2 * e')
          | Z.neg _ => 0
          end = Z.pos m * 2 ^ (e - 2 * e')) as ->.
  { destruct (e - 2 * e') eqn:Heq; [lia| |lia]. by rewrite Z.shiftl_mul_pow2. }
  pose proof (Z.sqrtrem_sqrt (Z.pos m * 2 ^ (e - 2 * e'))) as Hq.
  destruct (Z.sqrtrem _) as [q r]. simpl in Hq. subst q. eauto.
Qed.

Lemma SFsqrt_below k x :
  SFbelow k x → SFnot_neg x → -1074 ≤ (k + 1) / 2 < 1024 →
  SFbelow ((k + 1) / 2 + 1) (SFsqrt prec emax x).
Proof.
  intros Hx Hpos Hk. destruct x as [s|[]| |[] m e]; try done. simpl in Hx.
  unfold SFsqrt. destruct (SFsqrt_core_binary_sqrt m e) as (l & -> & Hs).
  set (d := Z.pos (digits2_pos m)) in *.
  set (e' := Z.min (fexp prec emax (Z.div2 (d + e + 1))) (Z.div2 e)) in *.
  pose proof (Z.pow_pos_nonneg 2 (e - 2 * e') ltac:(lia) Hs).
  pose proof (Zdigits2_sqrt (Z.pos m * 2 ^ (e - 2 * e')) ltac:(lia)) as Hd.
  rewrite Zdigits2_shift in Hd by done. fold d in Hd.
  pose proof (Z_half_bounds (d + e + 1)) as Hde. rewrite <- Z.div2_div in Hde.
  pose proof (Z_half_bounds (k + 1)) as Hk2.
  pose proof (Z_half_bounds (d + (e - 2 * e') + 1)) as Hh.
  apply binary_round_aux_below; rewrite ?Hd; [apply Z.sqrt_nonneg| |lia|done].
  replace ((d + (e - 2 * e') + 1) / 2 + e') with (Z.div2 (d + e + 1)) by lia.
  unfold e'. lia.
Qed.

(** ** The threshold of the square

    The square of a finite number overflows exactly when its magnitude is
    [2 ^ 512] or more: below, the rounded square is at most the largest
    float. *)

(** The square of a mantissa of 53 digits has 105 or 106 digits; shifted
    to 53 digits it is at least [2 ^ 52] and, with 106 digits, at most
    [2 ^ 53 - 2], so that rounding does not add a digit. *)
Lemma square_53 m :
  Z.pos (digits2_pos m) = 53 →
  ∃ D, Z.pos (digits2_pos (m * m)) = D ∧ (D = 105 ∨ D = 106) ∧
    2 ^ 52 ≤ Z.pos (m * m) / 2 ^ (D - 53) ≤ 2 ^ 53 + 104 - D.
Proof.
  intros Hd. pose proof (digits2_pos_mul m m) as [Hl Hu].
  pose proof (digits2_pos_lower (m * m)) as Hlo.
  pose proof (digits2_pos_upper (m * m)) as Hup.
  pose proof (digits2_pos_upper m) as Hm. rewrite Hd in Hm.
  assert (Z.pos (m * m) ≤ (2 ^ 53 - 1) * (2 ^ 53 - 1)) as Hsq
    by (rewrite Pos2Z.inj_mul; nia).
  eexists. split; [done|].
  assert (Z.pos (digits2_pos (m * m)) = 105 ∨ Z.pos (digits2_pos (m * m)) = 106)
    as [HD|HD] by lia; rewrite HD in *; (split; [auto|]).
  - change (105 - 53) with 52. change (105 - 1) with 104 in Hlo. split.
    + apply Z.div_le_lower_bound; lia.
    + assert (Z.pos (m * m) / 2 ^ 52 < 2 ^ 53) by (apply Z.div_lt_upper_bound; lia). lia.
  - change (106 - 53) with 53. change (106 - 1) with 105 in Hlo. split.
    + apply Z.div_le_lower_bound; lia.
    + assert (Z.pos (m * m) / 2 ^ 53 < 2 ^ 53 - 1) by (apply Z.div_lt_upper_bound; lia).
      lia.
Qed.

Lemma SFmul_square_finite s m e :
  bounded prec emax m e = true → Z.pos (digits2_pos m) + e ≤ 512 →
  SFbelow 1024 (SFmul prec emax (S754_finite s m e) (S754_finite s m e)).
Proof.
  intros Hb Hmag. destruct (decide (Z.pos (digits2_pos m) + e ≤ 511)) as [Hlt|Hge].
  { eapply SFbelow_mono; [apply (SFmul_below 511); (done || lia)|lia]. }
  pose proof (bounded_canonical _ _ Hb) as [Hcan _].
  unfold fexp, emin, prec, emax in Hcan.
  destruct (square_53 m ltac:(lia)) as (D & HD & HD' & Hl & Hu).
  simpl. destruct (binary_round_aux_spec (xorb s s) (Z.pos (m * m)) (e + e) loc_Exact)
    as (m2 & m3 & Hm2 & Hm3 & ->); [done|].
  simpl Zdigits2 in *. rewrite HD in *. unfold fexp, emin, prec, emax in *.
  replace (e + e + Z.max (Z.max (D + (e + e) - 53) (3 - 1024 - 53) - (e + e)) 0 - (e + e))
    with (D - 53) in Hm2 by lia.
  assert (Zdigits2 m2 ≤ 159 - D) as Hd2
    by (apply Zdigits2_le; [lia|]; destruct HD' as [-> | ->]; simpl in *; lia).
  pose proof (Zdigits2_nonneg m2).
  set (e1 := e + e + Z.max (Z.max (D + (e + e) - 53) (3 - 1024 - 53) - (e + e)) 0) in *.
  set (n2 := Z.max (Z.max (Zdigits2 m2 + e1 - 53) (3 - 1024 - 53) - e1) 0) in *.
  pose proof (Zdigits2_div m2 (e1 + n2 - e1) (Zdigits2 m2) ltac:(lia) ltac:(lia) ltac:(lia))
    as Hd3.
  rewrite <- Hm3 in Hd3. destruct m3 as [|p|p]; [done| |].
  - destruct (Z.leb_spec (e1 + n2) (1024 - 53)); simpl in *; lia.
  - pose proof (Z_div_pow2_nonneg m2 (e1 + n2 - e1) ltac:(lia)). lia.
Qed.

Lemma SFmul_square_infinite s m e :
  bounded prec emax m e = true → 513 ≤ Z.pos (digits2_pos m) + e →
  SFmul prec emax (S754_finite s m e) (S754_finite s m e) = S754_infinity false.
Proof.
  intros Hb Hmag. pose proof (bounded_canonical _ _ Hb) as [Hcan _].
  unfold fexp, emin, prec, emax in Hcan.
  destruct (square_53 m ltac:(lia)) as (D & HD & HD' & Hl & Hu).
  simpl. destruct (binary_round_aux_spec (xorb s s) (Z.pos (m * m)) (e + e) loc_Exact)
    as (m2 & m3 & Hm2 & Hm3 & ->); [done|].
  simpl Zdigits2 in *. rewrite HD in *. unfold fexp, emin, prec, emax in *.
  replace (e + e + Z.max (Z.max (D + (e + e) - 53) (3 - 1024 - 53) - (e + e)) 0 - (e + e))
    with (D - 53) in Hm2 by lia.
  assert (53 ≤ Zdigits2 m2 ≤ 54) as Hd2.
  { split; [pose proof (Zdigits2_ge m2 52)|apply Zdigits2_le]; lia. }
  set (e1 := e + e + Z.max (Z.max (D + (e + e) - 53) (3 - 1024 - 53) - (e + e)) 0) in *.
  set (n2 := Z.max (Z.max (Zdigits2 m2 + e1 - 53) (3 - 1024 - 53) - e1) 0) in *.
  assert (0 < m3) as Hpos.
  { rewrite Hm3. apply Z.div_str_pos. replace (e1 + n2 - e1) with n2 by lia.
    assert (n2 = 0 ∨ n2 = 1) as [-> | ->] by lia; simpl; lia. }
  destruct m3 as [|p|p]; [lia| |lia].
  destruct (Z.leb_spec (e1 + n2) (1024 - 53)); [lia|]. by destruct s.
Qed.

(** ** The operations on floats *)

Lemma float_below_mono k k' x : float_below k x → k ≤ k' → float_below k' x.
Proof. apply SFbelow_mono. Qed.

Lemma float_below_finite k x : float_below k x → is_nan x = false ∧ is_infinity x = false.
Proof.
  unfold float_below. intros Hx. split.
  - rewrite is_nan_spec. by destruct (Prim2SF x).
  - apply not_true_is_false. intros [s Hs]%is_infinity_spec. by rewrite Hs in Hx.
Qed.

(** A float whose absolute value is at most a float below [2 ^ k] is
    below [2 ^ k]: a comparison of the program bounds the magnitude. *)
Lemma float_below_leb k x y :
  (abs x <=? y)%float = true → float_below k y → float_below k x.
Proof.
  intros (Hnan & _ & Hle)%leb_rank. rewrite is_nan_spec, abs_spec in Hnan.
  unfold float_below, float_rank in *. rewrite abs_spec in Hle.
  pose proof (Prim2SF_valid x) as Hvx. pose proof (Prim2SF_valid y) as Hvy.
  intros Hy. unfold lex3_le, lex3_lt, lex3_eq in Hle.
  destruct (Prim2SF x) as [sx|sx| |sx mx ex], (Prim2SF y) as [sy|[]| |[] my ey];
    simpl in *; try done; try lia.
  apply bounded_canonical in Hvx as [Hcx _], Hvy as [Hcy _].
  pose proof (Zdigits2_mono (Z.pos mx) (Z.pos my)) as Hmono. simpl in Hmono.
  unfold fexp, emin, prec, emax in *. lia.
Qed.

Lemma py_float_sub_below k x y :
  float_below k x → float_below k y → -1074 ≤ k → k + 1 < 1024 →
  float_below (k + 2) (py_float_sub x y).
Proof. unfold float_below, py_float_sub. rewrite sub_spec. apply SFsub_below. Qed.

Lemma py_float_add_below k x y :
  float_below k x → float_below k y → -1074 ≤ k → k + 1 < 1024 →
  float_below (k + 2) (py_float_add x y).
Proof. unfold float_below, py_float_add. rewrite add_spec. apply SFadd_below. Qed.

(** [x ** 2] of a float below [2 ^ k] returns, when [2 k] is below the
    largest exponent. *)
Lemma py_float_pow2_below k x :
  float_below k x → -1074 ≤ 2 * k < 1024 →
  ∃ r, py_float_pow2 x = Ok r ∧ float_below (2 * k + 1) r.
Proof.
  intros Hx Hk. destruct (float_below_finite k x Hx) as [Hnan Hinf].
  assert (float_below (2 * k + 1) (x * x)) as Hr.
  { unfold float_below. rewrite mul_spec. by apply SFmul_below; try apply Prim2SF_valid. }
  exists (x * x)%float. split; [|done]. unfold py_float_pow2.
  by rewrite Hnan, Hinf, (proj2 (float_below_finite _ _ Hr)).
Qed.

(** [numpy.sqrt] halves the magnitude of a float that is not negative. *)
Lemma np_sqrt_below k x :
  float_below k x → SFnot_neg (Prim2SF x) → -1074 ≤ (k + 1) / 2 < 1024 →
  float_below ((k + 1) / 2 + 1) (np_sqrt x).
Proof. unfold float_below, np_sqrt. rewrite sqrt_spec. apply SFsqrt_below. Qed.

(** ** The overflow of [** 2] *)

(** [2 ^ 512 <= abs x] on floats, as a condition on the magnitude. *)
Lemma leb_pow512 x :
  (0x1p512 <=? abs x)%float = true ↔
  match Prim2SF x with
  | S754_finite _ m e => 513 ≤ Z.pos (digits2_pos m) + e
  | S754_infinity _ => True
  | _ => False
  end.
Proof.
  rewrite leb_rank, !is_nan_spec. unfold float_rank. rewrite !abs_spec.
  change (SFrank (Prim2SF 0x1p512)) with (1, 460, 2 ^ 52).
  change (SFis_nan (Prim2SF 0x1p512)) with false.
  pose proof (Prim2SF_valid x) as Hv. unfold lex3_le, lex3_lt, lex3_eq.
  destruct (Prim2SF x) as [s|s| |s m e]; simpl in *.
  - split; [|done]. intros (_ & _ & ?). lia.
  - split; [done|]. intros _. split_and!; [done..|]. lia.
  - split; [|done]. by intros (_ & ? & _).
  - apply bounded_canonical in Hv as [Hcan _].
    pose proof (digits2_pos_lower m). pose proof (digits2_pos_upper m).
    unfold fexp, emin, prec, emax in Hcan. split.
    + intros (_ & _ & Hle). lia.
    + intros Hmag. split_and!; [done..|].
      assert (Z.pos (digits2_pos m) = 53) as Hd by lia. rewrite Hd in *.
      change (53 - 1) with 52 in *. lia.
Qed.

(** [x ** 2] raises exactly on the floats of [square_overflows], and what
    it raises is [OverflowError]. *)
Lemma py_float_pow2_Raise_threshold x e :
  py_float_pow2 x = Raise e ↔ e = OverflowError ∧ square_overflows x = true.
Proof.
  unfold square_overflows. rewrite andb_true_iff, leb_pow512.
  unfold py_float_pow2, is_finite.
  destruct (is_nan x) eqn:Hnan; [by split; [|intros (_ & ? & _)]|].
  destruct (is_infinity x) eqn:Hinf; [by split; [|intros (_ & ? & _)]|].
  assert (is_finite x = true) as (s & Hx)%is_finite_spec
    by (unfold is_finite; by rewrite Hnan, Hinf).
  pose proof (Prim2SF_valid x) as Hv.
  destruct (is_infinity (x * x)) eqn:Hsq.
  - apply is_infinity_spec in Hsq as (s' & Hsq). rewrite mul_spec in Hsq.
    destruct Hx as [Hx|(m & e' & Hx)]; rewrite Hx in *; [by destruct s|].
    split; [intros [= <-]|by intros (-> & _)]. split_and!; [done..|].
    destruct (Z.le_gt_cases 513 (Z.pos (digits2_pos m) + e')) as [|Hle]; [done|].
    pose proof (SFmul_square_finite s m e' Hv ltac:(lia)) as Hfin.
    unfold SF64mul in Hsq. by rewrite Hsq in Hfin.
  - split; [done|]. intros (_ & _ & Hmag).
    destruct Hx as [Hx|(m & e' & Hx)]; rewrite Hx in *; [done|].
    apply not_true_iff_false in Hsq. destruct Hsq. apply is_infinity_spec.
    exists false. rewrite mul_spec, Hx. by apply SFmul_square_infinite.
Qed.

Lemma square_overflows_Raise x :
  square_overflows x = true ↔ py_float_pow2 x = Raise OverflowError.
Proof. rewrite py_float_pow2_Raise_threshold. by split; [|intros [_ ?]]. Qed.

(** The square of a finite float on which [** 2] does not raise is a
    float. *)
Lemma square_finite_below x :
  is_finite x = true → square_overflows x = false → float_below 1024 (x * x).
Proof.
  unfold square_overflows, float_below. intros Hfin. rewrite Hfin. simpl.
  intros Hov%not_true_iff_false. rewrite leb_pow512 in Hov.
  pose proof (Prim2SF_valid x) as Hv. rewrite mul_spec.
  apply is_finite_spec in Hfin as (s & [Hx|(m & e & Hx)]); rewrite Hx in *; [done|].
  apply SFmul_square_finite; [done|lia].
Qed.

(** The class of the product [x * x]: NaN for NaN, infinite for an
    infinity, and finite for a finite [x] on which [** 2] does not
    raise. *)
Lemma float_square_class x :
  square_overflows x = false →
  is_nan (x * x) = is_nan x ∧ is_infinity (x * x) = is_infinity x.
Proof.
  intros Hov. destruct (is_nan x) eqn:Hnan.
  { assert (is_nan (x * x) = true) as Hsq.
    { rewrite is_nan_spec in Hnan |- *. rewrite mul_spec. by destruct (Prim2SF x). }
    split; [done|]. destruct (is_infinity (x * x)) eqn:H1, (is_infinity x) eqn:H2;
      try done; apply is_infinity_not_nan in H1 || apply is_infinity_not_nan in H2;
      congruence. }
  destruct (is_infinity x) eqn:Hinf.
  { assert (is_infinity (x * x) = true) as Hsq.
    { apply is_infinity_spec. exists false. rewrite mul_spec.
      apply is_infinity_spec in Hinf as [s ->]. by destruct s. }
    split; [by apply is_infinity_not_nan|done]. }
  assert (is_finite x = true) as Hfin by (unfold is_finite; by rewrite Hnan, Hinf).
  apply (float_below_finite 1024), square_finite_below; done.
Qed.

(** Where it does not raise, [x ** 2] is the product [x * x] of IEEE 754,
    on NaN and on the infinities as well. *)
Lemma py_float_pow2_square x :
  py_float_pow2 x = if square_overflows x then Raise OverflowError else Ok (x * x)%float.
Proof.
  destruct (square_overflows x) eqn:Hov; [by apply square_overflows_Raise|].
  destruct (float_square_class x Hov) as [Hn Hi].
  unfold py_float_pow2. destruct (is_nan x) eqn:Hnan; [f_equal; by apply is_nan_eq|].
  destruct (is_infinity x) eqn:Hinf; [|by rewrite Hi].
  f_equal. apply Prim2SF_inj. rewrite abs_spec, mul_spec.
  apply is_infinity_spec in Hinf as [s ->]. by destruct s.
Qed.

(** C9: the outcome of [x ** 2] by the size of [x].  On a finite [x] of
    absolute value [2 ^ 512] or more it raises [OverflowError]; on every
    other float it returns the product [x * x] of IEEE 754, which is not
    negative, is NaN exactly when [x] is, and is infinite exactly when [x]
    is: the square of a finite number below [2 ^ 512] is finite. *)
Theorem py_float_pow2_threshold x :
  if square_overflows x then py_float_pow2 x = Raise OverflowError
  else py_float_pow2 x = Ok (x * x)%float ∧
    is_nan (x * x) = is_nan x ∧ is_infinity (x * x) = is_infinity x ∧
    (x * x <? 0)%float = false.
Proof.
  pose proof (py_float_pow2_square x) as Hsq.
  destruct (square_overflows x) eqn:Hov; [done|].
  destruct (float_square_class x Hov) as [Hn Hi]. split_and!; [done..|].
  by eapply not_negative_ltb, py_float_pow2_not_negative.
Qed.
