(* ===== verification/PyRepr.v ===== *)
(** * The text of numbers

    What [str] gives for the numbers the program prints ([src/main.py],
    lines 66, 82 and 92): the decimal digits of an [int] ([int_str]), and
    for a [float] the shortest decimal that reads back as the same float
    ([float_repr]), written the way [repr] writes it: with a point and at
    least one digit after it when the decimal point falls within the first
    sixteen digits or up to four places before them, and with an exponent
    otherwise.

    The digits are found by search: for 1, 2, ... digits, the two decimals
    of that length next to the float are read back ([float_of_decimal]:
    the correctly rounded binary64 value of [c * 10 ^ q], by the division
    and rounding of the standard library's [SpecFloat]), and the first
    length for which one of them gives the float back is taken; when both
    do, the nearer one, the even one if they are as near.  Seventeen
    digits always suffice for binary64; the search stops there and takes
    the nearest decimal of seventeen digits. *)

From Stdlib Require Import Floats ZArith Ascii String SpecFloat.
From stdpp Require Import prelude strings pretty.
From S2P Require Import Prelude.

#[local] Open Scope string_scope.
#[local] Open Scope Z_scope.

(** ** Integers *)

(** [str(z)] for an [int]: decimal digits, with [-] in front when
    negative. *)
Definition int_str (z : Z) : string := pretty z.

(** ** The decimal digits of a float *)

#[export] Instance spec_float_eq_dec : EqDecision spec_float.
Proof. solve_decision. Defined.

(** The number of decimal digits of a positive integer. *)
Definition ndigits (z : Z) : Z := Z.of_nat (String.length (pretty z)).

(** [float(s)] for the decimal [c * 10 ^ q] with [c] positive: the nearest
    binary64 number, ties to even. *)
Definition float_of_decimal (c q : Z) : spec_float :=
  if 0 <=? q then binary_normalize prec emax (c * 10 ^ q) 0 false
  else
    match c with
    | Z.pos p =>
        SFdiv prec emax (S754_finite false p 0)
          (S754_finite false (Z.to_pos (10 ^ (- q))) 0)
    | _ => S754_zero false
    end.

(** [m * 2 ^ e / 10 ^ q] as a fraction of two integers. *)
Definition scaled (m : positive) (e q : Z) : Z * Z :=
  (Z.pos m * 2 ^ Z.max e 0 * 10 ^ Z.max (- q) 0, 2 ^ Z.max (- e) 0 * 10 ^ Z.max q 0).

(** The position of the decimal point: the [k] with
    [10 ^ (k - 1) <= m * 2 ^ e < 10 ^ k]. *)
Definition decimal_point (m : positive) (e : Z) : Z :=
  let '(num, den) := scaled m e 0 in
  let n := num / den in
  if 0 <? n then ndigits n else 1 - ndigits ((2 ^ (- e) - 1) / Z.pos m).

(** Of [lo] and [lo + 1], the one nearer to [lo + rem / den]; the even one
    when they are as near. *)
Definition nearest (lo rem den : Z) : Z :=
  match 2 * rem ?= den with
  | Lt => lo
  | Gt => lo + 1
  | Eq => if Z.even lo then lo else lo + 1
  end.

(** The decimal of [n] digits for [m * 2 ^ e], when one reads back. *)
Definition candidate (m : positive) (e k n : Z) : option (Z * Z) :=
  let q := k - n in
  let '(num, den) := scaled m e q in
  let lo := num / den in
  let x := S754_finite false m e in
  let lo_ok := (0 <? lo) && bool_decide (float_of_decimal lo q = x) in
  let hi_ok := bool_decide (float_of_decimal (lo + 1) q = x) in
  match lo_ok, hi_ok with
  | true, false => Some (lo, q)
  | false, true => Some (lo + 1, q)
  | true, true => Some (nearest lo (num mod den) den, q)
  | false, false => None
  end.

(** The first length from [n], among [fuel] lengths, with a decimal that
    reads back. *)
Fixpoint shortest (m : positive) (e k : Z) (fuel : nat) (n : Z) : option (Z * Z) :=
  match fuel with
  | O => None
  | S fuel' =>
      match candidate m e k n with
      | Some d => Some d
      | None => shortest m e k fuel' (n + 1)
      end
  end.

(** The nearest decimal of [n] digits. *)
Definition rounded (m : positive) (e k n : Z) : Z * Z :=
  let '(num, den) := scaled m e (k - n) in
  (nearest (num / den) (num mod den) den, k - n).

(** The digits [repr] prints for the positive float [m * 2 ^ e], as an
    integer [c] and an exponent [q]: the float is printed as
    [c * 10 ^ q]. *)
Definition float_digits (m : positive) (e : Z) : Z * Z :=
  let k := decimal_point m e in
  default (rounded m e k 17) (shortest m e k 16 1).

(** ** The format of [repr] *)

(** A string without its trailing zeros. *)
Fixpoint rstrip0 (s : string) : string :=
  match s with
  | EmptyString => EmptyString
  | String a s' =>
      match rstrip0 s' with
      | EmptyString => if Ascii.eqb a "0"%char then EmptyString else String a EmptyString
      | r => String a r
      end
  end.

Fixpoint zeros (n : nat) : string :=
  match n with
  | O => EmptyString
  | S n' => String "0"%char (zeros n')
  end.

(** The digits of [c * 10 ^ q] with the point or the exponent in place:
    [decpt] is the number of digits before the point. *)
Definition format_finite (c q : Z) : string :=
  let all := pretty c in
  let decpt := q + Z.of_nat (String.length all) in
  let ds := rstrip0 all in
  let n := Z.of_nat (String.length ds) in
  if (decpt <=? -4) || (16 <? decpt) then
    let ex := decpt - 1 in
    let mant :=
      match ds with
      | String d (String _ _ as rest) => String d (String "."%char rest)
      | _ => ds
      end in
    mant +:+ "e" +:+ (if ex <? 0 then "-" else "+") +:+
      (if Z.abs ex <? 10 then "0" else EmptyString) +:+ pretty (Z.abs ex)
  else if decpt <=? 0 then
    "0." +:+ zeros (Z.to_nat (- decpt)) +:+ ds
  else if n <=? decpt then
    ds +:+ zeros (Z.to_nat (decpt - n)) +:+ ".0"
  else
    String.substring 0 (Z.to_nat decpt) ds +:+ "." +:+
      String.substring (Z.to_nat decpt) (Z.to_nat (n - decpt)) ds.

(** [repr(x)], which is also [str(x)], for a [float]. *)
Definition float_repr (x : float) : string :=
  match Prim2SF x with
  | S754_nan => "nan"
  | S754_infinity s => if s then "-inf" else "inf"
  | S754_zero s => if s then "-0.0" else "0.0"
  | S754_finite s m e =>
      let '(c, q) := float_digits m e in
      (if s then "-" else EmptyString) +:+ format_finite c q
  end.

(** ** The search *)

Section search.
Context (m : positive) (e : Z).
Implicit Types (k n c q : Z) (fuel : nat).

Lemma nearest_cases lo rem den :
  nearest lo rem den = lo ∨ nearest lo rem den = lo + 1.
Proof. unfold nearest. repeat case_match; auto. Qed.

(** A candidate reads back as the float, and has the exponent of its
    length. *)
Lemma candidate_Some k n c q :
  candidate m e k n = Some (c, q) →
  float_of_decimal c q = S754_finite false m e ∧ q = k - n.
Proof.
  unfold candidate. destruct (scaled m e (k - n)) as [num den].
  destruct (0 <? num / den); simpl; repeat case_bool_decide;
    intros [= <- <-]; try done.
  by destruct (nearest_cases (num / den) (num mod den) den) as [-> | ->].
Qed.

(** The search returns the candidate of the first length that has one. *)
Lemma shortest_Some k fuel n c q :
  shortest m e k fuel n = Some (c, q) →
  ∃ n', n ≤ n' < n + Z.of_nat fuel ∧ candidate m e k n' = Some (c, q) ∧
    ∀ j, n ≤ j < n' → candidate m e k j = None.
Proof.
  revert n. induction fuel as [|fuel IH]; intros n; simpl; [done|].
  destruct (candidate m e k n) as [d|] eqn:Hn.
  - intros [= ->]. exists n. split_and!; [lia..|done|lia].
  - intros (n' & Hn' & Hc & Hfirst)%IH. exists n'. split_and!; [lia..|done|].
    intros j Hj. destruct (decide (j = n)) as [->|]; [done|]. apply Hfirst. lia.
Qed.

(** The search does not fail when some length has a candidate. *)
Lemma shortest_None k fuel n :
  shortest m e k fuel n = None →
  ∀ j, n ≤ j < n + Z.of_nat fuel → candidate m e k j = None.
Proof.
  revert n. induction fuel as [|fuel IH]; intros n; simpl; [lia|].
  destruct (candidate m e k n) as [d|] eqn:Hn; [done|].
  intros Hrest j Hj. destruct (decide (j = n)) as [->|]; [done|].
  apply (IH _ Hrest). lia.
Qed.
End search.

(** ** What [repr] prints *)

(** When a decimal of at most sixteen digits reads back, the search finds
    one, and the digits are the ones it finds. *)
Lemma float_digits_shortest m e n0 d :
  1 ≤ n0 ≤ 16 → candidate m e (decimal_point m e) n0 = Some d →
  ∃ c q, shortest m e (decimal_point m e) 16 1 = Some (c, q) ∧
    float_digits m e = (c, q).
Proof.
  intros Hn0 Hcand. unfold float_digits.
  destruct (shortest m e (decimal_point m e) 16 1) as [[c q]|] eqn:Hs; [by eauto|].
  rewrite (shortest_None _ _ _ _ _ Hs) in Hcand by lia. done.
Qed.

Lemma float_digits_found m e n0 d :
  1 ≤ n0 ≤ 16 → candidate m e (decimal_point m e) n0 = Some d →
  ∃ c q, float_digits m e = (c, q) ∧ float_of_decimal c q = S754_finite false m e.
Proof.
  intros Hn0 Hcand.
  destruct (float_digits_shortest _ _ _ _ Hn0 Hcand) as (c & q & Hs & Hd).
  apply shortest_Some in Hs as (n & _ & [Hback _]%candidate_Some & _). eauto.
Qed.

(** The digits [repr] prints read back as the float: when a decimal of
    at most sixteen digits reads back as [m * 2 ^ e], the decimal
    [c * 10 ^ q] that [float_digits] gives does, it has [k - q] digits
    where [k] is the position of the decimal point, and no decimal with
    fewer digits next to the float reads back. *)
Lemma float_digits_read_back m e n0 d :
  1 ≤ n0 ≤ 16 → candidate m e (decimal_point m e) n0 = Some d →
  ∃ n c q, float_digits m e = (c, q) ∧ 1 ≤ n ≤ n0 ∧
    q = decimal_point m e - n ∧
    float_of_decimal c q = S754_finite false m e ∧
    ∀ j, 1 ≤ j < n → candidate m e (decimal_point m e) j = None.
Proof.
  intros Hn0 Hcand.
  destruct (float_digits_shortest _ _ _ _ Hn0 Hcand) as (c & q & Hs & Hd).
  apply shortest_Some in Hs as (n & Hn & Hc & Hfirst).
  pose proof (candidate_Some _ _ _ _ _ _ Hc) as [Hback ->].
  exists n, c, (decimal_point m e - n). split_and!; try done; try lia.
  destruct (decide (n ≤ n0)) as [|Hgt]; [done|].
  rewrite Hfirst in Hcand by lia. done.
Qed.

(** Floats that print the same digits are the same float. *)
Lemma float_digits_inj m1 e1 m2 e2 d1 d2 n1 n2 :
  1 ≤ n1 ≤ 16 → candidate m1 e1 (decimal_point m1 e1) n1 = Some d1 →
  1 ≤ n2 ≤ 16 → candidate m2 e2 (decimal_point m2 e2) n2 = Some d2 →
  float_digits m1 e1 = float_digits m2 e2 → m1 = m2 ∧ e1 = e2.
Proof.
  intros Hn1 Hc1 Hn2 Hc2 Heq.
  destruct (float_digits_found _ _ _ _ Hn1 Hc1) as (c & q & Hd1 & Hb1).
  destruct (float_digits_found _ _ _ _ Hn2 Hc2) as (c' & q' & Hd2 & Hb2).
  rewrite Hd1, Hd2 in Heq. injection Heq as <- <-. rewrite Hb1 in Hb2.
  by injection Hb2 as <- <-.
Qed.

(** [repr] of a float that is not finite, and of zero. *)
Lemma float_repr_special :
  float_repr nan = "nan" ∧ float_repr infinity = "inf" ∧
  float_repr neg_infinity = "-inf" ∧ float_repr 0 = "0.0" ∧
  float_repr (-0) = "-0.0".
Proof. by vm_compute. Qed.
