(* ===== verification/PyObject.v ===== *)
(** * Objects and their classes

    Python checks the classes of the operands when an operator is applied,
    not before.  This file gives the objects that reach the inventory as
    quantities ([pyobj]: [None], [bool], [int], [float] and [str] objects,
    the immutable classes, for which [a += b] is [a = a + b]), their
    class ([type_of]) and the two operators the inventory applies to them:
    [+] ([py_add]) and [>=] ([py_ge]), which raise [TypeError] on classes
    they do not support together.

    [bool] is a subclass of [int]: the operators take [True] and [False]
    for the numbers 1 and 0 ([as_num]), and the sum of two of them is an
    [int].  A mixed operation on an [int] and a [float] converts the [int]
    ([py_float_of_int]: the nearest double, ties to even, [OverflowError]
    past the largest double) before it adds, and compares the exact values
    ([int_float_compare]) when it compares.

    [add_type] and [comparable] are the typing rules of the two operators:
    the operators return exactly on the classes the rules accept, and the
    class of a sum is the one [add_type] gives. *)

From Stdlib Require Import Floats ZArith String SpecFloat.
From stdpp Require Import prelude.
From S2P Require Import Prelude PyBuiltins PyFloat.

#[local] Open Scope Z_scope.

(** ** Objects *)

Inductive pyobj : Type :=
  | ONone
  | OBool (b : bool)
  | OInt (z : Z)
  | OFloat (f : float)
  | OStr (s : string).

(** The classes of these objects. *)
Inductive pytype : Set :=
  | TNone
  | TBool
  | TInt
  | TFloat
  | TStr.

#[export] Instance pytype_eq_dec : EqDecision pytype.
Proof. solve_decision. Defined.

(** [type(v)] *)
Definition type_of (v : pyobj) : pytype :=
  match v with
  | ONone => TNone
  | OBool _ => TBool
  | OInt _ => TInt
  | OFloat _ => TFloat
  | OStr _ => TStr
  end.

(** ** Mixed arithmetic *)

(** The conversion of an [int] operand to a [float]: the double nearest to
    [z], ties to even; [OverflowError] when that is not finite. *)
Definition py_float_of_int (z : Z) : result float :=
  let f := SF2Prim (binary_normalize prec emax z 0 false) in
  if is_infinity f then Raise OverflowError else Ok f.

(** The order between the exact values of an [int] and a [float]; there is
    none when the float is NaN. *)
Definition int_float_compare (z : Z) (f : float) : option comparison :=
  match Prim2SF f with
  | S754_nan => None
  | S754_infinity s => Some (if s then Gt else Lt)
  | S754_zero _ => Some (z ?= 0)
  | S754_finite s m e =>
      let v := if s then Z.neg m else Z.pos m in
      Some (if 0 <=? e then z ?= v * 2 ^ e else z * 2 ^ (- e) ?= v)
  end.

(** ** Numbers *)

(** The value an arithmetic operator sees of a number. *)
Inductive pynum : Type :=
  | NInt (z : Z)
  | NFloat (f : float).

(** The number an object is, if it is one: a [bool] is the [int] 1 or 0. *)
Definition as_num (v : pyobj) : option pynum :=
  match v with
  | OBool b => Some (NInt (Z.b2z b))
  | OInt z => Some (NInt z)
  | OFloat f => Some (NFloat f)
  | ONone | OStr _ => None
  end.

Definition num_add (x y : pynum) : result pyobj :=
  match x, y with
  | NInt x, NInt y => Ok (OInt (x + y))
  | NFloat x, NFloat y => Ok (OFloat (py_float_add x y))
  | NInt x, NFloat y => fx ← py_float_of_int x; mret (OFloat (py_float_add fx y))
  | NFloat x, NInt y => fy ← py_float_of_int y; mret (OFloat (py_float_add x fy))
  end.

Definition num_ge (x y : pynum) : bool :=
  match x, y with
  | NInt x, NInt y => x >=? y
  | NFloat x, NFloat y => PrimFloat.leb y x
  | NInt x, NFloat y =>
      match int_float_compare x y with Some (Eq | Gt) => true | _ => false end
  | NFloat x, NInt y =>
      match int_float_compare y x with Some (Eq | Lt) => true | _ => false end
  end.

(** ** Operators *)

(** [a + b] *)
Definition py_add (a b : pyobj) : result pyobj :=
  match a, b with
  | OStr x, OStr y => Ok (OStr (x ++ y))
  | _, _ =>
      match as_num a, as_num b with
      | Some x, Some y => num_add x y
      | _, _ => Raise TypeError
      end
  end.

(** [a >= b] *)
Definition py_ge (a b : pyobj) : result bool :=
  match a, b with
  | OStr x, OStr y => Ok (String.leb y x)
  | _, _ =>
      match as_num a, as_num b with
      | Some x, Some y => Ok (num_ge x y)
      | _, _ => Raise TypeError
      end
  end.

(** ** Typing rules *)

(** The numbers. *)
Definition numeric (t : pytype) : bool :=
  match t with TBool | TInt | TFloat => true | _ => false end.

(** The class of [a + b] from the classes of [a] and [b], when [+] accepts
    them: a sum of numbers is a [float] when an operand is one and an
    [int] otherwise, also for two [bool]s. *)
Definition add_type (s t : pytype) : option pytype :=
  match s, t with
  | (TBool | TInt), (TBool | TInt) => Some TInt
  | (TBool | TInt), TFloat | TFloat, (TBool | TInt | TFloat) => Some TFloat
  | TStr, TStr => Some TStr
  | _, _ => None
  end.

(** The classes [>=] accepts together: two numbers, or two strings. *)
Definition comparable (s t : pytype) : bool :=
  numeric s && numeric t || bool_decide (s = TStr ∧ t = TStr).

(** An object as the operators see it: a [bool] as its [int]. *)
Definition decay (v : pyobj) : pyobj :=
  match v with
  | OBool b => OInt (Z.b2z b)
  | _ => v
  end.

(** ** The operators and the typing rules *)

Lemma py_float_of_int_Raise z e : py_float_of_int z = Raise e → e = OverflowError.
Proof. unfold py_float_of_int. case_match; congruence. Qed.

(** The class of a sum is the one the rule gives. *)
Lemma py_add_type a b c :
  py_add a b = Ok c → add_type (type_of a) (type_of b) = Some (type_of c).
Proof.
  destruct a, b; simpl; intros Hadd; simplify_result; try done;
    destruct (py_float_of_int _); simplify_result; done.
Qed.

(** [+] raises [TypeError] exactly on the classes the rule refuses. *)
Lemma py_add_TypeError a b :
  py_add a b = Raise TypeError ↔ add_type (type_of a) (type_of b) = None.
Proof.
  destruct a, b; simpl; try done;
    (split; [|done]); intros [Hr|(? & _ & [=])]%bind_Raise_inv;
    by apply py_float_of_int_Raise in Hr.
Qed.

(** On classes the rule accepts, [+] returns, or the conversion of an
    [int] operand overflows. *)
Lemma py_add_progress a b :
  add_type (type_of a) (type_of b) ≠ None →
  (∃ c, py_add a b = Ok c) ∨ py_add a b = Raise OverflowError.
Proof.
  destruct a, b; simpl; try done; intros _; eauto;
    destruct (py_float_of_int _) as [?|e] eqn:Hf; simpl; eauto;
    apply py_float_of_int_Raise in Hf as ->; eauto.
Qed.

Lemma py_add_int x y : py_add (OInt x) (OInt y) = Ok (OInt (x + y)).
Proof. done. Qed.

(** [>=] returns exactly on comparable classes, and raises [TypeError] on
    the others. *)
Lemma py_ge_comparable a b :
  is_ok (py_ge a b) = comparable (type_of a) (type_of b).
Proof. by destruct a, b. Qed.

Lemma py_ge_Raise a b e :
  py_ge a b = Raise e ↔ e = TypeError ∧ comparable (type_of a) (type_of b) = false.
Proof.
  destruct a, b; simpl; split; try done;
    solve [by intros [_ ?] | by intros [= <-] | by intros [-> _]].
Qed.

(** What is comparable with an [int] is a number. *)
Lemma comparable_int t : comparable t TInt = numeric t.
Proof. by destruct t. Qed.

Lemma py_ge_int x y : py_ge (OInt x) (OInt y) = Ok (x >=? y).
Proof. done. Qed.

(** A [bool] operand can be replaced by its [int]: the operators do not
    see the difference. *)
Lemma py_add_decay a b : py_add a b = py_add (decay a) (decay b).
Proof. by destruct a, b. Qed.

Lemma py_ge_decay a b : py_ge a b = py_ge (decay a) (decay b).
Proof. by destruct a, b. Qed.

(** The class of a [bool] is lost in a sum: no sum is a [bool]. *)
Lemma py_add_not_bool a b c : py_add a b = Ok c → type_of c ≠ TBool.
Proof. by intros Hc%py_add_type; destruct (type_of a), (type_of b), (type_of c). Qed.

#[export] Hint Rewrite py_add_int py_ge_int : py_rw.

(** ** The conversion of small integers *)

Lemma binary_round_exact sx p x :
  Z.pos p < 2 ^ 53 →
  is_infinity (SF2Prim (binary_round prec emax sx p 0)) = false ∧
  int_float_compare x (SF2Prim (binary_round prec emax sx p 0)) =
    Some (x ?= if sx then Z.neg p else Z.pos p).
Proof.
  intros (m & e & -> & Hb & He & Hm)%(binary_round_small sx).
  destruct (SF2Prim_finite sx m e Hb) as [Hf Hinf]. split; [done|].
  unfold int_float_compare. rewrite Hf. f_equal.
  destruct (Z.leb_spec 0 e); [replace e with 0 in * by lia|].
  - f_equal. destruct sx; simpl in *; lia.
  - rewrite <- (Z_compare_mul_r x _ (2 ^ (- e))) by (apply Z.pow_pos_nonneg; lia).
    f_equal. destruct sx; lia.
Qed.

(** The float of a small [int] compares with every [int] as the [int]
    itself does. *)
Lemma py_float_of_int_small z :
  Z.abs z < 2 ^ 53 →
  ∃ f, py_float_of_int z = Ok f ∧ ∀ x, int_float_compare x f = Some (x ?= z).
Proof.
  intros Hz. unfold py_float_of_int.
  destruct z as [|p|p]; [by exists 0%float| |]; simpl binary_normalize.
  - destruct (binary_round_exact false p 0) as [-> _]; [lia|].
    eexists. split; [done|]. intros x. by apply (binary_round_exact false).
  - destruct (binary_round_exact true p 0) as [-> _]; [lia|].
    eexists. split; [done|]. intros x. by apply (binary_round_exact true).
Qed.

(** C39: an [int] below [2 ^ 53] in absolute value is converted without
    rounding and without [OverflowError]: the float compares equal to the
    [int] it comes from, and [>=] between the float and any [int] answers
    as [>=] between the two [int]s. *)
Theorem py_float_of_int_exact z :
  Z.abs z < 2 ^ 53 →
  ∃ f, py_float_of_int z = Ok f ∧ int_float_compare z f = Some Eq ∧
    ∀ x, py_ge (OFloat f) (OInt x) = Ok (z >=? x) ∧
         py_ge (OInt x) (OFloat f) = Ok (x >=? z).
Proof.
  intros (f & Hf & Hcmp)%py_float_of_int_small. exists f. split_and!; [done|..].
  - by rewrite Hcmp, Z.compare_refl.
  - intros x. simpl. rewrite Hcmp. unfold Z.geb. rewrite (Z.compare_antisym x z).
    by destruct (x ?= z).
Qed.

(** Past [2 ^ 53] the conversion rounds: [2 ^ 53 + 1] becomes [2 ^ 53]. *)
Lemma py_float_of_int_rounds :
  py_float_of_int (2 ^ 53 + 1) = Ok 9007199254740992%float ∧
  int_float_compare (2 ^ 53 + 1) 9007199254740992%float = Some Gt.
Proof. by vm_compute. Qed.

(** ** Witnesses *)

Lemma py_float_of_int_exact_witness :
  ∃ f, py_float_of_int 100 = Ok f ∧ int_float_compare 100 f = Some Eq ∧
    ∀ x, py_ge (OFloat f) (OInt x) = Ok (100 >=? x) ∧
         py_ge (OInt x) (OFloat f) = Ok (x >=? 100).
Proof. apply py_float_of_int_exact. by vm_compute. Defined.
