(* ===== verification/PyIO.v ===== *)
(** * Standard output

    What [print] writes, line by line.  A line is the sequence of the parts
    of the f-string that produced it: literal text, and values formatted by
    [{...}].  A block that prints is an [io A]: the lines it wrote, in
    order, and its value.

    [line_text] is the text of a line: the literal parts and [str] of the
    formatted values ([py_str]), with the digits of [PyRepr] for numbers.
    The text of an exception depends on the operation that raised it and,
    for [OverflowError], on the C library; it is a parameter ([exn_str]) of
    these definitions. *)

From Stdlib Require Import Floats ZArith Ascii String.
From stdpp Require Import prelude strings.
From S2P Require Import Prelude PyRepr.

(** The values the program formats. *)
Inductive pyval : Type :=
  | VFloat (f : float)
  | VInt (z : Z)
  | VStr (s : string)
  | VTuple (x y : float)
  | VExn (e : exn).

Inductive frag : Type :=
  | Lit (s : string)
  | Fmt (v : pyval).

Definition line : Type := list frag.

Record io (A : Type) := IO {
  io_out : list line;
  io_val : A;
}.
Arguments IO {A} _ _.
Arguments io_out {A} _.
Arguments io_val {A} _.

#[export] Instance io_ret : MRet io := λ A a, IO [] a.
#[export] Instance io_bind : MBind io := λ A B f m,
  let r := f (io_val m) in IO (io_out m ++ io_out r) (io_val r).
#[export] Instance io_fmap : FMap io := λ A B f m, IO (io_out m) (f (io_val m)).

(** [print(l)] writes one line. *)
Definition print (l : line) : io () := IO [l] ().

(** ** The text written *)

Section text.
Context (exn_str : exn → string).

(** [str(v)], as an f-string formats [{v}]; a tuple shows the [repr] of its
    components. *)
Definition py_str (v : pyval) : string :=
  match v with
  | VFloat f => float_repr f
  | VInt z => int_str z
  | VStr s => s
  | VTuple x y => "(" +:+ float_repr x +:+ ", " +:+ float_repr y +:+ ")"
  | VExn e => exn_str e
  end.

Definition frag_text (f : frag) : string :=
  match f with
  | Lit s => s
  | Fmt v => py_str v
  end.

(** The characters of a line, without the newline that ends it. *)
Definition line_text (l : line) : string :=
  foldr (λ f acc, frag_text f +:+ acc) EmptyString l.

(** Everything written: each line followed by a newline. *)
Definition stdout_text (out : list line) : string :=
  foldr (λ l acc, line_text l +:+ String "010"%char acc) EmptyString out.

(** What is written in sequence is the text of the first part followed by
    the text of the second. *)
Lemma stdout_text_app (out1 out2 : list line) :
  stdout_text (out1 ++ out2) = stdout_text out1 +:+ stdout_text out2.
Proof.
  induction out1 as [|l out1 IH]; simpl; [done|].
  by rewrite IH, string_app_assoc.
Qed.

(** Each [print] ends its line: the text has as many lines as were
    written. *)
Lemma stdout_text_lines (out : list line) :
  stdout_text out =
    foldr (λ t acc, t +:+ String "010"%char acc) EmptyString (line_text <$> out).
Proof. induction out as [|l out IH]; simpl; [done|]. by rewrite IH. Qed.
End text.

Section io_lemmas.
Context {A B : Type}.
Implicit Types (m : io A) (f : A → io B).

Lemma io_bind_out m f : io_out (m ≫= f) = io_out m ++ io_out (f (io_val m)).
Proof. done. Qed.

Lemma io_bind_val m f : io_val (m ≫= f) = io_val (f (io_val m)).
Proof. done. Qed.

Lemma io_ret_bind (a : A) f : mret a ≫= f = f a.
Proof. unfold mbind, mret, io_bind, io_ret; simpl. by destruct (f a). Qed.

Lemma io_bind_ret m : m ≫= mret = m.
Proof. destruct m as [o a]. unfold mbind, io_bind; simpl. by rewrite app_nil_r. Qed.
End io_lemmas.

Lemma io_bind_assoc {A B C} (m : io A) (f : A → io B) (g : B → io C) :
  (m ≫= f) ≫= g = m ≫= (λ a, f a ≫= g).
Proof. unfold mbind, io_bind; simpl. by rewrite app_assoc. Qed.

(** ** Blocks that print and may raise *)

(** A block of statements: the lines it wrote before it ended, and how it
    ended.  An exception stops the block; what was written stays written. *)
Record prog (A : Type) := Prog {
  prog_out : list line;
  prog_res : result A;
}.
Arguments Prog {A} _ _.
Arguments prog_out {A} _.
Arguments prog_res {A} _.

#[export] Instance prog_ret : MRet prog := λ A a, Prog [] (Ok a).
#[export] Instance prog_bind : MBind prog := λ A B f m,
  match prog_res m with
  | Ok a => let r := f a in Prog (prog_out m ++ prog_out r) (prog_res r)
  | Raise e => Prog (prog_out m) (Raise e)
  end.

(** A call that prints and cannot raise, and an expression that may raise
    and prints nothing, as blocks. *)
Definition run_io {A} (m : io A) : prog A := Prog (io_out m) (Ok (io_val m)).
Definition run_result {A} (r : result A) : prog A := Prog [] r.

(** [try: body except Exception as e: handler e] for blocks: the handler
    continues after what the body wrote. *)
Definition prog_try {A} (body : prog A) (handler : exn → prog A) : prog A :=
  match prog_res body with
  | Ok _ => body
  | Raise e => let r := handler e in Prog (prog_out body ++ prog_out r) (prog_res r)
  end.

(** [for x in l: body x] *)
Fixpoint for_each {A} (l : list A) (body : A → prog ()) : prog () :=
  match l with
  | [] => mret ()
  | x :: l' => body x ≫= λ _, for_each l' body
  end.

Section prog_lemmas.
Context {A B : Type}.
Implicit Types (m : prog A) (f : A → prog B).

Lemma prog_bind_Ok out a f :
  Prog out (Ok a) ≫= f = Prog (out ++ prog_out (f a)) (prog_res (f a)).
Proof. done. Qed.

Lemma prog_bind_Raise out e f : Prog out (Raise e) ≫= f = Prog out (Raise e).
Proof. done. Qed.

Lemma prog_bind_res_Ok m f b :
  prog_res (m ≫= f) = Ok b ↔ ∃ a, prog_res m = Ok a ∧ prog_res (f a) = Ok b.
Proof.
  destruct m as [out [a|e]]; simpl; split.
  - eauto.
  - by intros (? & [= <-] & ?).
  - done.
  - by intros (? & ? & ?).
Qed.

Lemma run_io_bind (m : io A) f :
  run_io m ≫= f = Prog (io_out m ++ prog_out (f (io_val m))) (prog_res (f (io_val m))).
Proof. done. Qed.

Lemma run_result_bind_Ok a f : run_result (Ok a) ≫= f = f a.
Proof. unfold run_result. rewrite prog_bind_Ok. by destruct (f a). Qed.

(** A block whose body cannot raise never enters its handler. *)
Lemma prog_try_Ok (body : prog A) handler a :
  prog_res body = Ok a → prog_try body handler = body.
Proof. unfold prog_try. by intros ->. Qed.
End prog_lemmas.

(** A loop whose body only prints writes the lines of its iterations in
    order. *)
Lemma for_each_print {A} (l : list A) (f : A → line) :
  for_each l (λ x, run_io (print (f x))) = Prog (f <$> l) (Ok ()).
Proof.
  induction l as [|x l IH]; [done|]. simpl. rewrite IH. done.
Qed.

#[export] Hint Rewrite @io_bind_out @io_bind_val @run_io_bind @run_result_bind_Ok
  @prog_bind_Ok @prog_bind_Raise @for_each_print : py_rw.
