(* ===== verification/PyHeap.v ===== *)
(** * Lists as objects

    [list] objects of Python are mutable and are handled by reference: two
    variables may name the same list, and [append] and [remove] change it
    for both.  Here a list lives in a heap at a reference; a statement
    ([stm]) runs in a state and leaves a new state together with its
    outcome.  An exception keeps the changes made before it was raised.
    A statement that is given too little fuel to finish has no outcome
    ([None]).  The state of the statements on lists is a [world], the
    heap and the lines written so far; the statements of the driver run
    in a larger state ([SimulationHeap]). *)

From stdpp Require Import prelude gmap.
From S2P Require Import Prelude PyBuiltins PyIO.

(** ** References *)

Record ref : Set := Ref { ref_id : positive }.

#[export] Instance ref_eq_dec : EqDecision ref.
Proof. solve_decision. Defined.
#[export] Instance ref_countable : Countable ref.
Proof. refine (inj_countable' ref_id Ref _). by intros []. Defined.
#[export] Instance ref_infinite : Infinite ref.
Proof. refine (inj_infinite Ref (λ r, Some (ref_id r)) _). done. Defined.

(** ** Statements *)

(** A statement runs in a state and leaves a new state with its outcome;
    [None] is a statement that was not given the fuel to finish. *)
Section statements.
Context {S : Type}.

Definition stm (B : Type) : Type := S → option (result B * S).

#[export] Instance stm_ret : MRet stm := λ B b s, Some (Ok b, s).
#[export] Instance stm_bind : MBind stm := λ B C f m s,
  match m s with
  | Some (Ok b, s') => f b s'
  | Some (Raise e, s') => Some (Raise e, s')
  | None => None
  end.

(** An expression that does not touch the state. *)
Definition stm_lift {B} (r : result B) : stm B := λ s, Some (r, s).

(** Out of fuel. *)
Definition stm_diverge {B} : stm B := λ _, None.

(** [try: body except Exception as e: handler e] *)
Definition stm_try {B} (body : stm B) (handler : exn → stm B) : stm B := λ s,
  match body s with
  | Some (Raise e, s') => handler e s'
  | r => r
  end.

(** [for x in l: body x], for a list the body does not change. *)
Fixpoint stm_for_each {A} (l : list A) (body : A → stm ()) : stm () :=
  match l with
  | [] => mret ()
  | x :: l' => _ ← body x; stm_for_each l' body
  end.
End statements.

Arguments stm : clear implicits.

(** ** Worlds *)

Section heap.
Context {A : Type}.

Record world := World {
  w_heap : gmap ref (list A);
  w_out : list line;
}.

(** [print(l)] *)
Definition stm_print (l : line) : stm world () := λ w,
  Some (Ok (), World (w_heap w) (w_out w ++ [l])).

(** ** Primitive operations on list objects *)

(** A new list object: its reference is not in use. *)
Definition list_alloc (l : list A) : stm world ref := λ w,
  let a := fresh (dom (w_heap w)) in
  Some (Ok a, World (<[a := l]> (w_heap w)) (w_out w)).

Definition list_load (a : ref) : stm world (list A) := λ w,
  Some (Ok (w_heap w !!! a), w).

Definition list_store (a : ref) (l : list A) : stm world () := λ w,
  Some (Ok (), World (<[a := l]> (w_heap w)) (w_out w)).

(** ** The operations of Python *)

(** [a[:]]: a new object with the elements of [a]. *)
Definition py_copy_ref (a : ref) : stm world ref :=
  l ← list_load a; list_alloc (py_list_copy l).

(** [a.append(x)] *)
Definition py_append_ref (a : ref) (x : A) : stm world () :=
  l ← list_load a; list_store a (l ++ [x]).

(** [a.remove(x)] *)
Definition py_remove_ref `{PyEq A} (a : ref) (x : item A) : stm world () :=
  l ← list_load a; l' ← stm_lift (py_list_remove x l); list_store a l'.

(** [min(a, key=key)] *)
Definition py_min_ref `{PyOrd K} (key : A → result K) (a : ref) : stm world (item A) :=
  l ← list_load a; stm_lift (py_min key l).

(** The truth value of [a]: a list is true when it is not empty. *)
Definition py_truth_ref (a : ref) : stm world bool :=
  l ← list_load a; mret (bool_decide (l ≠ [])).
End heap.

Arguments world : clear implicits.

(** ** Evaluation of the operations *)

Section statement_lemmas.
Context {S : Type}.
Implicit Types (s : S).

Lemma stm_bind_Ok {B C} (m : stm S B) (f : B → stm S C) s v s' :
  m s = Some (Ok v, s') → (m ≫= f) s = f v s'.
Proof. unfold mbind, stm_bind. by intros ->. Qed.

Lemma stm_bind_Raise {B C} (m : stm S B) (f : B → stm S C) s e s' :
  m s = Some (Raise e, s') → (m ≫= f) s = Some (Raise e, s').
Proof. unfold mbind, stm_bind. by intros ->. Qed.

(** A body that completes does not enter the handler; the handler of a
    body that raises continues from the state the body left. *)
Lemma stm_try_Ok {B} (body : stm S B) handler s v s' :
  body s = Some (Ok v, s') → stm_try body handler s = Some (Ok v, s').
Proof. unfold stm_try. by intros ->. Qed.

Lemma stm_try_Raise {B} (body : stm S B) handler s e s' :
  body s = Some (Raise e, s') → stm_try body handler s = handler e s'.
Proof. unfold stm_try. by intros ->. Qed.
End statement_lemmas.

Section heap_lemmas.
Context {A : Type}.
Implicit Types (w : world A) (a c : ref) (l : list A).

Lemma list_load_Some a l w :
  w_heap w !! a = Some l → list_load a w = Some (Ok l, w).
Proof. intros Ha. unfold list_load. by rewrite (lookup_total_correct _ _ _ Ha). Qed.

(** Allocation returns a reference that was not in use. *)
Lemma list_alloc_fresh l w :
  ∃ a, list_alloc l w = Some (Ok a, World (<[a := l]> (w_heap w)) (w_out w)) ∧
    w_heap w !! a = None.
Proof.
  eexists. split; [done|]. apply (not_elem_of_dom (D := gset ref)), is_fresh.
Qed.

Lemma py_copy_ref_Some a l w :
  w_heap w !! a = Some l →
  ∃ c, py_copy_ref a w = Some (Ok c, World (<[c := l]> (w_heap w)) (w_out w)) ∧
    w_heap w !! c = None.
Proof.
  intros Ha. unfold py_copy_ref. rewrite (stm_bind_Ok _ _ _ _ _ (list_load_Some _ _ _ Ha)).
  apply list_alloc_fresh.
Qed.

Lemma py_append_ref_Some a x l w :
  w_heap w !! a = Some l →
  py_append_ref a x w = Some (Ok (), World (<[a := l ++ [x]]> (w_heap w)) (w_out w)).
Proof.
  intros Ha. unfold py_append_ref.
  by rewrite (stm_bind_Ok _ _ _ _ _ (list_load_Some _ _ _ Ha)).
Qed.

Lemma py_remove_ref_Some `{PyEq A} a (x : item A) l w :
  w_heap w !! a = Some l →
  py_remove_ref a x w =
    match py_list_remove x l with
    | Ok l' => Some (Ok (), World (<[a := l']> (w_heap w)) (w_out w))
    | Raise e => Some (Raise e, w)
    end.
Proof.
  intros Ha. unfold py_remove_ref.
  rewrite (stm_bind_Ok _ _ _ _ _ (list_load_Some _ _ _ Ha)).
  unfold mbind, stm_bind, stm_lift. by destruct (py_list_remove x l).
Qed.

Lemma py_min_ref_Some `{PyOrd K} (key : A → result K) a l w :
  w_heap w !! a = Some l → py_min_ref key a w = Some (py_min key l, w).
Proof.
  intros Ha. unfold py_min_ref.
  by rewrite (stm_bind_Ok _ _ _ _ _ (list_load_Some _ _ _ Ha)).
Qed.

Lemma py_truth_ref_Some a l w :
  w_heap w !! a = Some l →
  py_truth_ref a w = Some (Ok (bool_decide (l ≠ [])), w).
Proof.
  intros Ha. unfold py_truth_ref.
  by rewrite (stm_bind_Ok _ _ _ _ _ (list_load_Some _ _ _ Ha)).
Qed.
End heap_lemmas.
