(* ===== verification/PyDict.v ===== *)
(** * Python dictionaries

    A [dict] keeps its entries in the order in which their keys were first
    inserted, and [items()] yields them in that order.  It is modelled by
    the list of its entries, [pydict K V]; the keys of a dictionary built by
    the operations below are distinct ([pydict_wf]).

    The abstract view of a dictionary is the finite map [pydict_map] of
    stdpp; [pydict_map_setitem] and the lemmas next to it state that each
    operation implements the corresponding operation on finite maps. *)

From stdpp Require Import prelude gmap.
From S2P Require Import Prelude.

Section pydict.
Context {K V : Type} `{EqDecision K}.

Definition pydict : Type := list (K * V).

(** [{}] *)
Definition py_dict_empty : pydict := [].

(** The entry of a key, if there is one. *)
Fixpoint py_dict_lookup (k : K) (d : pydict) : option V :=
  match d with
  | [] => None
  | (k', v) :: d' => if decide (k = k') then Some v else py_dict_lookup k d'
  end.

(** [k in d] *)
Definition py_dict_contains (k : K) (d : pydict) : bool :=
  match py_dict_lookup k d with Some _ => true | None => false end.

(** [d[k]]: [KeyError] when the key is absent. *)
Definition py_dict_getitem (k : K) (d : pydict) : result V :=
  match py_dict_lookup k d with Some v => Ok v | None => Raise KeyError end.

(** [d.get(k, default)] *)
Definition py_dict_get (k : K) (default : V) (d : pydict) : V :=
  match py_dict_lookup k d with Some v => v | None => default end.

(** [d[k] = v]: the value of an existing key is replaced where it stands, a
    new key is added at the end. *)
Fixpoint py_dict_setitem (k : K) (v : V) (d : pydict) : pydict :=
  match d with
  | [] => [(k, v)]
  | (k', v') :: d' =>
      if decide (k = k') then (k', v) :: d' else (k', v') :: py_dict_setitem k v d'
  end.

(** [d.items()] *)
Definition py_dict_items (d : pydict) : list (K * V) := d.

(** The keys in iteration order, and the invariant: no key occurs twice. *)
Definition py_dict_keys (d : pydict) : list K := d.*1.

Definition pydict_wf (d : pydict) : Prop := NoDup (py_dict_keys d).

#[export] Instance pydict_wf_dec (d : pydict) : Decision (pydict_wf d).
Proof. unfold pydict_wf. apply _. Defined.

(** ** Lookup after an update *)

Lemma py_dict_lookup_setitem_eq k v d : py_dict_lookup k (py_dict_setitem k v d) = Some v.
Proof.
  induction d as [|[k' v'] d IH]; simpl; [by rewrite decide_True|].
  destruct (decide (k = k')) as [->|?]; simpl; [by rewrite decide_True|].
  by rewrite decide_False.
Qed.

Lemma py_dict_lookup_setitem_ne k k' v d :
  k ≠ k' → py_dict_lookup k' (py_dict_setitem k v d) = py_dict_lookup k' d.
Proof.
  intros Hne. induction d as [|[k'' v''] d IH]; simpl.
  { rewrite decide_False; [done|congruence]. }
  destruct (decide (k = k'')) as [->|?]; simpl.
  - by rewrite !decide_False by congruence.
  - by rewrite IH.
Qed.

Lemma py_dict_lookup_None k d : py_dict_lookup k d = None ↔ k ∉ py_dict_keys d.
Proof.
  induction d as [|[k' v'] d IH]; simpl.
  { split; [intros _ ?%elem_of_nil|]; done. }
  rewrite not_elem_of_cons. destruct (decide (k = k')) as [->|Hne].
  - split; [done|by intros [? _]].
  - rewrite IH. split; [done|by intros [_ ?]].
Qed.

Lemma py_dict_lookup_Some_elem_of k v d : py_dict_lookup k d = Some v → (k, v) ∈ d.
Proof.
  induction d as [|[k' v'] d IH]; simpl; [done|].
  destruct (decide (k = k')) as [->|?]; [intros [= ->]; left|intros ?; right; auto].
Qed.

(** ** Order of the keys *)

Lemma py_dict_keys_setitem_present k v d :
  k ∈ py_dict_keys d → py_dict_keys (py_dict_setitem k v d) = py_dict_keys d.
Proof.
  unfold py_dict_keys. induction d as [|[k' v'] d IH]; simpl.
  { by intros ?%elem_of_nil. }
  destruct (decide (k = k')) as [->|Hne]; simpl; [done|].
  intros [?|Hin]%elem_of_cons; [done|]. f_equal. by apply IH.
Qed.

(** Assigning to an absent key appends the entry. *)
Lemma py_dict_setitem_absent k v d :
  k ∉ py_dict_keys d → py_dict_setitem k v d = d ++ [(k, v)].
Proof.
  unfold py_dict_keys. induction d as [|[k' v'] d IH]; simpl; [done|].
  intros [Hne Hnin]%not_elem_of_cons. rewrite decide_False by done.
  f_equal. by apply IH.
Qed.

Lemma py_dict_keys_setitem_absent k v d :
  k ∉ py_dict_keys d → py_dict_keys (py_dict_setitem k v d) = py_dict_keys d ++ [k].
Proof.
  intros Hk. rewrite py_dict_setitem_absent by done.
  unfold py_dict_keys. by rewrite fmap_app.
Qed.

Lemma py_dict_setitem_wf k v d : pydict_wf d → pydict_wf (py_dict_setitem k v d).
Proof.
  unfold pydict_wf. intros Hwf. destruct (decide (k ∈ py_dict_keys d)).
  - by rewrite py_dict_keys_setitem_present.
  - rewrite py_dict_keys_setitem_absent by done.
    apply NoDup_app. split_and!; [done| |apply NoDup_singleton].
    intros k' Hk' ->%list_elem_of_singleton. done.
Qed.

Lemma py_dict_empty_wf : pydict_wf py_dict_empty.
Proof. apply NoDup_nil_2. Qed.
End pydict.

#[export] Hint Resolve py_dict_empty_wf py_dict_setitem_wf : py.

Arguments pydict : clear implicits.

(** ** The abstract view: a finite map *)

Section pydict_map.
Context `{Countable K} {V : Type}.
Implicit Types (d : pydict K V) (k : K) (v : V).

Definition pydict_map d : gmap K V := list_to_map d.

Lemma pydict_map_lookup d k : pydict_map d !! k = py_dict_lookup k d.
Proof.
  unfold pydict_map. induction d as [|[k' v'] d IH]; simpl; [done|].
  destruct (decide (k = k')) as [->|Hne].
  - by rewrite lookup_insert_eq.
  - by rewrite lookup_insert_ne.
Qed.

Lemma pydict_map_empty : pydict_map (py_dict_empty : pydict K V) = ∅.
Proof. done. Qed.

Lemma pydict_map_setitem k v d : pydict_map (py_dict_setitem k v d) = <[k:=v]> (pydict_map d).
Proof.
  apply map_eq. intros k'. rewrite pydict_map_lookup.
  destruct (decide (k = k')) as [<-|Hne].
  - by rewrite py_dict_lookup_setitem_eq, lookup_insert_eq.
  - by rewrite py_dict_lookup_setitem_ne, lookup_insert_ne, pydict_map_lookup.
Qed.

Lemma pydict_map_get k v d : py_dict_get k v d = default v (pydict_map d !! k).
Proof. unfold py_dict_get. by rewrite pydict_map_lookup. Qed.

Lemma pydict_map_contains k d : py_dict_contains k d = bool_decide (k ∈ dom (pydict_map d)).
Proof.
  unfold py_dict_contains. rewrite <- pydict_map_lookup.
  destruct (pydict_map d !! k) as [v|] eqn:Hk.
  - symmetry. apply bool_decide_eq_true. apply elem_of_dom. eauto.
  - symmetry. apply bool_decide_eq_false. by apply not_elem_of_dom.
Qed.

(** The entries of a well-formed dictionary are those of its map. *)
Lemma pydict_map_items d : pydict_wf d → py_dict_items d ≡ₚ map_to_list (pydict_map d).
Proof. intros Hwf. symmetry. by apply map_to_list_to_map. Qed.
End pydict_map.
