(* ===== verification/RoutePlanner.v ===== *)
(** * The route planner

    [RoutePlanner] of [src/main.py]: the constructor, [calculate_distance]
    and [find_optimal_route].

    The state of the method's loop is the record [loop_state] of its three
    local variables.  [loop_body] is one execution of the body of the
    [while], [loop_iter] the test of the [while] followed by the body,
    [while_loop] the loop.  The loop is defined by well-founded recursion
    on the number of remaining locations: [loop_iter_decreases] is its
    termination argument, and no fuel is involved.
    [find_optimal_route_body] is the block under [try], and
    [find_optimal_route] the method with its handler, which prints one line
    and returns the empty list. *)

From Stdlib Require Import Floats String.
From Equations Require Import Equations.
From stdpp Require Import prelude.
From S2P Require Import Prelude PyBuiltins PyFloat PyIO.

Set Warnings "-inexact-float".

(** ** Data *)

(** A location is a tuple [(latitude, longitude)] of two floats. *)
Definition location : Type := float * float.

(** The module-level list of delivery points. *)
Definition DELIVERY_LOCATIONS : list location :=
  [(40.7128, -74.0060); (34.0522, -118.2437); (41.8781, -87.6298);
   (29.7604, -95.3698)]%float.

(** An instance of the class: its only attribute is [self.locations]. *)
Record RoutePlanner := {
  locations : list location;
}.

(** [RoutePlanner(locations)], that is [__init__]. *)
Definition RoutePlanner_init (locs : list location) : RoutePlanner :=
  {| locations := locs |}.

(** The local variables of [find_optimal_route]. *)
Record loop_state := LoopState {
  remaining_locations : list location;
  current_location : location;
  route : list location;
}.

(** ** Methods *)

(** [np.sqrt((loc1[0] - loc2[0])**2 + (loc1[1] - loc2[1])**2)]: the left
    square is evaluated before the right one, and either may raise
    [OverflowError]. *)
Definition calculate_distance (self : RoutePlanner) (loc1 loc2 : location)
    : result float :=
  dx2 ← py_float_pow2 (py_float_sub loc1.1 loc2.1);
  dy2 ← py_float_pow2 (py_float_sub loc1.2 loc2.2);
  mret (np_sqrt (py_float_add dx2 dy2)).

(** The body of the [while]: the nearest remaining location is chosen,
    appended to the route, made the current location, and removed from the
    remaining ones. *)
Definition loop_body (self : RoutePlanner) (st : loop_state) : result loop_state :=
  next_location ←
    py_min (calculate_distance self (current_location st)) (remaining_locations st);
  let route' := route st ++ [item_val next_location] in
  let current_location' := item_val next_location in
  remaining_locations' ← py_list_remove next_location (remaining_locations st);
  mret (LoopState remaining_locations' current_location' route').

(** [while remaining_locations:] a list is true when it is not empty.
    [None] means that the loop exits. *)
Definition loop_iter (self : RoutePlanner) (st : loop_state)
    : option (result loop_state) :=
  match remaining_locations st with
  | [] => None
  | _ :: _ => Some (loop_body self st)
  end.

(** The body removes one location: the measure of the loop. *)
Lemma loop_body_decreases self st st' :
  loop_body self st = Ok st' →
  length (remaining_locations st) = S (length (remaining_locations st')).
Proof.
  unfold loop_body. intros Hbody. simplify_result.
  by eapply py_list_remove_length.
Qed.

Lemma loop_iter_decreases self st st' :
  loop_iter self st = Some (Ok st') →
  length (remaining_locations st') < length (remaining_locations st).
Proof.
  unfold loop_iter. destruct (remaining_locations st) eqn:Hrem; [done|].
  intros [= Hbody%loop_body_decreases]. rewrite Hrem in Hbody. simpl in *. lia.
Qed.

(** The [while] loop. *)
Equations? while_loop (self : RoutePlanner) (st : loop_state) : result loop_state
    by wf (length (remaining_locations st)) lt :=
  while_loop self st with inspect (loop_iter self st) := {
    | exist _ None _ => Ok st
    | exist _ (Some (Raise e)) _ => Raise e
    | exist _ (Some (Ok st')) Hiter => while_loop self st' }.
Proof. by eapply loop_iter_decreases. Qed.

(** The block under [try]. *)
Definition find_optimal_route_body (self : RoutePlanner) (start_location : location)
    : result (list location) :=
  let remaining_locations0 := py_list_copy (locations self) in
  let current_location0 := start_location in
  let route0 := [start_location] in
  st ← while_loop self (LoopState remaining_locations0 current_location0 route0);
  mret (route st).

(** The line the handler prints. *)
Definition error_line (e : exn) : line :=
  [Lit "Error optimizing route: "%string; Fmt (VExn e)].

(** The method: the route, or the handler's message and the empty list. *)
Definition find_optimal_route (self : RoutePlanner) (start_location : location)
    : io (list location) :=
  try_except (find_optimal_route_body self start_location)
    (λ route, mret route)
    (λ e, print (error_line e) ≫= λ _, mret []).

(** ** The abstract specification: a nearest-neighbour tour *)

(** [greedy_route d cur rem r]: [r] visits the locations [rem] from [cur],
    each time going to a location that [first_min] accepts for the distance
    [d] from the current position. *)
Inductive greedy_route (d : location → location → result float)
    : location → list location → list location → Prop :=
  | greedy_done cur : greedy_route d cur [] []
  | greedy_next cur rem it k r :
      first_min (d cur) rem it k →
      greedy_route d (item_val it) (delete (item_pos it) rem) r →
      greedy_route d cur rem (item_val it :: r).

(** Every distance from a location of [from] to a location of [to] is
    defined, that is no square overflows. *)
Definition distances_defined (self : RoutePlanner) (from to : list location) : Prop :=
  ∀ a b, a ∈ from → b ∈ to → is_ok (calculate_distance self a b) = true.

(** The two ways the method ends. *)
Inductive route_outcome (self : RoutePlanner) (start : location)
    : io (list location) → Prop :=
  | route_found r :
      greedy_route (calculate_distance self) start (locations self) r →
      route_outcome self start (IO [] (start :: r))
  | route_failed a b :
      a ∈ start :: locations self → b ∈ locations self →
      calculate_distance self a b = Raise OverflowError →
      route_outcome self start (IO [error_line OverflowError] []).

(** The length of a route: the sum of the distances between consecutive
    stops, in binary64. *)
Fixpoint route_length (self : RoutePlanner) (route : list location) : result float :=
  match route with
  | a :: (b :: _) as rest =>
      d ← calculate_distance self a b;
      l ← route_length self rest;
      mret (py_float_add d l)
  | _ => mret 0%float
  end.

(** Three points on a line, with a start between them. *)
Definition line_planner : RoutePlanner :=
  RoutePlanner_init [(1, 0); (-2, 0); (4, 0)]%float.

(** ** The planner of the driver *)

(** [planner = RoutePlanner(DELIVERY_LOCATIONS)] and the hub it starts from,
    as [simulate_deliveries] sets them up. *)
Definition planner : RoutePlanner := RoutePlanner_init DELIVERY_LOCATIONS.
Definition start_location : location := (37.7749, -122.4194)%float.

(** The stops after the hub: Los Angeles, Houston, Chicago, New York. *)
Definition planner_tour : list location :=
  [(34.0522, -118.2437); (29.7604, -95.3698); (41.8781, -87.6298);
   (40.7128, -74.0060)]%float.

(** ** The distance *)

(** Locations that compare equal are at the same distance from any point. *)
#[export] Instance calculate_distance_proper self cur :
  PyKeyProper (calculate_distance self cur).
Proof.
  intros [x1 x2] [y1 y2]. unfold py_eq, prod_py_eq; simpl.
  intros [H1 H2]%andb_prop. unfold calculate_distance; simpl.
  by rewrite (py_float_pow2_sub_proper _ _ _ H1), (py_float_pow2_sub_proper _ _ _ H2).
Qed.

(** The distance raises only [OverflowError]. *)
Lemma calculate_distance_Raise self loc1 loc2 e :
  calculate_distance self loc1 loc2 = Raise e → e = OverflowError.
Proof.
  unfold calculate_distance. intros Hd.
  apply bind_Raise_inv in Hd as [Hd|(dx2 & _ & Hd)].
  - by apply py_float_pow2_Raise in Hd as [-> _].
  - apply bind_Raise_inv in Hd as [Hd|(dy2 & _ & Hd)]; [|done].
    by apply py_float_pow2_Raise in Hd as [-> _].
Qed.

(** A location whose distance is NaN is only chosen when it is the first of
    the list: the choice of a later element needs a comparison that is
    true.  So the element that [remove] meets first is the chosen object
    itself whenever a coordinate is NaN, and the way [==] treats NaN inside
    tuples has no influence on the route. *)
Lemma first_min_nan_first self cur rem it k :
  first_min (calculate_distance self cur) rem it k → is_nan k = true →
  item_pos it = 0.
Proof.
  intros Hm Hnan. destruct (decide (item_pos it = 0)) as [|Hpos]; [done|].
  destruct (first_min_below_first _ _ _ _ Hm) as (y & ky & _ & _ & Hlt); [lia|].
  apply ltb_rank in Hlt as [Hk _]. congruence.
Qed.

(** ** One iteration *)

(** The body goes to the location [min] chose and drops it from the
    remaining ones. *)
Lemma loop_body_Ok self st st' :
  loop_body self st = Ok st' ↔
  ∃ it, py_min (calculate_distance self (current_location st)) (remaining_locations st) = Ok it ∧
    st' = LoopState (delete (item_pos it) (remaining_locations st)) (item_val it)
            (route st ++ [item_val it]).
Proof.
  unfold loop_body. split.
  - intros (it & Hmin & Hrm)%bind_Ok_inv. exists it. split; [done|].
    rewrite (py_min_remove _ _ _ Hmin) in Hrm. by simplify_result.
  - intros (it & Hmin & ->). rewrite Hmin. simpl.
    by rewrite (py_min_remove _ _ _ Hmin).
Qed.

(** The body as a function of the item [min] returns. *)
Lemma loop_body_eq self st :
  loop_body self st =
    (λ it, LoopState (delete (item_pos it) (remaining_locations st)) (item_val it)
             (route st ++ [item_val it])) <$>
    py_min (calculate_distance self (current_location st)) (remaining_locations st).
Proof.
  unfold loop_body. destruct (py_min _ _) as [it|e] eqn:Hmin; [|done]. simpl.
  by rewrite (py_min_remove _ _ _ Hmin).
Qed.

(** With a location left, the body raises only when a distance does. *)
Lemma loop_body_Raise self st e :
  remaining_locations st ≠ [] →
  loop_body self st = Raise e →
  e = OverflowError ∧
  ∃ loc, loc ∈ remaining_locations st ∧
    calculate_distance self (current_location st) loc = Raise OverflowError.
Proof.
  unfold loop_body. intros Hne [Hmin|(it & Hmin & Hrm)]%bind_Raise_inv.
  - apply py_min_Raise in Hmin as [[? _]|(pre & y & post & Hl & _ & Hy)]; [done|].
    pose proof (calculate_distance_Raise _ _ _ _ Hy) as ->. split; [done|].
    exists y. split; [|done]. rewrite Hl. set_solver.
  - rewrite (py_min_remove _ _ _ Hmin) in Hrm. by simplify_result.
Qed.

(** ** The loop *)

(** The loop is its test, then its body followed by the loop again. *)
Lemma while_loop_step self st :
  while_loop self st =
    match loop_iter self st with
    | None => Ok st
    | Some r => r ≫= while_loop self
    end.
Proof.
  funelim (while_loop self st);
    match goal with H : loop_iter _ _ = _ |- _ => by rewrite H end.
Qed.

Lemma while_loop_nil self st :
  remaining_locations st = [] → while_loop self st = Ok st.
Proof. intros Hrem. rewrite while_loop_step. unfold loop_iter. by rewrite Hrem. Qed.

Lemma while_loop_cons self st :
  remaining_locations st ≠ [] →
  while_loop self st = loop_body self st ≫= while_loop self.
Proof.
  intros Hrem. rewrite while_loop_step. unfold loop_iter.
  by destruct (remaining_locations st).
Qed.

(** Induction on the number of remaining locations. *)
Lemma loop_state_ind_remaining (P : loop_state → Prop) :
  (∀ st, (∀ st', length (remaining_locations st') < length (remaining_locations st) → P st') → P st) →
  ∀ st, P st.
Proof.
  intros Hstep.
  apply (well_founded_induction
    (well_founded_ltof _ (λ st, length (remaining_locations st)))), Hstep.
Qed.

(** The loop rule: a property that the body preserves holds when the loop
    exits, and no location remains then. *)
Lemma while_loop_invariant (I : loop_state → Prop) self st st' :
  (∀ s s', I s → remaining_locations s ≠ [] → loop_body self s = Ok s' → I s') →
  I st → while_loop self st = Ok st' →
  I st' ∧ remaining_locations st' = [].
Proof.
  intros Hbody. revert st'. induction st as [st IH] using loop_state_ind_remaining.
  intros st' HI. destruct (decide (remaining_locations st = [])) as [Hrem|Hrem].
  - rewrite while_loop_nil by done. by intros [= <-].
  - rewrite while_loop_cons by done.
    intros (s & Hs & Hloop)%bind_Ok_inv. eapply (IH s); [|by eapply Hbody|done].
    apply loop_body_decreases in Hs. lia.
Qed.

(** The loop computes a nearest-neighbour tour of the remaining locations
    and appends it to the route. *)
Lemma while_loop_greedy self st st' :
  while_loop self st = Ok st' →
  ∃ r, greedy_route (calculate_distance self) (current_location st)
         (remaining_locations st) r ∧
       route st' = route st ++ r ∧
       remaining_locations st' = [] ∧
       last (current_location st :: r) = Some (current_location st').
Proof.
  revert st'. induction st as [st IH] using loop_state_ind_remaining. intros st'.
  destruct (decide (remaining_locations st = [])) as [Hrem|Hrem].
  - rewrite while_loop_nil by done. intros [= <-]. exists [].
    rewrite app_nil_r, Hrem. split_and!; [constructor|done..].
  - rewrite while_loop_cons by done.
    intros (s & Hs & Hloop)%bind_Ok_inv.
    pose proof (loop_body_decreases _ _ _ Hs) as Hlen.
    apply loop_body_Ok in Hs as (it & Hmin & ->).
    apply IH in Hloop as (r & Hr & Hroute & Hnil & Hlast); [|simpl in *; lia].
    apply py_min_spec in Hmin as [k Hmin]. simpl in *.
    exists (item_val it :: r). split_and!; [by econstructor| |done|].
    + by rewrite Hroute, <- app_assoc.
    + by rewrite last_cons, Hlast.
Qed.

(** The loop returns when every distance it may evaluate is defined. *)
Lemma while_loop_total self st :
  distances_defined self (current_location st :: remaining_locations st)
    (remaining_locations st) →
  ∃ st', while_loop self st = Ok st'.
Proof.
  induction st as [st IH] using loop_state_ind_remaining. intros Hdef.
  destruct (decide (remaining_locations st = [])) as [Hrem|Hrem].
  { rewrite while_loop_nil by done. eauto. }
  rewrite while_loop_cons by done.
  destruct (py_min_Ok (calculate_distance self (current_location st))
    (remaining_locations st)) as [it Hmin]; [done| |].
  { apply Forall_forall. intros b Hb. apply Hdef; [left|done]. }
  pose proof (proj2 (loop_body_Ok self st _) (ex_intro _ it (conj Hmin eq_refl))) as Hs.
  rewrite Hs. simpl. apply IH.
  - apply loop_body_decreases in Hs. lia.
  - simpl. apply py_min_spec in Hmin as [k Hm].
    intros a b Ha Hb. apply fm_in in Hm. apply Hdef; [right|]; eauto with py.
Qed.

(** The loop raises only [OverflowError], from a distance between the
    current or a remaining location and a remaining location. *)
Lemma while_loop_Raise self st e :
  while_loop self st = Raise e →
  e = OverflowError ∧
  ∃ a b, a ∈ current_location st :: remaining_locations st ∧
    b ∈ remaining_locations st ∧
    calculate_distance self a b = Raise OverflowError.
Proof.
  induction st as [st IH] using loop_state_ind_remaining.
  destruct (decide (remaining_locations st = [])) as [Hrem|Hrem].
  { by rewrite while_loop_nil. }
  rewrite while_loop_cons by done.
  intros [Hs|(s & Hs & Hloop)]%bind_Raise_inv.
  - apply loop_body_Raise in Hs as (-> & b & Hb & Hd); [|done].
    split; [done|]. exists (current_location st), b.
    split_and!; [left|done..].
  - pose proof (loop_body_decreases _ _ _ Hs) as Hlen.
    apply loop_body_Ok in Hs as (it & [k Hm]%py_min_spec & ->).
    apply IH in Hloop as (-> & a & b & Ha & Hb & Hd); [|simpl in *; lia].
    split; [done|]. exists a, b. simpl in *.
    apply fm_in in Hm. split_and!; [right| |done]; eauto with py.
Qed.

(** ** Properties of nearest-neighbour tours *)

Section greedy_route_lemmas.
Context (d : location → location → result float).
Implicit Types (cur : location) (rem r : list location).

(** A tour visits every location once. *)
Lemma greedy_route_Permutation cur rem r : greedy_route d cur rem r → r ≡ₚ rem.
Proof.
  induction 1 as [|cur rem it k r Hm _ IH]; [done|].
  rewrite IH. symmetry. apply delete_Permutation, Hm.
Qed.

(** At each stop of a tour, no location still to be visited is strictly
    nearer to the previous stop. *)
Lemma greedy_route_nearest cur rem r :
  greedy_route d cur rem r →
  ∀ pre x post cur' y dx dy,
    r = pre ++ x :: post → last (cur :: pre) = Some cur' → y ∈ x :: post →
    d cur' x = Ok dx → d cur' y = Ok dy → py_lt dy dx = false.
Proof.
  induction 1 as [|cur rem it k r Hm Hr IH]; intros pre x post cur' y dx dy Heq Hlast Hy Hdx Hdy.
  { by destruct pre. }
  destruct pre as [|p pre]; simplify_eq/=.
  - assert (k = dx) as -> by (pose proof (fm_key _ _ _ _ Hm); congruence).
    eapply (fm_lower _ _ _ _ Hm); [|done].
    apply greedy_route_Permutation in Hr. rewrite Hr in Hy.
    apply fm_in in Hm. eauto with py.
  - eapply (IH pre); [done| |done..]. rewrite <- Hlast. by destruct pre.
Qed.

(** At each stop, no location listed before the one chosen was as near:
    ties go to the first location in the list. *)
Lemma greedy_route_first cur rem it k r i y dy :
  first_min (d cur) rem it k → rem !! i = Some y → i < item_pos it →
  d cur y = Ok dy → py_le dy k = false.
Proof. intros Hm Hi Hlt Hdy. by eapply (fm_stable _ _ _ _ Hm). Qed.

(** When the distances between the locations are not NaN there is only one
    tour. *)
Lemma greedy_route_unique cur rem r r' :
  (∀ a b k, a ∈ cur :: rem → b ∈ rem → d a b = Ok k → float_ordered k) →
  greedy_route d cur rem r → greedy_route d cur rem r' → r = r'.
Proof.
  intros Hord Hr. revert r'.
  induction Hr as [|cur rem it k r Hm Hr IH]; intros r' Hr'.
  { inversion Hr' as [|? ? it' ? ? Hm']; [done|]. by apply fm_in in Hm'. }
  inversion Hr' as [|? ? it' k' r0 Hm' Hr0]; simplify_eq.
  { by apply fm_in in Hm. }
  destruct (first_min_unique _ float_ordered _ _ _ _ _ Hm Hm') as [<- <-].
  { apply Forall_forall. intros b Hb kb. apply Hord; [left|done]. }
  f_equal. apply IH; [|done].
  intros a b kb Ha Hb. apply fm_in in Hm. apply Hord; [right|]; eauto with py.
Qed.
End greedy_route_lemmas.

(** ** Contracts of the distance, the body and the loop *)

(** [calculate_distance] raises exactly when the square of the first
    coordinate difference overflows, or that square is defined and the
    square of the second difference overflows; the exception is
    [OverflowError]. *)
Lemma calculate_distance_Raise_iff self loc1 loc2 e :
  calculate_distance self loc1 loc2 = Raise e ↔
  e = OverflowError ∧
  (py_float_pow2 (py_float_sub loc1.1 loc2.1) = Raise OverflowError ∨
   is_ok (py_float_pow2 (py_float_sub loc1.1 loc2.1)) = true ∧
   py_float_pow2 (py_float_sub loc1.2 loc2.2) = Raise OverflowError).
Proof.
  split.
  - intros Hd. pose proof (calculate_distance_Raise _ _ _ _ Hd) as ->.
    split; [done|]. unfold calculate_distance in Hd.
    apply bind_Raise_inv in Hd as [Hd|(dx2 & Hdx & Hd)]; [by left|right].
    rewrite Hdx. split; [done|].
    by apply bind_Raise_inv in Hd as [Hd|(dy2 & _ & Hd)].
  - unfold calculate_distance. intros (-> & [->|[(dx2 & ->)%is_ok_true ->]]); done.
Qed.

(** C38: the distance is symmetric, errors included: swapping the operands
    of a subtraction changes at most the sign of the difference, and the
    square does not depend on the sign. *)
Theorem calculate_distance_sym self loc1 loc2 :
  calculate_distance self loc1 loc2 = calculate_distance self loc2 loc1.
Proof.
  unfold calculate_distance.
  by rewrite (py_float_pow2_sub_swap loc1.1), (py_float_pow2_sub_swap loc1.2).
Qed.

(** A distance is never below zero (it is NaN, zero or positive),
    and it is the square root of a number that is not below zero: numpy
    has no negative operand to warn about. *)
Lemma calculate_distance_not_negative self loc1 loc2 d :
  calculate_distance self loc1 loc2 = Ok d →
  py_lt d 0%float = false ∧ ∃ s, d = np_sqrt s ∧ py_lt s 0%float = false.
Proof.
  unfold calculate_distance. intros Hd. simplify_result.
  split; [apply np_sqrt_not_negative|]. eexists. split; [done|].
  apply not_negative_ltb, py_float_add_not_negative;
    by eapply py_float_pow2_not_negative.
Qed.

(** The distance from a location with finite coordinates to itself is
    zero. *)
Lemma calculate_distance_self self loc :
  is_finite loc.1 = true → is_finite loc.2 = true →
  calculate_distance self loc loc = Ok 0%float.
Proof.
  intros H1 H2. unfold calculate_distance, py_float_sub.
  rewrite !float_sub_self by done. vm_compute. reflexivity.
Qed.

(** One execution of the loop body goes to a remaining location such
    that no remaining location is strictly nearer to the current one and no
    location listed before it is as near; that location is appended to the
    route, becomes the current one, and is the one removed. *)
Lemma loop_body_chooses_first_nearest self st st' :
  loop_body self st = Ok st' →
  ∃ i x dx,
    remaining_locations st !! i = Some x ∧
    calculate_distance self (current_location st) x = Ok dx ∧
    (∀ y dy, y ∈ remaining_locations st →
       calculate_distance self (current_location st) y = Ok dy →
       (dy <? dx)%float = false) ∧
    (∀ j y dy, j < i → remaining_locations st !! j = Some y →
       calculate_distance self (current_location st) y = Ok dy →
       (dy <=? dx)%float = false) ∧
    st' = LoopState (delete i (remaining_locations st)) x (route st ++ [x]).
Proof.
  intros (it & [k Hm]%py_min_spec & ->)%loop_body_Ok.
  exists (item_pos it), (item_val it), k. split_and!; [apply Hm|apply Hm| | |done].
  - intros y dy. apply (fm_lower _ _ _ _ Hm).
  - intros j y dy Hj Hy Hdy. by eapply (fm_stable _ _ _ _ Hm).
Qed.

(** ** The block under [try] *)

(** When the block returns, the route is the start location followed by a
    nearest-neighbour tour of the planner's locations. *)
Lemma find_optimal_route_body_greedy self start route :
  find_optimal_route_body self start = Ok route →
  ∃ r, route = start :: r ∧
    greedy_route (calculate_distance self) start (locations self) r.
Proof.
  unfold find_optimal_route_body, py_list_copy.
  intros (st & (r & Hr & Hroute & _)%while_loop_greedy & [= <-])%bind_Ok_inv.
  exists r. by rewrite Hroute.
Qed.

(** The block raises only [OverflowError], from the distance between two of
    the points involved. *)
Lemma find_optimal_route_body_Raise self start e :
  find_optimal_route_body self start = Raise e →
  e = OverflowError ∧
  ∃ a b, a ∈ start :: locations self ∧ b ∈ locations self ∧
    calculate_distance self a b = Raise OverflowError.
Proof.
  unfold find_optimal_route_body, py_list_copy.
  intros [Hloop|(st & _ & [=])]%bind_Raise_inv.
  by apply while_loop_Raise in Hloop.
Qed.

Lemma find_optimal_route_body_total self start :
  distances_defined self (start :: locations self) (locations self) →
  ∃ route, find_optimal_route_body self start = Ok route.
Proof.
  intros Hdef. unfold find_optimal_route_body, py_list_copy.
  destruct (while_loop_total self (LoopState (locations self) start [start]))
    as [st ->]; [done|]. eauto.
Qed.

(** ** The method *)

Lemma find_optimal_route_outcome self start :
  route_outcome self start (find_optimal_route self start).
Proof.
  unfold find_optimal_route, try_except.
  destruct (find_optimal_route_body self start) as [route|e] eqn:Hbody.
  - apply find_optimal_route_body_greedy in Hbody as (r & -> & Hr). by constructor.
  - apply find_optimal_route_body_Raise in Hbody as (-> & a & b & Ha & Hb & Hd).
    by econstructor.
Qed.

(** A route that is not empty comes from the first outcome. *)
Lemma find_optimal_route_found self start route :
  io_val (find_optimal_route self start) = route → route ≠ [] →
  ∃ r, route = start :: r ∧ find_optimal_route self start = IO [] route ∧
    greedy_route (calculate_distance self) start (locations self) r.
Proof.
  destruct (find_optimal_route_outcome self start) as [r Hr|]; simpl; [|congruence].
  intros <- _. eauto.
Qed.

(** C1: a route that is returned is the start location followed by a
    nearest-neighbour tour of the planner's locations, and nothing was
    printed: [find_optimal_route] refines the specification
    [greedy_route]. *)
Theorem find_optimal_route_greedy self start route :
  io_val (find_optimal_route self start) = route → route ≠ [] →
  io_out (find_optimal_route self start) = [] ∧
  ∃ r, route = start :: r ∧
    greedy_route (calculate_distance self) start (locations self) r.
Proof.
  intros Hval Hne.
  destruct (find_optimal_route_found _ _ _ Hval Hne) as (r & -> & -> & Hr). eauto.
Qed.

(** C2: a route that is returned starts at the start location and then
    visits every location of the planner exactly once. *)
Theorem find_optimal_route_permutation self start route :
  io_val (find_optimal_route self start) = route → route ≠ [] →
  ∃ r, route = start :: r ∧ r ≡ₚ locations self.
Proof.
  intros Hval Hne.
  destruct (find_optimal_route_found _ _ _ Hval Hne) as (r & -> & _ & Hr).
  exists r. split; [done|]. by eapply greedy_route_Permutation.
Qed.

(** A route that is returned has one element more than the planner has
    locations. *)
Lemma find_optimal_route_length self start route :
  io_val (find_optimal_route self start) = route → route ≠ [] →
  length route = S (length (locations self)).
Proof.
  intros Hval Hne.
  destruct (find_optimal_route_found _ _ _ Hval Hne) as (r & -> & _ & Hr).
  apply greedy_route_Permutation in Hr. by rewrite <- Hr.
Qed.

(** At every stop of the route, no location that comes later in the
    route is strictly nearer to the previous stop than the one visited. *)
Lemma find_optimal_route_nearest self start pre x post cur y dx dy :
  io_val (find_optimal_route self start) = (start :: pre) ++ x :: post →
  last (start :: pre) = Some cur → y ∈ x :: post →
  calculate_distance self cur x = Ok dx → calculate_distance self cur y = Ok dy →
  (dy <? dx)%float = false.
Proof.
  intros Hval Hlast Hy Hdx Hdy.
  destruct (find_optimal_route_found _ _ _ Hval) as (r & [= <-] & _ & Hr); [done|].
  by eapply (greedy_route_nearest _ _ _ _ Hr pre x post cur y dx dy).
Qed.

(** C7: the method returns a route, and so its loop terminates without an
    exception, when no distance between the start or a location and a
    location overflows. *)
Theorem find_optimal_route_total self start :
  distances_defined self (start :: locations self) (locations self) →
  ∃ r, find_optimal_route self start = IO [] (start :: r).
Proof.
  intros [route Hbody]%find_optimal_route_body_total.
  pose proof (find_optimal_route_body_greedy _ _ _ Hbody) as (r & -> & _).
  exists r. unfold find_optimal_route, try_except. by rewrite Hbody.
Qed.

(** C3: the only exception the block under [try] raises is [OverflowError],
    from the square of a coordinate difference between two of the points
    involved: [min] never sees an empty list and [list.remove] never fails.
    The handler then prints one line that formats the exception and returns
    the empty list. *)
Theorem find_optimal_route_except self start e :
  find_optimal_route_body self start = Raise e →
  e = OverflowError ∧
  find_optimal_route self start = IO [error_line OverflowError] [] ∧
  ∃ a b, a ∈ start :: locations self ∧ b ∈ locations self ∧
    calculate_distance self a b = Raise OverflowError.
Proof.
  intros Hbody. pose proof (find_optimal_route_body_Raise _ _ _ Hbody) as (-> & Hab).
  unfold find_optimal_route, try_except. by rewrite Hbody.
Qed.

(** The empty list is returned exactly when the block under [try]
    raised; a planner without locations returns [[start]], not [[]]. *)
Lemma find_optimal_route_empty_iff self start :
  io_val (find_optimal_route self start) = [] ↔
  ∃ e, find_optimal_route_body self start = Raise e.
Proof.
  unfold find_optimal_route, try_except.
  destruct (find_optimal_route_body self start) as [route|e] eqn:Hbody; simpl.
  - apply find_optimal_route_body_greedy in Hbody as (r & -> & _).
    split; [done|by intros [? ?]].
  - split; eauto.
Qed.

(** With no location to deliver to, the route is the start location
    alone and nothing is printed. *)
Lemma find_optimal_route_no_locations start :
  find_optimal_route (RoutePlanner_init []) start = IO [] [start].
Proof.
  unfold find_optimal_route, try_except, find_optimal_route_body, py_list_copy; simpl.
  by rewrite while_loop_nil.
Qed.

(** When no distance is NaN the route returned is the only
    nearest-neighbour tour: the output is determined by the start location
    and the list of locations. *)
Lemma find_optimal_route_unique self start route r :
  (∀ a b k, a ∈ start :: locations self → b ∈ locations self →
     calculate_distance self a b = Ok k → is_nan k = false) →
  io_val (find_optimal_route self start) = route → route ≠ [] →
  greedy_route (calculate_distance self) start (locations self) r →
  route = start :: r.
Proof.
  intros Hord Hval Hne Hr.
  destruct (find_optimal_route_found _ _ _ Hval Hne) as (r' & -> & _ & Hr').
  f_equal. by eapply greedy_route_unique.
Qed.

(** ** Scenarios *)

(** From San Francisco the planner of the driver visits Los Angeles,
    Houston, Chicago and New York, in this order, and prints nothing. *)
Lemma find_optimal_route_scenario :
  find_optimal_route planner start_location = IO [] (start_location :: planner_tour).
Proof. vm_compute. reflexivity. Qed.

(** Finite coordinates far apart make [** 2] overflow: the method prints
    the error line and returns the empty list. *)
Lemma find_optimal_route_overflow :
  find_optimal_route (RoutePlanner_init [(1e200, 0)%float]) (0, 0)%float =
    IO [error_line OverflowError] [].
Proof. vm_compute. reflexivity. Qed.

(** Coordinates that are infinite or NaN raise nothing: every
    comparison with a NaN distance is false, so the locations are visited in
    the order of the list. *)
Lemma find_optimal_route_nonfinite :
  find_optimal_route (RoutePlanner_init [(nan, 0); (1, 1); (0, 0)]%float)
    (infinity, 0)%float =
    IO [] [(infinity, 0); (nan, 0); (1, 1); (0, 0)]%float.
Proof. vm_compute. reflexivity. Qed.

(** The route the method returns is not always a shortest one: from
    0 with stops at 1, -2 and 4 on a line, it goes to 1, -2, 4 and travels
    10, while the order -2, 1, 4 travels 8. *)
Lemma find_optimal_route_not_shortest :
  let route := [(0, 0); (1, 0); (-2, 0); (4, 0)]%float in
  let other := [(0, 0); (-2, 0); (1, 0); (4, 0)]%float in
  find_optimal_route line_planner (0, 0)%float = IO [] route ∧
  other ≡ₚ route ∧ head other = head route ∧
  route_length line_planner route = Ok 10%float ∧
  route_length line_planner other = Ok 8%float.
Proof.
  split_and!; try (vm_compute; reflexivity).
  apply perm_skip, perm_swap.
Qed.

(** ** The theorems at the planner of the driver *)

Lemma planner_scenario :
  io_val (find_optimal_route planner start_location) = start_location :: planner_tour.
Proof. vm_compute. reflexivity. Qed.

Lemma planner_distances_defined :
  distances_defined planner (start_location :: locations planner) (locations planner).
Proof.
  intros a b Ha Hb.
  repeat (apply elem_of_cons in Ha as [->|Ha]; [|]);
    repeat (apply elem_of_cons in Hb as [->|Hb]; [|]);
    solve [vm_compute; reflexivity | by apply elem_of_nil in Ha | by apply elem_of_nil in Hb].
Qed.

Lemma find_optimal_route_greedy_witness :
  io_out (find_optimal_route planner start_location) = [] ∧
  ∃ r, start_location :: planner_tour = start_location :: r ∧
    greedy_route (calculate_distance planner) start_location (locations planner) r.
Proof. by apply find_optimal_route_greedy; [apply planner_scenario|]. Defined.

Lemma find_optimal_route_permutation_witness :
  ∃ r, start_location :: planner_tour = start_location :: r ∧ r ≡ₚ locations planner.
Proof. by apply find_optimal_route_permutation; [apply planner_scenario|]. Defined.

Lemma find_optimal_route_total_witness :
  ∃ r, find_optimal_route planner start_location = IO [] (start_location :: r).
Proof. apply find_optimal_route_total, planner_distances_defined. Defined.

Lemma find_optimal_route_except_witness :
  OverflowError = OverflowError ∧
  find_optimal_route (RoutePlanner_init [(1e200, 0)%float]) (0, 0)%float
    = IO [error_line OverflowError] [] ∧
  ∃ a b, a ∈ [(0, 0); (1e200, 0)]%float ∧ b ∈ [(1e200, 0)%float] ∧
    calculate_distance (RoutePlanner_init [(1e200, 0)%float]) a b = Raise OverflowError.
Proof.
  apply (find_optimal_route_except (RoutePlanner_init [(1e200, 0)%float]) (0, 0)%float).
  vm_compute. reflexivity.
Defined.

Lemma planner_distances_ordered a b k :
  a ∈ start_location :: locations planner → b ∈ locations planner →
  calculate_distance planner a b = Ok k → is_nan k = false.
Proof.
  intros Ha Hb.
  repeat (apply elem_of_cons in Ha as [->|Ha]; [|]);
    repeat (apply elem_of_cons in Hb as [->|Hb]; [|]);
    try (by apply elem_of_nil in Ha); try (by apply elem_of_nil in Hb);
    vm_compute; by intros [= <-].
Qed.

Lemma planner_tour_greedy :
  greedy_route (calculate_distance planner) start_location (locations planner) planner_tour.
Proof.
  destruct (find_optimal_route_found planner start_location _ planner_scenario)
    as (r & [= <-] & _ & Hr); done.
Qed.

Lemma planner_first_step :
  loop_body planner (LoopState (locations planner) start_location [start_location])
  = Ok (LoopState (delete 1 (locations planner)) (34.0522, -118.2437)%float
          ([start_location] ++ [(34.0522, -118.2437)%float])).
Proof. vm_compute. reflexivity. Qed.

