(* ===== verification/RouteBounds.v ===== *)
(** * The planner on coordinates of bounded magnitude

    [find_optimal_route] ([src/main.py], lines 19-35) enters its [except]
    clause only when a square in [calculate_distance] (lines 14-17)
    overflows.  With the bounds of [FloatBounds] this file shows that no
    square overflows when every coordinate is below [2 ^ 508] in
    magnitude: each distance is returned, is finite and not negative, and
    the method returns the one greedy tour of the locations.
    [calculate_distance_threshold] says on which coordinates a square
    does overflow: those that differ by [2 ^ 512] or more.

    Latitudes and longitudes are such coordinates: a program that checks
    [abs(lat) <= 90] and [abs(lon) <= 180] before it calls the planner
    rules the exception out. *)

From Stdlib Require Import Floats ZArith Lia.
From Equations Require Import Equations.
From stdpp Require Import prelude.
From S2P Require Import Prelude PyBuiltins PyFloat FloatBounds PyIO RoutePlanner.

#[local] Open Scope Z_scope.

(** ** Specification *)

(** Both coordinates of the location are below [2 ^ k] in magnitude. *)
Definition coordinates_below (k : Z) (loc : location) : Prop :=
  float_below k loc.1 ∧ float_below k loc.2.

#[export] Instance coordinates_below_dec k loc : Decision (coordinates_below k loc).
Proof. unfold coordinates_below. apply _. Defined.

(** A latitude within 90 degrees and a longitude within 180, as the
    comparisons of the program decide them. *)
Definition geographic (loc : location) : Prop :=
  (abs loc.1 <=? 90)%float = true ∧ (abs loc.2 <=? 180)%float = true.

#[export] Instance geographic_dec loc : Decision (geographic loc).
Proof. unfold geographic. apply _. Defined.

(** ** Distances *)

Section bounded.
Context (self : RoutePlanner) (k : Z) (Hk : 0 ≤ k ≤ 508).

(** The square of a coordinate difference is returned. *)
Lemma square_difference_below x y :
  float_below k x → float_below k y →
  ∃ r, py_float_pow2 (py_float_sub x y) = Ok r ∧ float_below (2 * k + 5) r.
Proof using Hk.
  intros Hx Hy.
  destruct (py_float_pow2_below (k + 2) (py_float_sub x y)) as (r & Hr & Hbelow);
    [apply py_float_sub_below; (done || lia)|lia|].
  exists r. split; [done|]. eapply float_below_mono; [done|lia].
Qed.

(** The distance between two locations is returned and is below
    [2 ^ (k + 5)]. *)
Lemma calculate_distance_below loc1 loc2 :
  coordinates_below k loc1 → coordinates_below k loc2 →
  ∃ d, calculate_distance self loc1 loc2 = Ok d ∧ float_below (k + 5) d.
Proof using Hk.
  intros [Hx1 Hy1] [Hx2 Hy2]. unfold calculate_distance.
  destruct (square_difference_below _ _ Hx1 Hx2) as (dx2 & Hdx2 & Hbx).
  destruct (square_difference_below _ _ Hy1 Hy2) as (dy2 & Hdy2 & Hby).
  rewrite Hdx2, Hdy2. simpl. eexists. split; [done|].
  pose proof (py_float_add_below _ _ _ Hbx Hby ltac:(lia) ltac:(lia)) as Hsum.
  pose proof (Z_half_bounds (2 * k + 5 + 2 + 1)).
  eapply float_below_mono; [apply (np_sqrt_below _ _ Hsum); [|lia]|lia].
  apply py_float_add_not_negative; by eapply py_float_pow2_not_negative.
Qed.

Lemma distances_defined_below from to :
  Forall (coordinates_below k) from → Forall (coordinates_below k) to →
  distances_defined self from to.
Proof using Hk.
  rewrite !Forall_forall. intros Hfrom Hto a b Ha Hb.
  by destruct (calculate_distance_below a b (Hfrom a Ha) (Hto b Hb)) as (d & -> & _).
Qed.

(** C25: the distance between two locations whose coordinates are all
    below [2 ^ k] in magnitude, for a [k] up to 508, is returned without
    [OverflowError]; it is finite and below [2 ^ (k + 5)], it is not NaN,
    and it is not negative. *)
Theorem calculate_distance_bounded loc1 loc2 :
  coordinates_below k loc1 → coordinates_below k loc2 →
  ∃ d, calculate_distance self loc1 loc2 = Ok d ∧
    float_below (k + 5) d ∧ float_ordered d ∧ is_infinity d = false ∧
    py_lt d 0%float = false.
Proof using Hk.
  intros H1 H2. destruct (calculate_distance_below loc1 loc2 H1 H2) as (d & Hd & Hbelow).
  exists d. destruct (float_below_finite _ _ Hbelow) as [Hnan Hinf].
  split_and!; [done..|]. unfold calculate_distance in Hd. simplify_result.
  apply np_sqrt_not_negative.
Qed.

(** C5: on a start and locations whose coordinates are all below [2 ^ k]
    in magnitude, for a [k] up to 508, the method prints nothing and
    returns the start followed by a permutation of the locations, which is
    the only greedy tour: the [except] clause is not entered, and no NaN
    distance makes the choice of [min] depend on the order. *)
Theorem find_optimal_route_bounded start :
  coordinates_below k start → Forall (coordinates_below k) (locations self) →
  ∃ r, find_optimal_route self start = IO [] (start :: r) ∧ r ≡ₚ locations self ∧
    ∀ r', greedy_route (calculate_distance self) start (locations self) r' ↔ r' = r.
Proof using Hk.
  intros Hstart Hlocs.
  destruct (find_optimal_route_body_total self start) as [route Hbody];
    [by apply distances_defined_below; [constructor|]|].
  pose proof (find_optimal_route_body_greedy _ _ _ Hbody) as (r & -> & Hr).
  exists r. split_and!.
  - unfold find_optimal_route, try_except. by rewrite Hbody.
  - by eapply greedy_route_Permutation.
  - intros r'. split; [|by intros ->]. intros Hr'.
    eapply greedy_route_unique; [|done..]. intros a b d Ha Hb Hd.
    assert (Forall (coordinates_below k) (start :: locations self)) as Hall
      by by constructor.
    rewrite Forall_forall in Hall, Hlocs.
    destruct (calculate_distance_below a b (Hall a Ha) (Hlocs b Hb)) as (d' & Hd' & Hbelow).
    rewrite Hd in Hd'. injection Hd' as <-. by destruct (float_below_finite _ _ Hbelow).
Qed.
End bounded.

(** ** When the distance overflows *)

(** [calculate_distance] raises exactly when the difference of the
    first coordinates, or the difference of the second coordinates, is a
    finite float of absolute value [2 ^ 512] or more, and what it raises is
    [OverflowError]. *)
Lemma calculate_distance_overflow_iff self loc1 loc2 e :
  calculate_distance self loc1 loc2 = Raise e ↔
  e = OverflowError ∧
  square_overflows (loc1.1 - loc2.1) || square_overflows (loc1.2 - loc2.2) = true.
Proof.
  rewrite calculate_distance_Raise_iff, orb_true_iff, !square_overflows_Raise.
  unfold py_float_sub.
  destruct (py_float_pow2 (loc1.1 - loc2.1)) as [dx2|e1] eqn:Hdx; simpl.
  - split; (intros (-> & [[=]|H]); split; [done|right]); [apply H|done].
  - apply py_float_pow2_Raise in Hdx as [-> _]. by split; (intros [-> _]; split; [|left]).
Qed.

(** C15: the distance in terms of the coordinates.  When the difference of
    the first coordinates or of the second coordinates is a finite float
    of absolute value [2 ^ 512] or more, [calculate_distance] raises
    [OverflowError]; on all other coordinates, NaN and the infinities
    included, it returns the square root of the sum of the squared
    differences, each operation being the one of IEEE 754. *)
Theorem calculate_distance_threshold self loc1 loc2 :
  calculate_distance self loc1 loc2 =
    if square_overflows (loc1.1 - loc2.1) || square_overflows (loc1.2 - loc2.2)
    then Raise OverflowError
    else Ok (sqrt ((loc1.1 - loc2.1) * (loc1.1 - loc2.1) +
                   (loc1.2 - loc2.2) * (loc1.2 - loc2.2)))%float.
Proof.
  unfold calculate_distance, py_float_sub, py_float_add, np_sqrt.
  rewrite !py_float_pow2_square.
  by destruct (square_overflows (loc1.1 - loc2.1)),
    (square_overflows (loc1.2 - loc2.2)).
Qed.

(** The bound cannot be raised to 512: two coordinates of magnitude
    [2 ^ 511] can differ by [2 ^ 512], whose square is not a float. *)
Lemma calculate_distance_overflow_512 self :
  coordinates_below 512 (0x1p511, 0)%float ∧
  coordinates_below 512 (-0x1p511, 0)%float ∧
  calculate_distance self (0x1p511, 0)%float (-0x1p511, 0)%float = Raise OverflowError.
Proof. split_and!; [by apply (bool_decide_unpack _)..|by vm_compute]. Qed.

(** ** Latitudes and longitudes *)

Lemma geographic_below loc : geographic loc → coordinates_below 8 loc.
Proof.
  intros [Hlat Hlon].
  split; (eapply float_below_leb; [done|]); by apply (bool_decide_unpack _).
Qed.

(** Between latitudes and longitudes every distance is defined. *)
Lemma distances_defined_geographic self start :
  geographic start → Forall geographic (locations self) →
  distances_defined self (start :: locations self) (locations self).
Proof.
  intros Hstart%geographic_below Hlocs.
  apply (distances_defined_below self 8); [lia|constructor; [done|]|];
    by eapply Forall_impl; [|apply geographic_below].
Qed.

(** On latitudes and longitudes the method returns a route. *)
Lemma find_optimal_route_geographic self start :
  geographic start → Forall geographic (locations self) →
  ∃ r, find_optimal_route self start = IO [] (start :: r) ∧ r ≡ₚ locations self.
Proof.
  intros Hstart Hlocs.
  destruct (find_optimal_route_body_total self start) as [route Hbody];
    [by apply distances_defined_geographic|].
  pose proof (find_optimal_route_body_greedy _ _ _ Hbody) as (r & -> & Hr).
  exists r. split; [|by eapply greedy_route_Permutation].
  unfold find_optimal_route, try_except. by rewrite Hbody.
Qed.

(** The locations of the driver are latitudes and longitudes. *)
Lemma planner_geographic :
  geographic start_location ∧ Forall geographic (locations planner).
Proof. split; by apply (bool_decide_unpack _). Qed.

(** ** Witnesses *)

Lemma calculate_distance_bounded_witness :
  ∃ d, calculate_distance planner (0, 0)%float (3, 4)%float = Ok d ∧
    float_below (8 + 5) d ∧ float_ordered d ∧ is_infinity d = false ∧
    py_lt d 0%float = false.
Proof.
  apply (calculate_distance_bounded planner 8); [lia|..];
    by apply (bool_decide_unpack _).
Defined.

Lemma find_optimal_route_bounded_witness :
  ∃ r, find_optimal_route planner start_location = IO [] (start_location :: r) ∧
    r ≡ₚ locations planner ∧
    ∀ r', greedy_route (calculate_distance planner) start_location (locations planner) r'
          ↔ r' = r.
Proof.
  apply (find_optimal_route_bounded planner 8); [lia|..];
    by apply (bool_decide_unpack _).
Defined.
