(* ===== verification/RouteSteps.v ===== *)
(** * The planner's loop as a transition system

    The [while] loop of [find_optimal_route] ([src/main.py], lines 26-30)
    seen one iteration at a time.  A state is the triple of local variables
    ([loop_state]); [loop_step] is an iteration that completes, [loop_raises]
    one that raises, and the loop is over in a state with no location left
    ([loop_exit]).

    The recursive function [while_loop] computes exactly the runs of this
    system: it returns the state in which a run ends, and raises what the
    last iteration of a run raises.  Runs have as many steps as there were
    locations, so there is no infinite run.  The invariant of the loop is
    proved by induction on runs.

    [eventually self P st] says that every run from [st] reaches a state
    that satisfies [P]: the liveness of the loop is stated with it.
    [loop_cost] counts the distances a run evaluates. *)

From Stdlib Require Import Floats String.
From Equations Require Import Equations.
From stdpp Require Import prelude.
From S2P Require Import Prelude PyBuiltins PyFloat PyIO RoutePlanner.

(** ** Steps *)

(** An iteration of the loop that completes. *)
Definition loop_step (self : RoutePlanner) : relation loop_state :=
  λ st st', loop_iter self st = Some (Ok st').

(** An iteration that raises. *)
Definition loop_raises (self : RoutePlanner) (st : loop_state) (e : exn) : Prop :=
  loop_iter self st = Some (Raise e).

(** The test of the loop is false. *)
Definition loop_exit (st : loop_state) : Prop := remaining_locations st = [].

(** The state in which [find_optimal_route] enters the loop. *)
Definition initial_state (self : RoutePlanner) (start_location : location) : loop_state :=
  LoopState (py_list_copy (locations self)) start_location [start_location].

(** The invariant of the loop: the stops made and the locations left are
    together the start and the planner's locations, the locations left are
    in the order of the planner's list, the route begins at the start and
    ends at the current location. *)
Record route_inv (start_location : location) (locs : list location) (st : loop_state)
    : Prop := {
  inv_stops : route st ++ remaining_locations st ≡ₚ start_location :: locs;
  inv_order : remaining_locations st `sublist_of` locs;
  inv_head : head (route st) = Some start_location;
  inv_last : last (route st) = Some (current_location st);
}.

(** [eventually self P st]: every run of the loop from [st] reaches a
    state in which [P] holds.  Either [P] holds in [st], or an iteration
    completes from [st] and [P] is eventually reached from every state it
    leads to. *)
Inductive eventually (self : RoutePlanner) (P : loop_state → Prop)
    : loop_state → Prop :=
  | eventually_now st : P st → eventually self P st
  | eventually_later st :
      red (loop_step self) st →
      (∀ st', loop_step self st st' → eventually self P st') →
      eventually self P st.

(** The distances an iteration evaluates: the calls [min] makes of its key,
    the distance from the current location. *)
Definition step_cost (self : RoutePlanner) (st : loop_state) : nat :=
  key_calls (calculate_distance self (current_location st)) (remaining_locations st).

(** [loop_cost self st c st']: the iterations of a run from [st] to [st']
    evaluate [c] distances. *)
Inductive loop_cost (self : RoutePlanner) : loop_state → nat → loop_state → Prop :=
  | cost_done st : loop_cost self st 0 st
  | cost_step st st' st'' c :
      loop_step self st st' →
      loop_cost self st' c st'' →
      loop_cost self st (step_cost self st + c) st''.

(** ** Properties of a step *)

Section steps.
Context (self : RoutePlanner).
Implicit Types (st : loop_state) (e : exn).

Lemma loop_exit_iter st : loop_exit st ↔ loop_iter self st = None.
Proof. unfold loop_exit, loop_iter. by destruct (remaining_locations st). Qed.

Lemma loop_step_body st st' :
  loop_step self st st' ↔ remaining_locations st ≠ [] ∧ loop_body self st = Ok st'.
Proof.
  unfold loop_step, loop_iter. destruct (remaining_locations st).
  - split; [done|by intros [? _]].
  - split; [by intros [= ->]|by intros [_ ->]].
Qed.

Lemma loop_step_deterministic st st1 st2 :
  loop_step self st st1 → loop_step self st st2 → st1 = st2.
Proof. unfold loop_step. congruence. Qed.

Lemma loop_step_decreases st st' :
  loop_step self st st' →
  length (remaining_locations st) = S (length (remaining_locations st')).
Proof.
  intros [_ (it & [k Hm]%py_min_spec & ->)%loop_body_Ok]%loop_step_body. simpl.
  pose proof (fm_in _ _ _ _ Hm) as Hin%lookup_lt_Some.
  rewrite length_delete by (by apply lookup_lt_is_Some_2). lia.
Qed.

Lemma loop_exit_nf st : loop_exit st → nf (loop_step self) st.
Proof. intros Hexit%loop_exit_iter [st' Hstep]. unfold loop_step in Hstep. congruence. Qed.

Lemma loop_step_inv start_location locs st st' :
  route_inv start_location locs st → loop_step self st st' →
  route_inv start_location locs st'.
Proof.
  intros [Hstops Horder Hhead Hlast]
    [_ (it & [k Hm]%py_min_spec & ->)%loop_body_Ok]%loop_step_body.
  split; simpl.
  - rewrite <- Hstops, <- app_assoc. f_equiv. simpl. symmetry.
    apply delete_Permutation, Hm.
  - etrans; [apply sublist_delete|done].
  - by destruct (route st).
  - by rewrite last_snoc.
Qed.

Lemma initial_state_inv start_location :
  route_inv start_location (locations self) (initial_state self start_location).
Proof. by split. Qed.

(** A location that is left is, after an iteration, the stop just made or
    still left. *)
Lemma loop_step_visits st st' loc :
  loop_step self st st' → loc ∈ remaining_locations st →
  loc ∈ route st' ∨ loc ∈ remaining_locations st'.
Proof.
  intros [_ (it & [k Hm]%py_min_spec & ->)%loop_body_Ok]%loop_step_body
    [Hloc|Hloc]%(elem_of_delete_or _ (item_pos it)); simpl; [left|by right].
  pose proof (fm_in _ _ _ _ Hm) as Hin. unfold item_in in Hin.
  rewrite Hloc in Hin. injection Hin as ->. apply elem_of_app. right. by left.
Qed.

(** An iteration that completes has evaluated the distance from the
    current location to every location that was left, once each. *)
Lemma loop_step_cost st st' :
  loop_step self st st' → step_cost self st = length (remaining_locations st).
Proof.
  intros [_ (it & [k Hm]%py_min_spec & _)%loop_body_Ok]%loop_step_body.
  apply key_calls_length, (fm_keys _ _ _ _ Hm).
Qed.

(** A stop made stays in the route. *)
Lemma loop_step_route st st' loc :
  loop_step self st st' → loc ∈ route st → loc ∈ route st'.
Proof.
  intros [_ (it & _ & ->)%loop_body_Ok]%loop_step_body Hloc. simpl.
  apply elem_of_app. by left.
Qed.

(** ** Runs *)

Lemma eventually_mono (P Q : loop_state → Prop) st :
  (∀ s, P s → Q s) → eventually self P st → eventually self Q st.
Proof. intros HPQ. induction 1; [apply eventually_now|apply eventually_later]; auto. Qed.

(** What is eventually reached is reached by a run. *)
Lemma eventually_run (P : loop_state → Prop) st :
  eventually self P st → ∃ st', rtc (loop_step self) st st' ∧ P st'.
Proof.
  induction 1 as [st HP|st [s Hstep] _ IH]; [by exists st|].
  destruct (IH s Hstep) as (st' & Hrun & HP). exists st'.
  split; [by eapply rtc_l|done].
Qed.

Lemma while_loop_run st st' :
  rtc (loop_step self) st st' → while_loop self st = while_loop self st'.
Proof.
  induction 1 as [|st s st' Hstep _ IH]; [done|].
  rewrite while_loop_step. unfold loop_step in Hstep. by rewrite Hstep.
Qed.

(** Every run ends: the loop exits or an iteration raises. *)
Lemma loop_eventually_ends st :
  eventually self (λ st1, loop_exit st1 ∨ ∃ e, loop_raises self st1 e) st.
Proof.
  induction st as [st IH] using loop_state_ind_remaining.
  destruct (loop_iter self st) as [[s|e]|] eqn:Hiter.
  - apply eventually_later; [by exists s|]. intros st' Hstep.
    apply IH. pose proof (loop_step_decreases st st' Hstep). lia.
  - apply eventually_now. right. by exists e.
  - apply eventually_now. left. by apply loop_exit_iter.
Qed.

(** From every state there is a run to a state where the loop exits or an
    iteration raises. *)
Lemma loop_run_ends st :
  ∃ st1, rtc (loop_step self) st st1 ∧
    (loop_exit st1 ∨ ∃ e, loop_raises self st1 e).
Proof. apply eventually_run, loop_eventually_ends. Qed.

(** Every run has a cost, and a run that empties a list of [n] locations
    costs [n (n + 1) / 2] evaluations. *)
Lemma loop_cost_run st st' :
  rtc (loop_step self) st st' → ∃ c, loop_cost self st c st'.
Proof.
  induction 1 as [st|st s st' Hstep _ [c IH]]; [exists 0; constructor|].
  eexists. by eapply cost_step.
Qed.

Lemma loop_cost_exit st c st' :
  loop_cost self st c st' → loop_exit st' →
  2 * c = length (remaining_locations st) * (length (remaining_locations st) + 1).
Proof.
  induction 1 as [st|st s st' c Hstep _ IH]; intros Hexit.
  - unfold loop_exit in Hexit. by rewrite Hexit.
  - specialize (IH Hexit). rewrite (loop_step_cost _ _ Hstep).
    apply loop_step_decreases in Hstep. rewrite Hstep. lia.
Qed.

(** The loop has one run from each state: what a run reaches is reached
    eventually. *)
Lemma run_eventually (P : loop_state → Prop) st st' :
  rtc (loop_step self) st st' → P st' → eventually self P st.
Proof.
  induction 1 as [|st s st' Hstep _ IH]; intros HP; [by apply eventually_now|].
  apply eventually_later; [by exists s|].
  intros s' Hs'. rewrite (loop_step_deterministic _ _ _ Hs' Hstep). auto.
Qed.

(** There is no infinite run. *)
Lemma loop_step_sn st : sn (loop_step self) st.
Proof.
  induction st as [st IH] using loop_state_ind_remaining.
  constructor. intros s Hstep%loop_step_decreases. apply IH. lia.
Qed.

(** [while_loop] returns the state in which the run from its argument
    exits. *)
Lemma while_loop_Ok_run st st' :
  while_loop self st = Ok st' ↔ rtc (loop_step self) st st' ∧ loop_exit st'.
Proof.
  split.
  - intros Hloop. destruct (loop_run_ends st) as (st1 & Hrun & Hend).
    rewrite (while_loop_run _ _ Hrun), while_loop_step in Hloop.
    destruct Hend as [Hexit%loop_exit_iter|[e Hraise]].
    + rewrite Hexit in Hloop. injection Hloop as <-.
      split; [done|by apply loop_exit_iter].
    + unfold loop_raises in Hraise. by rewrite Hraise in Hloop.
  - intros [Hrun Hexit]. rewrite (while_loop_run _ _ Hrun).
    by apply while_loop_nil.
Qed.
End steps.

(** ** The function and the transition system *)

Section runs.
Context (self : RoutePlanner).
Implicit Types (st : loop_state) (e : exn).

(** [while_loop] raises an exception exactly when a run of the loop
    leads to a state whose iteration raises it. *)
Lemma while_loop_Raise_iff_run st e :
  while_loop self st = Raise e ↔
  ∃ st1, rtc (loop_step self) st st1 ∧ loop_raises self st1 e.
Proof.
  split.
  - intros Hloop. destruct (loop_run_ends self st) as (st1 & Hrun & Hend).
    rewrite (while_loop_run self _ _ Hrun), while_loop_step in Hloop.
    destruct Hend as [Hexit%(loop_exit_iter self)|[e' Hraise]].
    + by rewrite Hexit in Hloop.
    + exists st1. split; [done|]. unfold loop_raises in *.
      rewrite Hraise in Hloop. by injection Hloop as <-.
  - intros (st1 & Hrun & Hraise). unfold loop_raises in Hraise.
    by rewrite (while_loop_run self _ _ Hrun), while_loop_step, Hraise.
Qed.

(** A run of [n] iterations removes [n] locations: no run is longer
    than the number of remaining locations, so the loop terminates. *)
Lemma loop_nsteps_remaining n st st' :
  nsteps (loop_step self) n st st' →
  length (remaining_locations st) = n + length (remaining_locations st').
Proof.
  induction 1 as [|n st s st' Hstep%loop_step_decreases _ IH]; [done|]. lia.
Qed.

(** The invariant holds along runs. *)
Lemma route_inv_run start_location locs st st' :
  route_inv start_location locs st → rtc (loop_step self) st st' →
  route_inv start_location locs st'.
Proof. intros Hinv. induction 1; eauto using loop_step_inv. Qed.

(** C21: in every state a run from the state in which the method enters
    the loop can reach, the stops made and the locations left are the start
    and the planner's locations, and the route goes from the start to the
    current location. *)
Theorem loop_reachable_inv start_location st :
  rtc (loop_step self) (initial_state self start_location) st →
  route_inv start_location (locations self) st.
Proof. apply route_inv_run, initial_state_inv. Qed.

(** A location that is left becomes a stop of the route unless an
    iteration raises first: every run of the loop from a state in which
    [loc] remains reaches a state whose route holds [loc] or whose
    iteration raises. *)
Lemma loop_eventually_visits st loc :
  loc ∈ remaining_locations st →
  eventually self (λ st', loc ∈ route st' ∨ ∃ e, loop_raises self st' e) st.
Proof.
  induction st as [st IH] using loop_state_ind_remaining. intros Hloc.
  destruct (loop_iter self st) as [[s|e]|] eqn:Hiter.
  - apply eventually_later; [by exists s|]. intros st' Hstep.
    destruct (loop_step_visits self _ _ _ Hstep Hloc) as [Hr|Hrem].
    + apply eventually_now. by left.
    + apply IH; [|done]. pose proof (loop_step_decreases self _ _ Hstep). lia.
  - apply eventually_now. right. by exists e.
  - apply loop_exit_iter in Hiter. unfold loop_exit in Hiter.
    rewrite Hiter in Hloc. by apply elem_of_nil in Hloc.
Qed.

(** C14: when no square overflows, every delivery point is served: each run
    of the loop from the state in which the method enters it reaches a
    state in which the loop exits and the route holds every location of the
    planner. *)
Theorem find_optimal_route_eventually_delivers start_location :
  distances_defined self (start_location :: locations self) (locations self) →
  eventually self
    (λ st, loop_exit st ∧ ∀ loc, loc ∈ locations self → loc ∈ route st)
    (initial_state self start_location).
Proof.
  intros [st [Hrun Hexit]%while_loop_Ok_run]%(while_loop_total self (initial_state _ _)).
  apply (run_eventually self _ _ st Hrun). split; [done|]. intros loc Hloc.
  destruct (route_inv_run _ _ _ _ (initial_state_inv self start_location) Hrun)
    as [Hstops _ _ _].
  rewrite Hexit, app_nil_r in Hstops. rewrite Hstops. by right.
Qed.
End runs.

(** [initial_state] is the state in which [find_optimal_route_body] enters
    its loop: the two are the same term. *)
Lemma find_optimal_route_body_initial self start_location :
  find_optimal_route_body self start_location =
    (st ← while_loop self (initial_state self start_location); mret (route st)).
Proof. done. Qed.

(** The block under [try] returns a route exactly when a run of the
    loop leads from the state in which the method enters it to a state with
    no location left, whose route is the one returned. *)
Lemma find_optimal_route_body_run self start_location route :
  find_optimal_route_body self start_location = Ok route ↔
  ∃ st, rtc (loop_step self) (initial_state self start_location) st ∧
    loop_exit st ∧ route = RoutePlanner.route st.
Proof.
  unfold find_optimal_route_body. rewrite bind_Ok_inv. split.
  - intros (st & [Hrun Hexit]%while_loop_Ok_run & [= <-]). eauto.
  - intros (st & Hrun & Hexit & ->). exists st. split; [|done].
    by apply while_loop_Ok_run.
Qed.

(** C35: a call that returns a route over [n] locations evaluates exactly
    [n (n + 1) / 2] distances: the run of its loop costs that much. *)
Theorem find_optimal_route_evaluations self start_location route :
  find_optimal_route_body self start_location = Ok route →
  ∃ st c, loop_cost self (initial_state self start_location) c st ∧
    loop_exit st ∧ route = RoutePlanner.route st ∧
    2 * c = length (locations self) * (length (locations self) + 1).
Proof.
  unfold find_optimal_route_body. rewrite bind_Ok_inv.
  intros (st & [Hrun Hexit]%while_loop_Ok_run & [= <-]).
  destruct (loop_cost_run self _ _ Hrun) as [c Hcost].
  exists st, c. split_and!; [done..|].
  apply (loop_cost_exit self _ _ _ Hcost Hexit).
Qed.

(** ** Witnesses *)

Lemma loop_reachable_inv_witness :
  route_inv (0, 0)%float (locations (RoutePlanner_init [(1, 1)%float]))
    (LoopState [] (1, 1)%float [(0, 0)%float; (1, 1)%float]).
Proof.
  apply loop_reachable_inv. apply rtc_once. vm_compute. reflexivity.
Defined.

Lemma find_optimal_route_eventually_delivers_witness :
  eventually planner
    (λ st, loop_exit st ∧ ∀ loc, loc ∈ locations planner → loc ∈ route st)
    (initial_state planner start_location).
Proof. apply find_optimal_route_eventually_delivers, planner_distances_defined. Defined.

Lemma find_optimal_route_evaluations_witness :
  ∃ st c, loop_cost planner (initial_state planner start_location) c st ∧
    loop_exit st ∧ start_location :: planner_tour = RoutePlanner.route st ∧
    2 * c = length (locations planner) * (length (locations planner) + 1).
Proof. apply find_optimal_route_evaluations. vm_compute. reflexivity. Defined.
