(* ===== verification/RouteHeap.v ===== *)
(** * The planner on the heap

    [find_optimal_route] ([src/main.py], lines 19-35) with its lists as
    objects: [self.locations] is a reference held by the planner, the slice
    [self.locations[:]] allocates the list of remaining locations, [route]
    is a second new list, and [append] and [remove] change these objects in
    place.  The loop is given fuel, since a loop on a heap does not
    terminate when its two lists are the same object.

    The method is shown to compute what the functional model
    [RoutePlanner.find_optimal_route] computes, in a new list object, with
    enough fuel for one iteration per location, and to leave every list
    that existed before the call as it was: the planner can be used
    again. *)

From Stdlib Require Import Floats String.
From Equations Require Import Equations.
From stdpp Require Import prelude gmap.
From S2P Require Import Prelude PyBuiltins PyFloat PyIO PyHeap RoutePlanner.

(** ** The method *)

(** A planner object: its attribute [locations] names a list. *)
Record RoutePlannerObj := {
  locations_ref : ref;
}.

(** [RoutePlanner(locations)]: the attribute names the list it is given,
    not a copy of it. *)
Definition RoutePlannerObj_init (locations : ref) : RoutePlannerObj :=
  {| locations_ref := locations |}.

(** The local variables of [find_optimal_route]: two lists and a tuple. *)
Record frame := Frame {
  remaining_ref : ref;
  current : location;
  route_ref : ref;
}.

(** [self], as [calculate_distance] receives it. *)
Definition self_view (obj : RoutePlannerObj) : stm (world location) RoutePlanner :=
  locs ← list_load (locations_ref obj); mret (RoutePlanner_init locs).

Definition loop_body_h (obj : RoutePlannerObj) (f : frame) : stm (world location) frame :=
  self ← self_view obj;
  next_location ← py_min_ref (calculate_distance self (current f)) (remaining_ref f);
  _ ← py_append_ref (route_ref f) (item_val next_location);
  let current' := item_val next_location in
  _ ← py_remove_ref (remaining_ref f) next_location;
  mret (Frame (remaining_ref f) current' (route_ref f)).

Fixpoint while_loop_h (obj : RoutePlannerObj) (fuel : nat) (f : frame)
    : stm (world location) frame :=
  truth ← py_truth_ref (remaining_ref f);
  if truth : bool then
    match fuel with
    | 0 => stm_diverge
    | S fuel' => f' ← loop_body_h obj f; while_loop_h obj fuel' f'
    end
  else mret f.

Definition find_optimal_route_h (obj : RoutePlannerObj) (start_location : location)
    (fuel : nat) : stm (world location) ref :=
  stm_try
    (remaining_locations ← py_copy_ref (locations_ref obj);
     let current_location := start_location in
     route ← list_alloc [start_location];
     f ← while_loop_h obj fuel (Frame remaining_locations current_location route);
     mret (route_ref f))
    (λ e, _ ← stm_print (error_line e); list_alloc []).

(** ** Specification *)

(** A statement leaves the lists that exist as they are. *)
Definition preserves (w w' : world location) : Prop :=
  ∀ b, is_Some (w_heap w !! b) → w_heap w' !! b = w_heap w !! b.

(** The frame and the heap hold the loop state [st]. *)
Record frame_holds (f : frame) (h : gmap ref (list location)) (st : loop_state) : Prop := {
  fh_remaining : h !! remaining_ref f = Some (remaining_locations st);
  fh_route : h !! route_ref f = Some (route st);
  fh_current : current f = current_location st;
}.

(** Nothing but the two lists of the frame changes. *)
Definition frame_only (f : frame) (h h' : gmap ref (list location)) : Prop :=
  ∀ b, b ≠ remaining_ref f → b ≠ route_ref f → h' !! b = h !! b.

(** The two lists of the frame are different objects, and neither is the
    list of the planner. *)
Record frame_separate (obj : RoutePlannerObj) (f : frame) : Prop := {
  fs_lists : remaining_ref f ≠ route_ref f;
  fs_remaining : locations_ref obj ≠ remaining_ref f;
  fs_route : locations_ref obj ≠ route_ref f;
}.

(** ** One iteration *)

Section iteration.
Context (obj : RoutePlannerObj) (locs : list location).
Implicit Types (f : frame) (w : world location) (st : loop_state).

Lemma self_view_Some w :
  w_heap w !! locations_ref obj = Some locs →
  self_view obj w = Some (Ok (RoutePlanner_init locs), w).
Proof.
  intros Hlocs. unfold self_view.
  by rewrite (stm_bind_Ok _ _ _ _ _ (list_load_Some _ _ _ Hlocs)).
Qed.

(** An iteration that raises leaves the heap as it was: only [min] can
    raise, before anything is changed. *)
Lemma loop_body_h_Raise f w st e :
  w_heap w !! locations_ref obj = Some locs →
  frame_holds f (w_heap w) st →
  loop_body (RoutePlanner_init locs) st = Raise e →
  loop_body_h obj f w = Some (Raise e, w).
Proof.
  intros Hlocs [Hrem Hrt Hcur] Hbody. unfold loop_body_h.
  rewrite (stm_bind_Ok _ _ _ _ _ (self_view_Some _ Hlocs)).
  unfold loop_body in Hbody. rewrite <- Hcur in Hbody.
  apply bind_Raise_inv in Hbody as [Hmin|(it & Hmin & Hrm)].
  - apply stm_bind_Raise. by rewrite (py_min_ref_Some _ _ _ _ Hrem), Hmin.
  - by rewrite (py_min_remove _ _ _ Hmin) in Hrm.
Qed.

(** An iteration that completes updates the two lists in place. *)
Lemma loop_body_h_Ok f w st st' :
  frame_separate obj f →
  w_heap w !! locations_ref obj = Some locs →
  frame_holds f (w_heap w) st →
  loop_body (RoutePlanner_init locs) st = Ok st' →
  ∃ f' h',
    loop_body_h obj f w = Some (Ok f', World h' (w_out w)) ∧
    frame_holds f' h' st' ∧
    remaining_ref f' = remaining_ref f ∧ route_ref f' = route_ref f ∧
    frame_only f (w_heap w) h'.
Proof.
  intros [Hne _ _] Hlocs [Hrem Hrt Hcur] (it & Hmin & ->)%loop_body_Ok.
  rewrite <- Hcur in Hmin. do 2 eexists. split_and!.
  - unfold loop_body_h.
    rewrite (stm_bind_Ok _ _ _ _ _ (self_view_Some _ Hlocs)).
    erewrite stm_bind_Ok; [|by rewrite (py_min_ref_Some _ _ _ _ Hrem), Hmin].
    erewrite stm_bind_Ok; [|by apply py_append_ref_Some].
    erewrite stm_bind_Ok; [done|].
    erewrite py_remove_ref_Some; [|by simpl; rewrite lookup_insert_ne].
    by rewrite (py_min_remove _ _ _ Hmin).
  - split; simpl; [by rewrite lookup_insert_eq| |done].
    rewrite lookup_insert_ne by done. apply lookup_insert_eq.
  - done.
  - done.
  - intros b Hb1 Hb2. simpl. by rewrite !lookup_insert_ne by congruence.
Qed.
End iteration.

(** ** The loop *)

Section loop.
Context (obj : RoutePlannerObj) (locs : list location).
Implicit Types (f : frame) (w : world location) (st : loop_state).

(** With no location left the loop is over. *)
Lemma while_loop_h_nil fuel f w st :
  frame_holds f (w_heap w) st → remaining_locations st = [] →
  while_loop_h obj fuel f w = Some (Ok f, w).
Proof.
  intros [Hrem _ _] Hnil. rewrite Hnil in Hrem.
  destruct fuel; simpl; by rewrite (stm_bind_Ok _ _ _ _ _ (py_truth_ref_Some _ _ _ Hrem)).
Qed.

(** With a location left and fuel left, the loop is its body followed by
    the loop. *)
Lemma while_loop_h_cons fuel f w st :
  frame_holds f (w_heap w) st → remaining_locations st ≠ [] →
  while_loop_h obj (S fuel) f w =
    (loop_body_h obj f ≫= while_loop_h obj fuel) w.
Proof.
  intros [Hrem _ _] Hnil. simpl.
  rewrite (stm_bind_Ok _ _ _ _ _ (py_truth_ref_Some _ _ _ Hrem)).
  by rewrite bool_decide_eq_true_2.
Qed.

(** The loop on the heap computes what [while_loop] computes, in the two
    lists of the frame, when it has fuel for one iteration per location. *)
Lemma while_loop_h_sim fuel : ∀ f w st,
  frame_separate obj f →
  w_heap w !! locations_ref obj = Some locs →
  frame_holds f (w_heap w) st →
  length (remaining_locations st) ≤ fuel →
  ∃ r h',
    while_loop_h obj fuel f w = Some (r, World h' (w_out w)) ∧
    frame_only f (w_heap w) h' ∧
    match while_loop (RoutePlanner_init locs) st with
    | Ok st' => ∃ f', r = Ok f' ∧ route_ref f' = route_ref f ∧ frame_holds f' h' st'
    | Raise e => r = Raise e
    end.
Proof.
  induction fuel as [|fuel IH]; intros f w st Hsep Hlocs Hholds Hfuel.
  all: destruct (decide (remaining_locations st = [])) as [Hnil|Hnil].
  1,3: rewrite (while_loop_h_nil _ _ _ _ Hholds Hnil), while_loop_nil by done;
    exists (Ok f), (w_heap w); destruct w; split_and!; [done|by intros ???|eauto].
  { destruct (remaining_locations st); simpl in *; [done|lia]. }
  rewrite (while_loop_h_cons _ _ _ _ Hholds Hnil), while_loop_cons by done.
  destruct (loop_body (RoutePlanner_init locs) st) as [st1|e] eqn:Hbody; simpl.
  - destruct (loop_body_h_Ok obj locs f w st st1) as (f1 & h1 & Hh & Hholds1 & Hr1 & Hr2 & Hframe);
      [done..|].
    rewrite (stm_bind_Ok _ _ _ _ _ Hh).
    destruct (IH f1 (World h1 (w_out w)) st1) as (r & h' & -> & Hframe' & Hres).
    + destruct Hsep. split; congruence.
    + simpl. destruct Hsep. rewrite Hframe; done.
    + done.
    + apply loop_body_decreases in Hbody. lia.
    + exists r, h'. split_and!; [done| |].
      * intros b Hb1 Hb2. rewrite Hframe', Hframe; [done..|congruence|congruence].
      * destruct (while_loop _ st1); [|done].
        destruct Hres as (f' & -> & Hroute & Hholds'). exists f'. by rewrite Hroute, Hr2.
  - rewrite (stm_bind_Raise _ _ _ _ _ (loop_body_h_Raise obj locs f w st e Hlocs Hholds Hbody)).
    exists (Raise e), (w_heap w). by destruct w.
Qed.
End loop.

(** ** Why the loop needs two lists

    If [route] and [remaining_locations] were the same object, every
    iteration would append to the list the element it then removes: the
    list never becomes empty and the loop exhausts any fuel. *)

Section alias.
Context (obj : RoutePlannerObj).
Implicit Types (f : frame) (w : world location) (l : list location).

Lemma self_view_total w :
  self_view obj w = Some (Ok (RoutePlanner_init (w_heap w !!! locations_ref obj)), w).
Proof. done. Qed.

Lemma loop_body_h_alias f w l :
  remaining_ref f = route_ref f →
  w_heap w !! remaining_ref f = Some l → l ≠ [] →
  (∀ self a b, a ∈ current f :: l → b ∈ l → is_ok (calculate_distance self a b) = true) →
  ∃ it w',
    loop_body_h obj f w = Some (Ok (Frame (remaining_ref f) (item_val it) (route_ref f)), w') ∧
    item_in it l ∧
    w_heap w' !! remaining_ref f = Some (delete (item_pos it) (l ++ [item_val it])).
Proof.
  intros Halias Hl Hne Hdef. unfold loop_body_h.
  rewrite (stm_bind_Ok _ _ _ _ _ (self_view_total w)).
  set (self := RoutePlanner_init _).
  destruct (py_min_Ok (calculate_distance self (current f)) l) as [it Hmin]; [done|..].
  { apply Forall_forall. intros b Hb. apply Hdef; [left|done]. }
  pose proof Hmin as [k Hm]%py_min_spec. pose proof (fm_in _ _ _ _ Hm) as Hin.
  exists it. eexists. split_and!; [|done|].
  - erewrite stm_bind_Ok; [|by rewrite (py_min_ref_Some _ _ _ _ Hl), Hmin].
    erewrite stm_bind_Ok; [|apply py_append_ref_Some; rewrite <- Halias; exact Hl].
    erewrite stm_bind_Ok; [done|].
    erewrite py_remove_ref_Some; [|by simpl; rewrite Halias, lookup_insert_eq].
    rewrite py_list_remove_first; [done|by apply lookup_app_l_Some|].
    intros i y Hi Hy. apply (first_min_no_equal_before _ l it k i y Hm Hi).
    rewrite lookup_app_l in Hy; [done|]. apply lookup_lt_Some in Hin. lia.
  - simpl. by rewrite Halias, lookup_insert_eq.
Qed.

Lemma while_loop_h_alias fuel : ∀ f w l,
  remaining_ref f = route_ref f →
  w_heap w !! remaining_ref f = Some l → l ≠ [] →
  (∀ self a b, a ∈ current f :: l → b ∈ l → is_ok (calculate_distance self a b) = true) →
  while_loop_h obj fuel f w = None.
Proof.
  induction fuel as [|fuel IH]; intros f w l Halias Hl Hne Hdef; simpl.
  all: rewrite (stm_bind_Ok _ _ _ _ _ (py_truth_ref_Some _ _ _ Hl)).
  all: rewrite bool_decide_eq_true_2 by done.
  { done. }
  destruct (loop_body_h_alias f w l) as (it & w' & Hbody & Hin & Hl'); [done..|].
  rewrite (stm_bind_Ok _ _ _ _ _ Hbody).
  assert (∀ a, a ∈ delete (item_pos it) (l ++ [item_val it]) → a ∈ l) as Hsub.
  { intros a [Ha| ->%list_elem_of_singleton]%list_elem_of_delete_inv%elem_of_app;
      auto with py. }
  eapply IH; [exact Halias|exact Hl'|..].
  - intros Hnil%(f_equal length). rewrite length_delete, length_app in Hnil; simpl in *.
    + destruct l; simpl in *; [done|lia].
    + apply lookup_lt_is_Some_2. rewrite length_app. apply lookup_lt_Some in Hin. lia.
  - simpl. intros self a b Ha Hb. apply Hdef; [right|by apply Hsub].
    apply elem_of_cons in Ha as [->|Ha]; auto with py.
Qed.
End alias.

(** ** The method *)

Section method.
Context (obj : RoutePlannerObj) (start_location : location) (locs : list location).
Implicit Types (w : world location).

(** The state in which the loop is entered: two new lists. *)
Lemma find_optimal_route_h_enter w :
  w_heap w !! locations_ref obj = Some locs →
  ∃ c r w1 h2,
    py_copy_ref (locations_ref obj) w = Some (Ok c, w1) ∧
    list_alloc [start_location] w1 = Some (Ok r, World h2 (w_out w)) ∧
    frame_separate obj (Frame c start_location r) ∧
    frame_holds (Frame c start_location r) h2 (LoopState locs start_location [start_location]) ∧
    w_heap w !! c = None ∧ w_heap w !! r = None ∧
    (∀ b, b ≠ c → b ≠ r → h2 !! b = w_heap w !! b).
Proof.
  intros Hlocs.
  destruct (py_copy_ref_Some _ _ _ Hlocs) as (c & Hc & Hcfresh).
  destruct (list_alloc_fresh [start_location] (World (<[c := locs]> (w_heap w)) (w_out w)))
    as (r & Hr & Hrfresh).
  simpl in Hr, Hrfresh. apply lookup_insert_None in Hrfresh as [Hrfresh Hrc].
  do 4 eexists. split_and!; [done..| | | | |].
  - split; simpl; congruence.
  - split; simpl; [|by rewrite lookup_insert_eq|done].
    rewrite lookup_insert_ne by done. apply lookup_insert_eq.
  - done.
  - done.
  - intros b Hb1 Hb2. by rewrite !lookup_insert_ne by congruence.
Qed.

(** What a call does: it returns a new list that holds the route of the
    functional model, writes the lines the model writes, and changes no
    list that existed. *)
Lemma find_optimal_route_h_spec w fuel :
  w_heap w !! locations_ref obj = Some locs → length locs ≤ fuel →
  ∃ a h',
    find_optimal_route_h obj start_location fuel w =
      Some (Ok a, World h'
        (w_out w ++ io_out (find_optimal_route (RoutePlanner_init locs) start_location))) ∧
    h' !! a = Some (io_val (find_optimal_route (RoutePlanner_init locs) start_location)) ∧
    w_heap w !! a = None ∧
    (∀ b, is_Some (w_heap w !! b) → h' !! b = w_heap w !! b).
Proof.
  intros Hlocs Hfuel.
  destruct (find_optimal_route_h_enter w Hlocs)
    as (c & r & w1 & h2 & Hc & Hr & Hsep & Hholds & Hcfresh & Hrfresh & Hframe2).
  destruct (while_loop_h_sim obj locs fuel (Frame c start_location r)
    (World h2 (w_out w)) (LoopState locs start_location [start_location]) Hsep)
    as (res & h' & Hloop & Hframe & Hres); [|done..|].
  { simpl. destruct Hsep. by rewrite Hframe2. }
  assert (∀ b, is_Some (w_heap w !! b) → h' !! b = w_heap w !! b) as Hpres.
  { intros b [l Hb]. assert (b ≠ c ∧ b ≠ r) as [??] by (split; congruence).
    rewrite Hframe, Hframe2; done. }
  unfold find_optimal_route_h, stm_try, find_optimal_route, try_except,
    find_optimal_route_body, py_list_copy.
  rewrite (stm_bind_Ok _ _ _ _ _ Hc), (stm_bind_Ok _ _ _ _ _ Hr). simpl in *.
  destruct (while_loop _ _) as [st'|e]; simpl.
  - destruct Hres as (f' & -> & Hroute & [_ Hrt _]).
    rewrite (stm_bind_Ok _ _ _ _ _ Hloop). simpl in *.
    exists r, h'. rewrite app_nil_r, Hroute. split_and!; [done|by rewrite <- Hroute|done..].
  - subst res. rewrite (stm_bind_Raise _ _ _ _ _ Hloop).
    destruct (list_alloc_fresh (A:=location) [] (World h' (w_out w ++ [error_line e])))
      as (a & Ha & Hafresh).
    exists a, (<[a := []]> h'). simpl in *. split_and!.
    + unfold mbind, stm_bind, stm_print. simpl. by rewrite Ha.
    + apply lookup_insert_eq.
    + destruct (w_heap w !! a) eqn:Hwa; [|done].
      rewrite Hpres in Hafresh by eauto. congruence.
    + intros b Hb. rewrite <- (Hpres b Hb). apply lookup_insert_ne. intros ->.
      rewrite (Hpres b Hb) in Hafresh. rewrite Hafresh in Hb. by destruct Hb.
Qed.
End method.

(** ** Contracts *)

(** C13: with fuel for one iteration per location, the method on the heap
    returns a reference to a list that holds the route of the functional
    model [find_optimal_route], and writes the lines the model writes. *)
Theorem find_optimal_route_h_refines obj start_location locs w fuel :
  w_heap w !! locations_ref obj = Some locs → length locs ≤ fuel →
  ∃ a w',
    find_optimal_route_h obj start_location fuel w = Some (Ok a, w') ∧
    w_heap w' !! a =
      Some (io_val (find_optimal_route (RoutePlanner_init locs) start_location)) ∧
    w_out w' =
      w_out w ++ io_out (find_optimal_route (RoutePlanner_init locs) start_location).
Proof.
  intros Hlocs Hfuel.
  destruct (find_optimal_route_h_spec obj start_location locs w fuel Hlocs Hfuel)
    as (a & h' & Hrun & Ha & _).
  by eexists a, _.
Qed.

(** C8: a call changes no list that existed before it, the planner's
    list of locations in particular, so a second call on the same planner
    returns the same route, in another new list, and leaves the first
    route as it was. *)
Theorem find_optimal_route_h_reusable obj start_location locs w fuel :
  w_heap w !! locations_ref obj = Some locs → length locs ≤ fuel →
  ∃ a1 w1 a2 w2,
    find_optimal_route_h obj start_location fuel w = Some (Ok a1, w1) ∧
    find_optimal_route_h obj start_location fuel w1 = Some (Ok a2, w2) ∧
    preserves w w1 ∧ preserves w1 w2 ∧
    a1 ≠ a2 ∧ w_heap w2 !! a2 = w_heap w1 !! a1.
Proof.
  intros Hlocs Hfuel.
  destruct (find_optimal_route_h_spec obj start_location locs w fuel Hlocs Hfuel)
    as (a1 & h1 & Hrun1 & Ha1 & Hfresh1 & Hpres1).
  match type of Hrun1 with _ = Some (_, ?w0) => set (w1 := w0) in * end.
  assert (w_heap w1 !! locations_ref obj = Some locs) as Hlocs1.
  { simpl. by rewrite Hpres1, Hlocs. }
  destruct (find_optimal_route_h_spec obj start_location locs w1 fuel Hlocs1 Hfuel)
    as (a2 & h2 & Hrun2 & Ha2 & Hfresh2 & Hpres2).
  eexists a1, w1, a2, _. split_and!; [done..| |].
  - intros ->. simpl in Hfresh2. congruence.
  - simpl. by rewrite Ha1, Ha2.
Qed.

(** ** Witnesses *)

Definition planner_obj : RoutePlannerObj := RoutePlannerObj_init (Ref 1).

Definition planner_world : world location :=
  World {[ Ref 1 := [(3, 4)%float] ]} [].

Lemma find_optimal_route_h_refines_witness :
  ∃ a w',
    find_optimal_route_h planner_obj (0, 0)%float 1 planner_world = Some (Ok a, w') ∧
    w_heap w' !! a =
      Some (io_val (find_optimal_route (RoutePlanner_init [(3, 4)%float]) (0, 0)%float)) ∧
    w_out w' =
      w_out planner_world ++
      io_out (find_optimal_route (RoutePlanner_init [(3, 4)%float]) (0, 0)%float).
Proof. apply find_optimal_route_h_refines; [vm_compute; reflexivity|simpl; lia]. Defined.

Lemma find_optimal_route_h_reusable_witness :
  ∃ a1 w1 a2 w2,
    find_optimal_route_h planner_obj (0, 0)%float 1 planner_world = Some (Ok a1, w1) ∧
    find_optimal_route_h planner_obj (0, 0)%float 1 w1 = Some (Ok a2, w2) ∧
    preserves planner_world w1 ∧ preserves w1 w2 ∧
    a1 ≠ a2 ∧ w_heap w2 !! a2 = w_heap w1 !! a1.
Proof.
  apply (find_optimal_route_h_reusable _ _ [(3, 4)%float]); [vm_compute; reflexivity|simpl; lia].
Defined.
