(* ===== verification/RouteDyn.v ===== *)
(** * The planner on tuples of any length

    [RoutePlanner] ([src/main.py], lines 10-35) does not check the
    locations it is given: [calculate_distance] indexes each tuple at 0 and
    at 1, whatever its length.  Here a location is a tuple of floats of any
    length ([pytuple]); an index past its end raises [IndexError], which
    the handler of [find_optimal_route] catches like any other exception.

    [RoutePlanner] of the file of that name is this model restricted to
    tuples of two floats: [of_location] embeds its locations, and on them
    the methods below do what the typed methods do
    ([find_optimal_route_dyn_typed]).  On a tuple with fewer than two
    coordinates the method prints its error line and returns the empty
    list ([find_optimal_route_dyn_malformed]); coordinates after the
    second are ignored ([find_optimal_route_dyn_coordinates]). *)

From Stdlib Require Import Floats.
From Equations Require Import Equations.
From stdpp Require Import prelude.
From S2P Require Import Prelude PyBuiltins PyFloat PyIO RoutePlanner.

#[local] Open Scope py_scope.

(** ** Data *)

(** A location as the methods receive it: a tuple of floats. *)
Definition pytuple : Type := list float.

(** [s == t] for tuples: the same length, and equal component by
    component. *)
Fixpoint tuple_eqb (s t : pytuple) : bool :=
  match s, t with
  | [], [] => true
  | x :: s', y :: t' => (x =? y) && tuple_eqb s' t'
  | _, _ => false
  end.

#[export] Instance tuple_py_eq : PyEq pytuple := tuple_eqb.

(** [t[i]] for an index that is not negative. *)
Definition py_tuple_getitem (t : pytuple) (i : nat) : result float :=
  match t !! i with
  | Some x => Ok x
  | None => Raise IndexError
  end.

Record RoutePlanner_dyn := {
  locations_dyn : list pytuple;
}.

(** [__init__] *)
Definition RoutePlanner_init_dyn (locs : list pytuple) : RoutePlanner_dyn :=
  {| locations_dyn := locs |}.

Record loop_state_dyn := LoopStateDyn {
  remaining_locations_dyn : list pytuple;
  current_location_dyn : pytuple;
  route_dyn : list pytuple;
}.

(** ** Methods *)

(** [np.sqrt((loc1[0] - loc2[0])**2 + (loc1[1] - loc2[1])**2)], operand by
    operand from left to right: the first coordinates are read and their
    difference squared before the second coordinates are read. *)
Definition calculate_distance_dyn (self : RoutePlanner_dyn) (loc1 loc2 : pytuple)
    : result float :=
  x1 ← py_tuple_getitem loc1 0;
  x2 ← py_tuple_getitem loc2 0;
  dx2 ← py_float_pow2 (py_float_sub x1 x2);
  y1 ← py_tuple_getitem loc1 1;
  y2 ← py_tuple_getitem loc2 1;
  dy2 ← py_float_pow2 (py_float_sub y1 y2);
  mret (np_sqrt (py_float_add dx2 dy2)).

Definition loop_body_dyn (self : RoutePlanner_dyn) (st : loop_state_dyn)
    : result loop_state_dyn :=
  next_location ←
    py_min (calculate_distance_dyn self (current_location_dyn st))
      (remaining_locations_dyn st);
  let route' := route_dyn st ++ [item_val next_location] in
  let current_location' := item_val next_location in
  remaining_locations' ← py_list_remove next_location (remaining_locations_dyn st);
  mret (LoopStateDyn remaining_locations' current_location' route').

Definition loop_iter_dyn (self : RoutePlanner_dyn) (st : loop_state_dyn)
    : option (result loop_state_dyn) :=
  match remaining_locations_dyn st with
  | [] => None
  | _ :: _ => Some (loop_body_dyn self st)
  end.

Lemma loop_iter_dyn_decreases self st st' :
  loop_iter_dyn self st = Some (Ok st') →
  length (remaining_locations_dyn st') < length (remaining_locations_dyn st).
Proof.
  unfold loop_iter_dyn, loop_body_dyn.
  destruct (remaining_locations_dyn st) eqn:Hrem; [done|].
  intros [= Hbody]. simplify_result.
  match goal with H : py_list_remove _ _ = Ok _ |- _ =>
    apply py_list_remove_length in H; simpl in *; lia end.
Qed.

Equations? while_loop_dyn (self : RoutePlanner_dyn) (st : loop_state_dyn)
    : result loop_state_dyn by wf (length (remaining_locations_dyn st)) lt :=
  while_loop_dyn self st with inspect (loop_iter_dyn self st) := {
    | exist _ None _ => Ok st
    | exist _ (Some (Raise e)) _ => Raise e
    | exist _ (Some (Ok st')) Hiter => while_loop_dyn self st' }.
Proof. by eapply loop_iter_dyn_decreases. Qed.

Definition find_optimal_route_body_dyn (self : RoutePlanner_dyn)
    (start_location : pytuple) : result (list pytuple) :=
  let remaining_locations0 := py_list_copy (locations_dyn self) in
  let current_location0 := start_location in
  let route0 := [start_location] in
  st ← while_loop_dyn self (LoopStateDyn remaining_locations0 current_location0 route0);
  mret (route_dyn st).

Definition find_optimal_route_dyn (self : RoutePlanner_dyn) (start_location : pytuple)
    : io (list pytuple) :=
  try_except (find_optimal_route_body_dyn self start_location)
    (λ route, mret route)
    (λ e, print (error_line e) ≫= λ _, mret []).

(** ** Specification *)

(** A tuple with the two coordinates the distance reads. *)
Definition has_coordinates (t : pytuple) : Prop := 2 ≤ length t.

#[export] Instance has_coordinates_dec t : Decision (has_coordinates t).
Proof. unfold has_coordinates. apply _. Defined.

(** The locations, planners and loop states of the typed model. *)
Definition of_location (loc : location) : pytuple := [loc.1; loc.2].

Definition of_planner (self : RoutePlanner) : RoutePlanner_dyn :=
  {| locations_dyn := of_location <$> locations self |}.

Definition of_state (st : loop_state) : loop_state_dyn :=
  LoopStateDyn (of_location <$> remaining_locations st)
    (of_location (current_location st)) (of_location <$> route st).

(** What the distance reads of a tuple: its first two coordinates (0 in
    the place of one that is missing). *)
Definition to_location (t : pytuple) : location :=
  (default 0%float (t !! 0), default 0%float (t !! 1)).

Definition to_state (st : loop_state_dyn) : loop_state :=
  LoopState (to_location <$> remaining_locations_dyn st)
    (to_location (current_location_dyn st)) (to_location <$> route_dyn st).

(** The planner of the first two coordinates. *)
Definition to_planner (self : RoutePlanner_dyn) : RoutePlanner :=
  RoutePlanner_init (to_location <$> locations_dyn self).

(** ** The distance *)

Section distance.
Context (self : RoutePlanner_dyn).
Implicit Types (e : exn).

(** On tuples with two coordinates or more the distance is the distance
    of the typed model between the first two: what follows them is not
    read. *)
Lemma calculate_distance_dyn_prefix typed x1 y1 rest1 x2 y2 rest2 :
  calculate_distance_dyn self (x1 :: y1 :: rest1) (x2 :: y2 :: rest2) =
    calculate_distance typed (x1, y1) (x2, y2).
Proof. done. Qed.

(** The distance raises [IndexError] or [OverflowError], nothing else. *)
Lemma calculate_distance_dyn_Raise (loc1 loc2 : pytuple) e :
  calculate_distance_dyn self loc1 loc2 = Raise e → e = IndexError ∨ e = OverflowError.
Proof.
  unfold calculate_distance_dyn.
  destruct loc1 as [|x1 [|y1 rest1]], loc2 as [|x2 [|y2 rest2]]; simpl.
  all: try (intros [= <-]; by left).
  all: destruct (py_float_pow2 (py_float_sub x1 x2)) as [dx2|e1] eqn:Hx; simpl.
  all: try (intros [= <-]; by left).
  all: try (apply py_float_pow2_Raise in Hx as [-> _]; intros [= <-]; by right).
  destruct (py_float_pow2 (py_float_sub y1 y2)) as [dy2|e2] eqn:Hy; simpl; [done|].
  apply py_float_pow2_Raise in Hy as [-> _]. intros [= <-]. by right.
Qed.

(** The distance is defined only between tuples that have the two
    coordinates. *)
Lemma calculate_distance_dyn_Ok (loc1 loc2 : pytuple) d :
  calculate_distance_dyn self loc1 loc2 = Ok d →
  has_coordinates loc1 ∧ has_coordinates loc2.
Proof.
  unfold calculate_distance_dyn, has_coordinates.
  destruct loc1 as [|x1 [|y1 rest1]], loc2 as [|x2 [|y2 rest2]]; simpl; try done.
  all: try (destruct (py_float_pow2 (py_float_sub x1 x2)); done).
  intros _. lia.
Qed.

Lemma calculate_distance_dyn_short (loc1 loc2 : pytuple) :
  ¬ has_coordinates loc1 ∨ ¬ has_coordinates loc2 →
  is_ok (calculate_distance_dyn self loc1 loc2) = false.
Proof.
  intros Hshort. destruct (calculate_distance_dyn self loc1 loc2) as [d|e] eqn:Hd; [|done].
  apply calculate_distance_dyn_Ok in Hd. tauto.
Qed.
End distance.

(** ** Tuples that compare equal *)

Lemma tuple_eqb_length (s t : pytuple) : (s =? t) = true → length s = length t.
Proof.
  revert t. induction s as [|x s IH]; intros [|y t]; simpl; try done.
  intros [_ Hst]%andb_prop. f_equal. by apply IH.
Qed.

(** Tuples that compare equal are at the same distance from any tuple, or
    raise the same exception. *)
#[export] Instance calculate_distance_dyn_proper self cur :
  PyKeyProper (calculate_distance_dyn self cur).
Proof.
  intros s t Hst. unfold calculate_distance_dyn.
  destruct cur as [|x1 [|y1 rest1]], s as [|x2 [|y2 s]], t as [|x3 [|y3 t]];
    simpl in *; try done.
  all: apply andb_prop in Hst as [Hx Hst]; try done.
  all: rewrite (py_float_pow2_sub_proper _ _ _ Hx); try done.
  apply andb_prop in Hst as [Hy _]. by rewrite (py_float_pow2_sub_proper _ _ _ Hy).
Qed.

(** ** The typed model *)

Section typed.
Context (self : RoutePlanner).
Implicit Types (st : loop_state) (a b : location).

Lemma calculate_distance_dyn_typed a b :
  calculate_distance_dyn (of_planner self) (of_location a) (of_location b) =
    calculate_distance self a b.
Proof. done. Qed.

Lemma tuple_eqb_of_location a b : (of_location a =? of_location b) = (a =? b).
Proof. unfold py_eq at 1, tuple_py_eq, of_location. simpl. by rewrite andb_true_r. Qed.

Lemma loop_body_dyn_typed st :
  loop_body_dyn (of_planner self) (of_state st) = of_state <$> loop_body self st.
Proof.
  unfold loop_body_dyn, loop_body. simpl.
  rewrite (py_min_fmap of_location (calculate_distance self (current_location st)))
    by (apply Forall_true, calculate_distance_dyn_typed).
  destruct (py_min _ (remaining_locations st)) as [it|e]; [|done]. simpl.
  rewrite (py_list_remove_fmap of_location) by apply tuple_eqb_of_location.
  destruct (py_list_remove it (remaining_locations st)) as [l'|e]; [|done]. simpl.
  unfold of_state. simpl. by rewrite fmap_app.
Qed.
End typed.

(** ** The loop *)

Section loop.
Context (self : RoutePlanner_dyn).
Implicit Types (st : loop_state_dyn) (e : exn).

Lemma while_loop_dyn_step st :
  while_loop_dyn self st =
    match loop_iter_dyn self st with
    | None => Ok st
    | Some r => r ≫= while_loop_dyn self
    end.
Proof.
  funelim (while_loop_dyn self st);
    match goal with H : loop_iter_dyn _ _ = _ |- _ => by rewrite H end.
Qed.

Lemma while_loop_dyn_nil st :
  remaining_locations_dyn st = [] → while_loop_dyn self st = Ok st.
Proof. intros Hrem. rewrite while_loop_dyn_step. unfold loop_iter_dyn. by rewrite Hrem. Qed.

Lemma while_loop_dyn_cons st :
  remaining_locations_dyn st ≠ [] →
  while_loop_dyn self st = loop_body_dyn self st ≫= while_loop_dyn self.
Proof.
  intros Hrem. rewrite while_loop_dyn_step. unfold loop_iter_dyn.
  by destruct (remaining_locations_dyn st).
Qed.

(** The body as a function of the item [min] returns. *)
Lemma loop_body_dyn_eq st :
  loop_body_dyn self st =
    (λ it, LoopStateDyn (delete (item_pos it) (remaining_locations_dyn st)) (item_val it)
             (route_dyn st ++ [item_val it])) <$>
    py_min (calculate_distance_dyn self (current_location_dyn st))
      (remaining_locations_dyn st).
Proof.
  unfold loop_body_dyn. destruct (py_min _ _) as [it|e] eqn:Hmin; [|done]. simpl.
  by rewrite (py_min_remove _ _ _ Hmin).
Qed.

(** An iteration raises what a distance raises: [min] is not called on
    an empty list, and [remove] finds the item [min] returned. *)
Lemma loop_body_dyn_Raise st e :
  remaining_locations_dyn st ≠ [] →
  loop_body_dyn self st = Raise e →
  first_raise (calculate_distance_dyn self (current_location_dyn st))
    (remaining_locations_dyn st) e.
Proof.
  unfold loop_body_dyn. intros Hne [Hmin|(it & Hmin & Hrm)]%bind_Raise_inv.
  - by apply py_min_Raise in Hmin as [[? _]|?].
  - rewrite (py_min_remove _ _ _ Hmin) in Hrm. by simplify_result.
Qed.

(** The first iteration calls the distance on every remaining location
    until one raises: a call that raises ends the loop. *)
Lemma while_loop_dyn_first_raise st e :
  first_raise (calculate_distance_dyn self (current_location_dyn st))
    (remaining_locations_dyn st) e →
  while_loop_dyn self st = Raise e.
Proof.
  intros Hraise. rewrite while_loop_dyn_cons.
  - unfold loop_body_dyn. by rewrite (proj2 (py_min_Raise_iff _ _ _) (or_intror Hraise)).
  - destruct Hraise as (pre & y & post & -> & _). by destruct pre.
Qed.

(** Induction on the number of remaining locations. *)
Lemma loop_state_dyn_ind_remaining (P : loop_state_dyn → Prop) :
  (∀ st, (∀ st', length (remaining_locations_dyn st') < length (remaining_locations_dyn st) →
      P st') → P st) →
  ∀ st, P st.
Proof.
  intros Hstep.
  apply (well_founded_induction
    (well_founded_ltof _ (λ st, length (remaining_locations_dyn st)))), Hstep.
Qed.

(** The loop raises [IndexError] or [OverflowError], nothing else. *)
Lemma while_loop_dyn_Raise e st :
  while_loop_dyn self st = Raise e → e = IndexError ∨ e = OverflowError.
Proof.
  induction st as [st IH] using loop_state_dyn_ind_remaining.
  destruct (decide (remaining_locations_dyn st = [])) as [Hrem|Hrem].
  { by rewrite while_loop_dyn_nil. }
  rewrite while_loop_dyn_cons by done.
  intros [Hbody|(st' & Hbody & Hloop)]%bind_Raise_inv.
  - apply loop_body_dyn_Raise in Hbody as (_ & y & _ & _ & _ & Hy); [|done].
    by eapply calculate_distance_dyn_Raise.
  - apply (IH st'); [|done]. apply (loop_iter_dyn_decreases self).
    unfold loop_iter_dyn. rewrite <- Hbody. by destruct (remaining_locations_dyn st).
Qed.
End loop.

(** The loop rule: a property that the body preserves holds when the
    loop exits, and no location remains then. *)
Lemma while_loop_dyn_invariant (I : loop_state_dyn → Prop) self st st' :
  (∀ s s', I s → loop_body_dyn self s = Ok s' → I s') →
  I st → while_loop_dyn self st = Ok st' →
  I st' ∧ remaining_locations_dyn st' = [].
Proof.
  intros Hbody. revert st'. induction st as [st IH] using loop_state_dyn_ind_remaining.
  intros st' HI. destruct (decide (remaining_locations_dyn st = [])) as [Hrem|Hrem].
  - rewrite while_loop_dyn_nil by done. by intros [= <-].
  - rewrite while_loop_dyn_cons by done.
    intros (s & Hs & Hloop)%bind_Ok_inv. eapply (IH s); [|by eapply Hbody|done].
    apply (loop_iter_dyn_decreases self).
    unfold loop_iter_dyn. rewrite <- Hs. by destruct (remaining_locations_dyn st).
Qed.

(** A route that is returned is the start followed by the tuples of the
    planner, each once, with all their coordinates. *)
Lemma find_optimal_route_body_dyn_permutation self start_location route :
  find_optimal_route_body_dyn self start_location = Ok route →
  ∃ r, route = start_location :: r ∧ r ≡ₚ locations_dyn self.
Proof.
  unfold find_optimal_route_body_dyn, py_list_copy.
  intros (st & Hloop & [= <-])%bind_Ok_inv.
  apply (while_loop_dyn_invariant (λ s, ∃ r, route_dyn s = start_location :: r ∧
    r ++ remaining_locations_dyn s ≡ₚ locations_dyn self)) in Hloop
    as [(r & Hr & Hperm) Hnil].
  - exists r. split; [done|]. by rewrite Hnil, app_nil_r in Hperm.
  - intros s s' (r & Hr & Hperm). rewrite loop_body_dyn_eq.
    intros (it & [k Hmin]%py_min_spec & ->)%fmap_Ok_inv. simpl.
    exists (r ++ [item_val it]). split; [by rewrite Hr|].
    rewrite <- Hperm, <- app_assoc. apply Permutation_app_head. simpl.
    symmetry. apply delete_Permutation, Hmin.
  - by exists [].
Qed.

(** The loop on the locations of the typed model. *)
Lemma while_loop_dyn_typed self st :
  while_loop_dyn (of_planner self) (of_state st) = of_state <$> while_loop self st.
Proof.
  induction st as [st IH] using loop_state_ind_remaining.
  destruct (decide (remaining_locations st = [])) as [Hrem|Hrem].
  { rewrite while_loop_nil by done. rewrite while_loop_dyn_nil; [done|].
    simpl. by rewrite Hrem. }
  rewrite while_loop_cons by done.
  rewrite while_loop_dyn_cons by (simpl; by intros ?%fmap_nil_inv).
  rewrite loop_body_dyn_typed.
  destruct (loop_body self st) as [st'|e] eqn:Hbody; [|done]. simpl.
  apply IH. apply loop_body_decreases in Hbody. lia.
Qed.

(** ** Tuples that have the two coordinates *)

Section coordinates.
Context (self : RoutePlanner_dyn) (typed : RoutePlanner).
Implicit Types (st : loop_state_dyn).

(** Between tuples that have them, the distance is the distance of their
    first two coordinates. *)
Lemma calculate_distance_dyn_coordinates (loc1 loc2 : pytuple) :
  has_coordinates loc1 → has_coordinates loc2 →
  calculate_distance typed (to_location loc1) (to_location loc2) =
    calculate_distance_dyn self loc1 loc2.
Proof.
  unfold has_coordinates.
  destruct loc1 as [|x1 [|y1 rest1]], loc2 as [|x2 [|y2 rest2]]; simpl; try lia. done.
Qed.

(** The state of the loop holds tuples that have the two coordinates. *)
Definition state_coordinates st : Prop :=
  has_coordinates (current_location_dyn st) ∧
  Forall has_coordinates (remaining_locations_dyn st).

Lemma loop_body_dyn_coordinates st st' :
  state_coordinates st → loop_body_dyn self st = Ok st' → state_coordinates st'.
Proof.
  intros [_ Hrem]. rewrite loop_body_dyn_eq.
  intros (it & [k Hmin]%py_min_spec & ->)%fmap_Ok_inv. split; simpl.
  - eapply (proj1 (Forall_forall _ _) Hrem), item_in_elem_of, Hmin.
  - by apply Forall_delete.
Qed.

(** An iteration on tuples is an iteration on their first two
    coordinates. *)
Lemma loop_body_dyn_to_state st :
  state_coordinates st →
  loop_body typed (to_state st) = to_state <$> loop_body_dyn self st.
Proof.
  intros [Hcur Hrem]. rewrite loop_body_eq, loop_body_dyn_eq. simpl.
  rewrite (py_min_fmap to_location
    (calculate_distance_dyn self (current_location_dyn st))).
  - destruct (py_min _ (remaining_locations_dyn st)) as [it|e]; [|done]. simpl.
    unfold to_state. simpl. by rewrite list_fmap_delete, fmap_app.
  - eapply Forall_impl; [exact Hrem|]. intros loc Hloc.
    by apply calculate_distance_dyn_coordinates.
Qed.

Lemma while_loop_dyn_to_state st :
  state_coordinates st →
  while_loop typed (to_state st) = to_state <$> while_loop_dyn self st.
Proof.
  induction st as [st IH] using loop_state_dyn_ind_remaining. intros Hst.
  destruct (decide (remaining_locations_dyn st = [])) as [Hrem|Hrem].
  { rewrite while_loop_dyn_nil by done. rewrite while_loop_nil; [done|].
    simpl. by rewrite Hrem. }
  rewrite while_loop_dyn_cons by done.
  rewrite while_loop_cons by (simpl; by intros ?%fmap_nil_inv).
  rewrite loop_body_dyn_to_state by done.
  destruct (loop_body_dyn self st) as [st'|e] eqn:Hbody; [|done]. simpl.
  apply IH; [|by eapply loop_body_dyn_coordinates].
  apply (loop_iter_dyn_decreases self).
  unfold loop_iter_dyn. rewrite <- Hbody. by destruct (remaining_locations_dyn st).
Qed.
End coordinates.

(** ** Contracts *)

(** C19: on the locations of the typed model, tuples of two floats, the
    method on tuples does what the typed method does: it writes the same
    line, if any, and returns the same route. *)
Theorem find_optimal_route_dyn_typed self start_location :
  find_optimal_route_dyn (of_planner self) (of_location start_location) =
    fmap (M:=list) of_location <$> find_optimal_route self start_location.
Proof.
  unfold find_optimal_route_dyn, find_optimal_route, find_optimal_route_body_dyn,
    find_optimal_route_body, py_list_copy, try_except.
  change (LoopStateDyn _ _ _)
    with (of_state (LoopState (locations self) start_location [start_location])).
  rewrite while_loop_dyn_typed. by destruct (while_loop self _) as [st|e].
Qed.

(** C20: coordinates after the second are ignored: on tuples that have
    the two coordinates, the method writes what the method of the typed
    model writes on their first two coordinates, and visits the tuples in
    the order in which that method visits the pairs. *)
Theorem find_optimal_route_dyn_coordinates self start_location :
  has_coordinates start_location → Forall has_coordinates (locations_dyn self) →
  fmap (M:=list) to_location <$> find_optimal_route_dyn self start_location =
    find_optimal_route (to_planner self) (to_location start_location).
Proof.
  intros Hstart Hlocs.
  unfold find_optimal_route_dyn, find_optimal_route, find_optimal_route_body_dyn,
    find_optimal_route_body, py_list_copy, try_except. simpl.
  change (LoopState _ _ _) with (to_state
    (LoopStateDyn (locations_dyn self) start_location [start_location])).
  rewrite (while_loop_dyn_to_state self) by done.
  by destruct (while_loop_dyn self _) as [st|e].
Qed.

(** C17: a location without the two coordinates makes the method fail,
    wherever it is in the list: the first iteration measures the distance
    to every location, so the method prints its error line and returns the
    empty list.  The exception is [IndexError], or [OverflowError] when a
    square overflows before the missing coordinate is read. *)
Theorem find_optimal_route_dyn_malformed self start_location :
  locations_dyn self ≠ [] →
  ¬ has_coordinates start_location ∨
    Exists (λ loc, ¬ has_coordinates loc) (locations_dyn self) →
  ∃ e, find_optimal_route_dyn self start_location = IO [error_line e] [] ∧
    (e = IndexError ∨ e = OverflowError).
Proof.
  intros Hne Hshort.
  assert (Exists (λ loc, is_ok (calculate_distance_dyn self start_location loc) = false)
            (locations_dyn self)) as [e Hraise]%first_raise_Exists.
  { destruct Hshort as [Hstart|Hloc].
    - destruct (locations_dyn self) as [|loc locs]; [done|].
      left. apply calculate_distance_dyn_short. by left.
    - eapply Exists_impl; [exact Hloc|]. intros loc Hloc'.
      apply calculate_distance_dyn_short. by right. }
  exists e. split.
  - unfold find_optimal_route_dyn, find_optimal_route_body_dyn, py_list_copy.
    by rewrite (while_loop_dyn_first_raise self (LoopStateDyn _ _ _) e Hraise).
  - destruct Hraise as (_ & y & _ & _ & _ & Hy). by eapply calculate_distance_dyn_Raise.
Qed.

(** C36: whatever the tuples, the block under [try] raises only [IndexError]
    or [OverflowError]: [min] and [remove] never raise [ValueError]. *)
Theorem find_optimal_route_dyn_exceptions self start_location e :
  find_optimal_route_body_dyn self start_location = Raise e →
  e = IndexError ∨ e = OverflowError.
Proof.
  unfold find_optimal_route_body_dyn.
  intros [Hloop|(st & _ & [=])]%bind_Raise_inv. by eapply while_loop_dyn_Raise.
Qed.

(** A start location without coordinates is not noticed when there is
    nothing to deliver. *)
Lemma find_optimal_route_dyn_no_locations start_location :
  find_optimal_route_dyn (RoutePlanner_init_dyn []) start_location =
    IO [] [start_location].
Proof.
  unfold find_optimal_route_dyn, find_optimal_route_body_dyn, py_list_copy. simpl.
  by rewrite while_loop_dyn_nil.
Qed.

(** Coordinates after the second are ignored: three points with an
    altitude are visited in the order of their first two coordinates. *)
Lemma find_optimal_route_dyn_altitude :
  find_optimal_route_dyn (RoutePlanner_init_dyn [[3; 1; 0]; [1; 2; 9000]]%float)
    [0; 0; 7]%float =
    IO [] [[0; 0; 7]; [1; 2; 9000]; [3; 1; 0]]%float.
Proof. by vm_compute. Qed.

(** ** Witnesses *)

Lemma find_optimal_route_dyn_malformed_witness :
  ∃ e, find_optimal_route_dyn (RoutePlanner_init_dyn [[1; 2]; [3]]%float) [0; 0]%float =
      IO [error_line e] [] ∧
    (e = IndexError ∨ e = OverflowError).
Proof.
  apply find_optimal_route_dyn_malformed; [done|].
  right. apply Exists_cons_tl, Exists_cons_hd. unfold has_coordinates. simpl. lia.
Defined.

Lemma find_optimal_route_dyn_coordinates_witness :
  fmap (M:=list) to_location <$>
    find_optimal_route_dyn (RoutePlanner_init_dyn [[3; 1; 0]; [1; 2; 9000]]%float)
      [0; 0; 7]%float =
    find_optimal_route (to_planner (RoutePlanner_init_dyn [[3; 1; 0]; [1; 2; 9000]]%float))
      (to_location [0; 0; 7]%float).
Proof.
  apply find_optimal_route_dyn_coordinates; by apply (bool_decide_unpack _).
Defined.

Lemma find_optimal_route_dyn_exceptions_witness :
  IndexError = IndexError ∨ IndexError = OverflowError.
Proof.
  apply (find_optimal_route_dyn_exceptions (RoutePlanner_init_dyn [[1; 2]; [3]]%float)
    [0; 0]%float).
  by vm_compute.
Defined.
