(* ===== verification/Inventory.v ===== *)
(** * The inventory manager

    [InventoryManager] of [src/main.py]: a dictionary from item name to
    quantity with [update_inventory], [get_inventory_status] and
    [check_inventory].  Quantities are Python integers, which are unbounded:
    they are modelled by [Z].

    The abstract specification is a finite map from names to quantities,
    with the three operations the rest of the program relies on:
    [spec_increment], [spec_quantity_of] and [spec_has_at_least].  [inv_abs]
    is the abstraction function, and each method is shown to implement its
    abstract operation.  The concrete state also keeps the order in which
    items were first stocked, which is the order of the status listing.

    [inv_equiv] relates inventories that hold the same stock, in whatever
    order; [update_all] is a sequence of updates, whose effect on the stock
    does not depend on the order of the sequence. *)

From Stdlib Require Import ZArith String.
From stdpp Require Import prelude gmap strings.
From S2P Require Import Prelude PyDict.

#[local] Open Scope Z_scope.

(** ** The class *)

(** An instance: its only attribute is [self.inventory]. *)
Record InventoryManager := {
  inventory : pydict string Z;
}.

(** [InventoryManager()], that is [__init__]. *)
Definition InventoryManager_init : InventoryManager :=
  {| inventory := py_dict_empty |}.

(** [update_inventory]: the quantity is added to the stock of a known item,
    and is the stock of a new one.  [self.inventory[item] += quantity] reads
    the entry, which raises [KeyError] for an absent key, and writes it. *)
Definition update_inventory (self : InventoryManager) (item : string) (quantity : Z)
    : result InventoryManager :=
  if py_dict_contains item (inventory self) then
    old ← py_dict_getitem item (inventory self);
    mret {| inventory := py_dict_setitem item (old + quantity) (inventory self) |}
  else
    mret {| inventory := py_dict_setitem item quantity (inventory self) |}.

(** [get_inventory_status]: the dictionary itself. *)
Definition get_inventory_status (self : InventoryManager) : pydict string Z :=
  inventory self.

(** [check_inventory]: [self.inventory.get(item, 0) >= required_quantity]. *)
Definition check_inventory (self : InventoryManager) (item : string)
    (required_quantity : Z) : bool :=
  py_dict_get item 0 (inventory self) >=? required_quantity.

(** ** The abstract specification *)

Definition spec_quantity_of (m : gmap string Z) (item : string) : Z :=
  default 0 (m !! item).

Definition spec_increment (m : gmap string Z) (item : string) (quantity : Z)
    : gmap string Z :=
  <[item := spec_quantity_of m item + quantity]> m.

Definition spec_has_at_least (m : gmap string Z) (item : string) (required : Z) : bool :=
  bool_decide (required ≤ spec_quantity_of m item).

(** The abstraction function, and the invariant of the representation. *)
Definition inv_abs (self : InventoryManager) : gmap string Z :=
  pydict_map (inventory self).

Definition inventory_wf (self : InventoryManager) : Prop :=
  pydict_wf (inventory self).

#[export] Instance inventory_wf_dec self : Decision (inventory_wf self).
Proof. unfold inventory_wf. apply _. Defined.

(** The items in the order of the status listing. *)
Definition stocked_items (self : InventoryManager) : list string :=
  py_dict_keys (inventory self).

(** ** Reachable inventories, equivalence, sequences of updates *)

(** The inventories a program can build: a new one, and any inventory
    obtained from a reachable one by [update_inventory]. *)
Inductive inv_reachable : InventoryManager → Prop :=
  | reach_init : inv_reachable InventoryManager_init
  | reach_update self item quantity self' :
      inv_reachable self →
      update_inventory self item quantity = Ok self' →
      inv_reachable self'.

(** Two inventories are equivalent when they hold the same quantities; they
    may list their items in different orders. *)
Definition inv_equiv (a b : InventoryManager) : Prop := inv_abs a = inv_abs b.

(** The updates of a list, from left to right. *)
Fixpoint update_all (self : InventoryManager) (updates : list (string * Z))
    : result InventoryManager :=
  match updates with
  | [] => Ok self
  | (item, quantity) :: updates' =>
      self' ← update_inventory self item quantity;
      update_all self' updates'
  end.

(** What a list of updates adds to an item, and its abstract effect. *)
Definition total_of (item : string) (updates : list (string * Z)) : Z :=
  foldr (λ u acc, if decide (u.1 = item) then u.2 + acc else acc) 0 updates.

Definition spec_increment_all (m : gmap string Z) (updates : list (string * Z))
    : gmap string Z :=
  foldl (λ m u, spec_increment m u.1 u.2) m updates.

(** ** The methods implement the specification *)

Lemma quantity_of_abs self item :
  py_dict_get item 0 (inventory self) = spec_quantity_of (inv_abs self) item.
Proof. apply pydict_map_get. Qed.

(** [update_inventory] as a function: it cannot raise. *)
Lemma update_inventory_Ok self item quantity :
  update_inventory self item quantity =
    Ok {| inventory :=
            py_dict_setitem item (py_dict_get item 0 (inventory self) + quantity)
              (inventory self) |}.
Proof.
  unfold update_inventory, py_dict_contains, py_dict_getitem, py_dict_get.
  destruct (py_dict_lookup item (inventory self)); simpl; [done|].
  by rewrite Z.add_0_l.
Qed.

Lemma update_inventory_abs self item quantity self' :
  update_inventory self item quantity = Ok self' →
  inv_abs self' = spec_increment (inv_abs self) item quantity.
Proof.
  rewrite update_inventory_Ok. intros [= <-]. unfold inv_abs, spec_increment; simpl.
  by rewrite pydict_map_setitem, quantity_of_abs.
Qed.

Lemma check_inventory_abs self item required :
  check_inventory self item required = spec_has_at_least (inv_abs self) item required.
Proof.
  unfold check_inventory, spec_has_at_least. rewrite quantity_of_abs.
  destruct (Z.geb_spec (spec_quantity_of (inv_abs self) item) required).
  - symmetry. apply bool_decide_eq_true. lia.
  - symmetry. apply bool_decide_eq_false. lia.
Qed.

Lemma update_inventory_preserves_wf self item quantity self' :
  inventory_wf self → update_inventory self item quantity = Ok self' →
  inventory_wf self'.
Proof.
  rewrite update_inventory_Ok. intros Hwf [= <-]. unfold inventory_wf in *; simpl. auto with py.
Qed.

#[export] Hint Resolve update_inventory_preserves_wf : py.
#[export] Hint Extern 0 (inventory_wf InventoryManager_init) => apply py_dict_empty_wf : py.

(** ** Inventories that hold the same stock *)

#[export] Instance inv_equiv_equivalence : Equivalence inv_equiv.
Proof. unfold inv_equiv. split; [done|by intros ??|by intros ??? -> ->]. Qed.

#[export] Instance inv_abs_proper : Proper (inv_equiv ==> (=)) inv_abs.
Proof. by intros a b Hab. Qed.

#[export] Instance check_inventory_proper :
  Proper (inv_equiv ==> (=) ==> (=) ==> (=)) check_inventory.
Proof. intros a b Hab ? item -> ? required ->. by rewrite !check_inventory_abs, Hab. Qed.

#[export] Instance update_inventory_proper :
  Proper (inv_equiv ==> (=) ==> (=) ==> result_rel inv_equiv) update_inventory.
Proof.
  intros a b Hab ? item -> ? quantity ->. rewrite !update_inventory_Ok.
  apply result_rel_Ok. unfold inv_equiv.
  by rewrite !(update_inventory_abs _ item quantity _ (update_inventory_Ok _ _ _)), Hab.
Qed.

(** ** Sequences of updates *)

Lemma spec_quantity_of_increment m item quantity item' :
  spec_quantity_of (spec_increment m item quantity) item' =
  spec_quantity_of m item' + (if decide (item = item') then quantity else 0).
Proof.
  unfold spec_increment, spec_quantity_of. destruct (decide (item = item')) as [->|Hne].
  - by rewrite lookup_insert_eq.
  - rewrite lookup_insert_ne by done. lia.
Qed.

(** Increments of two items commute. *)
Lemma spec_increment_comm m item1 quantity1 item2 quantity2 :
  spec_increment (spec_increment m item1 quantity1) item2 quantity2 =
  spec_increment (spec_increment m item2 quantity2) item1 quantity1.
Proof.
  unfold spec_increment at 1 3. rewrite !spec_quantity_of_increment.
  destruct (decide (item1 = item2)) as [->|Hne].
  - rewrite decide_True by done. unfold spec_increment. rewrite !insert_insert_eq.
    f_equal. lia.
  - rewrite !decide_False, !Z.add_0_r by done. unfold spec_increment.
    by rewrite insert_insert_ne.
Qed.

Lemma spec_increment_all_Permutation updates updates' :
  updates ≡ₚ updates' →
  ∀ m, spec_increment_all m updates = spec_increment_all m updates'.
Proof.
  induction 1 as [|u l l' _ IH|u1 u2 l|l1 l2 l3 _ IH1 _ IH2]; intros m; simpl.
  - done.
  - apply IH.
  - by rewrite spec_increment_comm.
  - by rewrite IH1.
Qed.

Lemma update_all_abs updates : ∀ self,
  ∃ self', update_all self updates = Ok self' ∧
    inv_abs self' = spec_increment_all (inv_abs self) updates.
Proof.
  induction updates as [|[item quantity] updates IH]; intros self; simpl; [eauto|].
  rewrite update_inventory_Ok; simpl.
  destruct (IH {| inventory :=
    py_dict_setitem item (py_dict_get item 0 (inventory self) + quantity) (inventory self) |})
    as (self' & Hall & Habs).
  exists self'. split; [done|]. rewrite Habs.
  by rewrite (update_inventory_abs _ item quantity _ (update_inventory_Ok _ _ _)).
Qed.

Lemma update_all_app updates1 updates2 : ∀ self,
  update_all self (updates1 ++ updates2) =
  update_all self updates1 ≫= λ self', update_all self' updates2.
Proof.
  induction updates1 as [|[item quantity] updates1 IH]; intros self; simpl; [done|].
  rewrite update_inventory_Ok; simpl. apply IH.
Qed.

Lemma spec_quantity_of_increment_all updates item : ∀ m,
  spec_quantity_of (spec_increment_all m updates) item =
  spec_quantity_of m item + total_of item updates.
Proof.
  induction updates as [|[item' quantity] updates IH]; intros m; simpl; [lia|].
  rewrite IH, spec_quantity_of_increment. case_decide; lia.
Qed.

(** The reachable inventories are the results of sequences of updates of a
    new inventory. *)
Lemma inv_reachable_update_all self :
  inv_reachable self ↔ ∃ updates, update_all InventoryManager_init updates = Ok self.
Proof.
  split.
  - induction 1 as [|self item quantity self' _ [updates Hall] Hupd].
    + by exists [].
    + exists (updates ++ [(item, quantity)]). by rewrite update_all_app, Hall; simpl; rewrite Hupd.
  - intros [updates Hall]. revert self Hall.
    induction updates as [|[item quantity] updates IH] using rev_ind; intros self.
    + intros [= <-]. constructor.
    + rewrite update_all_app. intros (self1 & Hall & Hupd)%bind_Ok_inv.
      simpl in Hupd. rewrite update_inventory_Ok in Hupd. simpl in Hupd.
      eapply reach_update; [by apply IH|]. by rewrite update_inventory_Ok.
Qed.

(** ** Contracts of the methods *)

(** C4: [update_inventory] implements the abstract increment: it returns,
    and the map of the new inventory is the map of the old one with the
    quantity added to the item's stock, an absent item counting as 0. *)
Theorem update_inventory_refines self item quantity :
  ∃ self', update_inventory self item quantity = Ok self' ∧
    inv_abs self' = spec_increment (inv_abs self) item quantity.
Proof.
  rewrite update_inventory_Ok. eexists. split; [done|].
  apply update_inventory_abs, update_inventory_Ok.
Qed.

(** [self.inventory[item] += quantity] never raises [KeyError], since it
    is guarded by [item in self.inventory]: [update_inventory] raises
    nothing. *)
Lemma update_inventory_no_exception self item quantity e :
  update_inventory self item quantity ≠ Raise e.
Proof. by rewrite update_inventory_Ok. Qed.

(** C11: [check_inventory] implements the abstract test: it is true exactly
    when the stock of the item, 0 when it was never stocked, is at least
    the required quantity. *)
Theorem check_inventory_refines self item required :
  check_inventory self item required = spec_has_at_least (inv_abs self) item required ∧
  (check_inventory self item required = true ↔
   required ≤ py_dict_get item 0 (inventory self)).
Proof.
  split; [apply check_inventory_abs|].
  unfold check_inventory. rewrite Z.geb_leb. apply Z.leb_le.
Qed.

(** An update leaves the stock of every other item as it was. *)
Lemma update_inventory_other self item quantity self' item' :
  update_inventory self item quantity = Ok self' → item ≠ item' →
  py_dict_get item' 0 (inventory self') = py_dict_get item' 0 (inventory self).
Proof.
  rewrite update_inventory_Ok. intros [= <-] Hne. unfold py_dict_get; simpl.
  by rewrite py_dict_lookup_setitem_ne.
Qed.

(** An update adds the quantity to the stock of the item. *)
Lemma update_inventory_same self item quantity self' :
  update_inventory self item quantity = Ok self' →
  py_dict_get item 0 (inventory self') = py_dict_get item 0 (inventory self) + quantity.
Proof.
  rewrite update_inventory_Ok. intros [= <-]. unfold py_dict_get at 1; simpl.
  by rewrite py_dict_lookup_setitem_eq.
Qed.

(** What is stocked is read back: after [update_inventory] the status
    holds under the item its former stock plus the quantity, and what it
    holds under every other item is what it held before. *)
Lemma update_inventory_read_back self item quantity :
  ∃ self', update_inventory self item quantity = Ok self' ∧
    py_dict_getitem item (get_inventory_status self') =
      Ok (py_dict_get item 0 (get_inventory_status self) + quantity) ∧
    ∀ item', item' ≠ item →
      py_dict_lookup item' (get_inventory_status self') =
      py_dict_lookup item' (get_inventory_status self).
Proof.
  rewrite update_inventory_Ok. eexists. split; [done|].
  unfold get_inventory_status, py_dict_getitem; simpl. split.
  - by rewrite py_dict_lookup_setitem_eq.
  - intros item' Hne. by rewrite py_dict_lookup_setitem_ne.
Qed.

(** The status listing keeps the order in which items were first
    stocked: an update of a stocked item does not move it, and a new item
    goes to the end. *)
Lemma update_inventory_order self item quantity self' :
  update_inventory self item quantity = Ok self' →
  stocked_items self' =
    if bool_decide (item ∈ stocked_items self) then stocked_items self
    else stocked_items self ++ [item].
Proof.
  rewrite update_inventory_Ok. intros [= <-]. unfold stocked_items; simpl.
  case_bool_decide.
  - by apply py_dict_keys_setitem_present.
  - by apply py_dict_keys_setitem_absent.
Qed.


(** The status of an inventory that lists each item once is, up to
    order, the list of the entries of its abstract map. *)
Lemma get_inventory_status_refines self :
  inventory_wf self →
  py_dict_items (get_inventory_status self) ≡ₚ map_to_list (inv_abs self).
Proof. apply pydict_map_items. Qed.

(** A sequence of updates returns, and leaves for each item its
    previous stock plus the sum of the quantities the sequence adds to
    it. *)
Lemma update_all_quantity self updates :
  ∃ self', update_all self updates = Ok self' ∧
    ∀ item, py_dict_get item 0 (inventory self') =
            py_dict_get item 0 (inventory self) + total_of item updates.
Proof.
  destruct (update_all_abs updates self) as (self' & Hall & Habs).
  exists self'. split; [done|]. intros item.
  by rewrite !quantity_of_abs, Habs, spec_quantity_of_increment_all.
Qed.

(** C29: the order of the updates does not change the stock: the same
    updates applied in two orders to inventories that hold the same stock
    leave inventories that hold the same stock; only the order of the
    listing may differ. *)
Theorem update_all_Permutation self1 self2 updates1 updates2 :
  inv_equiv self1 self2 → updates1 ≡ₚ updates2 →
  result_rel inv_equiv (update_all self1 updates1) (update_all self2 updates2).
Proof.
  intros Hequiv Hperm.
  destruct (update_all_abs updates1 self1) as (a & -> & Ha).
  destruct (update_all_abs updates2 self2) as (b & -> & Hb).
  apply result_rel_Ok. unfold inv_equiv.
  by rewrite Ha, Hb, Hequiv, (spec_increment_all_Permutation _ _ Hperm).
Qed.

(** ** Scenarios *)

(** Adding 100 and then 0 to item_1 in a new inventory leaves 100
    there; 20 units of item_1 are then available, and one unit of
    item_3, which was never stocked, is not. *)
Lemma inventory_scenario :
  ∃ inv1 inv2,
    update_inventory InventoryManager_init "item_1" 100 = Ok inv1 ∧
    update_inventory inv1 "item_1" 0 = Ok inv2 ∧
    py_dict_items (get_inventory_status inv2) = [("item_1"%string, 100)] ∧
    check_inventory inv2 "item_1" 20 = true ∧
    check_inventory inv2 "item_3" 1 = false.
Proof. by do 2 eexists; split; [vm_compute|]. Qed.

(** Quantities are not checked for sign: an update by a negative
    quantity is accepted and can leave a negative stock, for which
    [check_inventory] answers false even when nothing is required. *)
Lemma update_inventory_negative :
  ∃ inv, update_inventory InventoryManager_init "item_1" (-5) = Ok inv ∧
    py_dict_get "item_1"%string 0 (inventory inv) = -5 ∧
    check_inventory inv "item_1" 0 = false.
Proof. by eexists; split; [vm_compute|]. Qed.

(** ** Witnesses *)


Lemma update_all_Permutation_witness :
  result_rel inv_equiv
    (update_all InventoryManager_init [("item_1"%string, 100); ("item_2"%string, 75)])
    (update_all InventoryManager_init [("item_2"%string, 75); ("item_1"%string, 100)]).
Proof. apply update_all_Permutation; [done|apply perm_swap]. Defined.
