(* ===== verification/InventoryDyn.v ===== *)
(** * The inventory manager on untyped quantities

    The methods of [InventoryManager] ([src/main.py], lines 37-52) do not
    check what they are given: [update_inventory] stores any object under a
    new item, and applies [+] to the stock of a known one;
    [check_inventory] applies [>=].  Here the quantities are objects
    ([pyobj]) and the operators are the ones of [PyObject], which raise
    [TypeError].  Item names stay strings.

    A [bool] quantity counts as the [int] 1 or 0 once the item is stocked
    ([update_inventory_dyn_decay]).

    [Inventory] is this model restricted to [int] quantities: [of_typed]
    embeds its inventories, and on them the methods below do what the typed
    methods do ([update_inventory_dyn_typed]).
    [stock_typed P] says that every stored quantity has a class that
    satisfies [P]; a stock of [int]s stays one under updates by [int]s, and
    no method raises on it. *)

From Stdlib Require Import Floats ZArith String.
From stdpp Require Import prelude strings.
From S2P Require Import Prelude PyBuiltins PyFloat PyObject PyDict Inventory.

#[local] Open Scope Z_scope.

(** ** The class *)

Record InventoryManager_dyn := {
  inventory_dyn : pydict string pyobj;
}.

(** [__init__] *)
Definition InventoryManager_init_dyn : InventoryManager_dyn :=
  {| inventory_dyn := py_dict_empty |}.

(** [update_inventory]: [self.inventory[item] += quantity] reads the entry,
    adds, and writes the sum; nothing is written when [+] raises. *)
Definition update_inventory_dyn (self : InventoryManager_dyn) (item : string)
    (quantity : pyobj) : result InventoryManager_dyn :=
  if py_dict_contains item (inventory_dyn self) then
    old ← py_dict_getitem item (inventory_dyn self);
    new ← py_add old quantity;
    mret {| inventory_dyn := py_dict_setitem item new (inventory_dyn self) |}
  else
    mret {| inventory_dyn := py_dict_setitem item quantity (inventory_dyn self) |}.

(** [get_inventory_status] *)
Definition get_inventory_status_dyn (self : InventoryManager_dyn)
    : pydict string pyobj :=
  inventory_dyn self.

(** [check_inventory]: [self.inventory.get(item, 0) >= required_quantity]. *)
Definition check_inventory_dyn (self : InventoryManager_dyn) (item : string)
    (required_quantity : pyobj) : result bool :=
  py_ge (py_dict_get item (OInt 0) (inventory_dyn self)) required_quantity.

(** ** Typing *)

(** Every stored quantity has a class that satisfies [P]. *)
Definition stock_typed (P : pytype → bool) (self : InventoryManager_dyn) : Prop :=
  Forall (λ entry, P (type_of entry.2) = true) (inventory_dyn self).

#[export] Instance stock_typed_dec P self : Decision (stock_typed P self).
Proof. unfold stock_typed. apply _. Defined.

Definition is_int (t : pytype) : bool := bool_decide (t = TInt).

(** A typed inventory as an untyped one. *)
Definition of_typed (self : InventoryManager) : InventoryManager_dyn :=
  {| inventory_dyn := prod_map id OInt <$> inventory self |}.

(** A stock of an [int] and a [float]. *)
Definition mixed_stock : InventoryManager_dyn :=
  {| inventory_dyn := [("item_1"%string, OInt 100); ("item_2"%string, OFloat 0.5)] |}.

(** ** Dictionaries of typed entries *)

Section typed_entries.
Context (P : pytype → bool).
Implicit Types (d : pydict string pyobj) (v : pyobj).

Lemma typed_lookup d item v :
  Forall (λ entry, P (type_of entry.2) = true) d →
  py_dict_lookup item d = Some v → P (type_of v) = true.
Proof.
  intros Hd Hv%py_dict_lookup_Some_elem_of.
  by apply (proj1 (Forall_forall _ _) Hd) in Hv.
Qed.

Lemma typed_setitem d item v :
  Forall (λ entry, P (type_of entry.2) = true) d → P (type_of v) = true →
  Forall (λ entry, P (type_of entry.2) = true) (py_dict_setitem item v d).
Proof.
  intros Hd Hv. induction Hd as [|[k w] d Hw Hd IH]; simpl.
  - by repeat constructor.
  - case_decide; constructor; done.
Qed.
End typed_entries.

(** ** The embedding of typed inventories *)

Section of_typed.
Implicit Types (d : pydict string Z) (item : string).

Lemma lookup_of_typed d item :
  py_dict_lookup item (prod_map id OInt <$> d) = OInt <$> py_dict_lookup item d.
Proof.
  induction d as [|[k z] d IH]; [done|]. rewrite fmap_cons. simpl. by case_decide.
Qed.

Lemma setitem_of_typed d item z :
  py_dict_setitem item (OInt z) (prod_map id OInt <$> d) =
  prod_map id OInt <$> py_dict_setitem item z d.
Proof.
  induction d as [|[k z'] d IH]; [done|]. rewrite fmap_cons. simpl.
  case_decide; [done|]. rewrite fmap_cons. simpl. f_equal. exact IH.
Qed.

Lemma of_typed_int self : stock_typed is_int (of_typed self).
Proof.
  unfold stock_typed, of_typed; simpl. apply Forall_fmap, Forall_true. by intros [].
Qed.
End of_typed.

(** ** The methods *)

(** [update_inventory] by cases on the stock of the item. *)
Lemma update_inventory_dyn_new self item quantity :
  py_dict_lookup item (inventory_dyn self) = None →
  update_inventory_dyn self item quantity =
    Ok {| inventory_dyn := py_dict_setitem item quantity (inventory_dyn self) |}.
Proof. unfold update_inventory_dyn, py_dict_contains. by intros ->. Qed.

Lemma update_inventory_dyn_known self item quantity old :
  py_dict_lookup item (inventory_dyn self) = Some old →
  update_inventory_dyn self item quantity =
    (λ new, {| inventory_dyn := py_dict_setitem item new (inventory_dyn self) |})
      <$> py_add old quantity.
Proof.
  unfold update_inventory_dyn, py_dict_contains, py_dict_getitem. intros ->.
  simpl. by destruct (py_add old quantity).
Qed.

(** For an item in stock, a [bool] quantity is added as the [int] it is;
    for a new item the [bool] itself is stored. *)
Lemma update_inventory_dyn_decay self item quantity old :
  py_dict_lookup item (inventory_dyn self) = Some old →
  update_inventory_dyn self item quantity = update_inventory_dyn self item (decay quantity).
Proof.
  intros Hold. rewrite !(update_inventory_dyn_known _ _ _ _ Hold).
  rewrite py_add_decay, (py_add_decay old (decay quantity)). by destruct quantity.
Qed.

(** An update that returns keeps the classes of a stock closed under the
    typing rule of [+]. *)
Lemma update_inventory_dyn_preserves (P : pytype → bool) self item quantity self' :
  (∀ s t u, P s = true → P t = true → add_type s t = Some u → P u = true) →
  stock_typed P self → P (type_of quantity) = true →
  update_inventory_dyn self item quantity = Ok self' →
  stock_typed P self'.
Proof.
  intros Hclosed Hself Hq.
  destruct (py_dict_lookup item (inventory_dyn self)) as [old|] eqn:Hold.
  - rewrite (update_inventory_dyn_known _ _ _ _ Hold).
    intros (new & Hadd%py_add_type & ->)%fmap_Ok_inv.
    apply typed_setitem; [done|]. eapply Hclosed; [|done..].
    by eapply typed_lookup.
  - rewrite (update_inventory_dyn_new _ _ _ Hold). intros [= <-].
    by apply typed_setitem.
Qed.

(** C18: a stock of [int]s updated by an [int] is a stock of [int]s, and the
    update does not raise. *)
Theorem update_inventory_dyn_int self item z :
  stock_typed is_int self →
  ∃ self', update_inventory_dyn self item (OInt z) = Ok self' ∧
    stock_typed is_int self'.
Proof.
  intros Hself.
  assert (∃ self', update_inventory_dyn self item (OInt z) = Ok self') as [self' Hup].
  { destruct (py_dict_lookup item (inventory_dyn self)) as [old|] eqn:Hold.
    - rewrite (update_inventory_dyn_known _ _ _ _ Hold).
      apply (typed_lookup is_int) in Hold; [|done].
      destruct old; try done. simpl. eauto.
    - rewrite (update_inventory_dyn_new _ _ _ Hold). eauto. }
  exists self'. split; [done|].
  apply (update_inventory_dyn_preserves is_int self item (OInt z)); [|done..].
  by intros [] [] u ?? [= <-].
Qed.

(** On a stock of numbers updated by a number, [update_inventory]
    returns a stock of numbers, or raises [OverflowError] because an [int]
    is too large for the [float] it is added to; it never raises
    [TypeError]. *)
Lemma update_inventory_dyn_numeric self item quantity :
  stock_typed numeric self → numeric (type_of quantity) = true →
  (∃ self', update_inventory_dyn self item quantity = Ok self' ∧
     stock_typed numeric self') ∨
  update_inventory_dyn self item quantity = Raise OverflowError.
Proof.
  intros Hself Hq.
  destruct (update_inventory_dyn self item quantity) as [self'|e] eqn:Hup.
  - left. exists self'. split; [done|].
    apply (update_inventory_dyn_preserves numeric self item quantity); [|done..].
    by intros [] [] u ?? [= <-].
  - right. destruct (py_dict_lookup item (inventory_dyn self)) as [old|] eqn:Hold.
    + rewrite (update_inventory_dyn_known _ _ _ _ Hold) in Hup.
      apply fmap_Raise_inv in Hup. apply (typed_lookup numeric) in Hold; [|done].
      destruct (py_add_progress old quantity) as [[c Hc]|Hc]; [|congruence..].
      by destruct old, quantity.
    + by rewrite (update_inventory_dyn_new _ _ _ Hold) in Hup.
Qed.

(** C34: [update_inventory] raises [TypeError] exactly when the item is in
    stock with a quantity whose class [+] does not accept together with
    the class of the argument. *)
Theorem update_inventory_dyn_TypeError self item quantity :
  update_inventory_dyn self item quantity = Raise TypeError ↔
  ∃ old, py_dict_lookup item (inventory_dyn self) = Some old ∧
    add_type (type_of old) (type_of quantity) = None.
Proof.
  destruct (py_dict_lookup item (inventory_dyn self)) as [old|] eqn:Hold.
  - rewrite (update_inventory_dyn_known _ _ _ _ Hold), fmap_Raise_inv, py_add_TypeError.
    split; [eauto|]. by intros (? & [= <-] & ?).
  - rewrite (update_inventory_dyn_new _ _ _ Hold). split; [done|]. by intros (? & ? & _).
Qed.

(** [check_inventory] raises exactly [TypeError], and exactly when the
    class of the stock (of the [int] 0 for an item that is not stocked) is
    not comparable with the class of the required quantity. *)
Lemma check_inventory_dyn_Raise self item required e :
  check_inventory_dyn self item required = Raise e ↔
  e = TypeError ∧
  comparable (type_of (py_dict_get item (OInt 0) (inventory_dyn self)))
    (type_of required) = false.
Proof. apply py_ge_Raise. Qed.

(** [check_inventory] with an [int] on a typed inventory returns the
    typed answer. *)
Lemma check_inventory_dyn_typed self item required :
  check_inventory_dyn (of_typed self) item (OInt required) =
    Ok (check_inventory self item required).
Proof.
  unfold check_inventory_dyn, check_inventory, py_dict_get. simpl.
  rewrite lookup_of_typed. by destruct (py_dict_lookup item (inventory self)).
Qed.

(** C22: on the inventories of the typed model the methods do what the
    typed methods do: [update_inventory] with an [int] gives the embedding
    of the typed update, and [check_inventory] with an [int] returns the
    typed answer. *)
Theorem update_inventory_dyn_typed self item z required :
  update_inventory_dyn (of_typed self) item (OInt z) =
    of_typed <$> update_inventory self item z ∧
  check_inventory_dyn (of_typed self) item (OInt required) =
    Ok (check_inventory self item required).
Proof.
  split; [|apply check_inventory_dyn_typed].
  rewrite update_inventory_Ok. unfold py_dict_get. simpl.
  destruct (py_dict_lookup item (inventory self)) as [old|] eqn:Hold.
  - erewrite update_inventory_dyn_known
      by (simpl; rewrite lookup_of_typed, Hold; done).
    simpl. unfold of_typed. simpl. by rewrite setitem_of_typed.
  - rewrite update_inventory_dyn_new by (simpl; by rewrite lookup_of_typed, Hold).
    unfold of_typed. simpl. by rewrite setitem_of_typed.
Qed.

(** A quantity of any class is stored for a new item without a check;
    when it is a string, the next availability check of the item against a
    number raises [TypeError]. *)
Lemma update_inventory_dyn_unchecked self item s z :
  py_dict_lookup item (inventory_dyn self) = None →
  ∃ self', update_inventory_dyn self item (OStr s) = Ok self' ∧
    check_inventory_dyn self' item (OInt z) = Raise TypeError.
Proof.
  intros Hnew. rewrite (update_inventory_dyn_new _ _ _ Hnew). eexists. split; [done|].
  unfold check_inventory_dyn, py_dict_get. simpl.
  by rewrite py_dict_lookup_setitem_eq.
Qed.

(** ** Witnesses *)

Lemma update_inventory_dyn_int_witness :
  ∃ self', update_inventory_dyn
      {| inventory_dyn := [("item_1"%string, OInt 100); ("item_2"%string, OInt 75)] |}
      "item_1" (OInt 5) = Ok self' ∧ stock_typed is_int self'.
Proof. apply update_inventory_dyn_int. by apply (bool_decide_unpack _). Defined.

