(* ===== verification/InventoryHeap.v ===== *)
(** * The inventory on the heap

    [self.inventory] is a [dict] object ([src/main.py], line 39): the
    methods of [InventoryManager] change it in place, and
    [get_inventory_status] (lines 47-48) returns the object itself, not a
    copy.  Here the dictionary lives in the heap of [PyHeap], as the list
    of its entries, and the manager holds its reference.

    The methods are shown to do on the object what the functional model of
    [Inventory] computes, and to change no other object.  Because the
    status is the manager's own dictionary, a caller that writes to it
    changes the stock behind the manager's back; two managers never share
    a dictionary. *)

From Stdlib Require Import ZArith String.
From stdpp Require Import prelude gmap strings.
From S2P Require Import Prelude PyBuiltins PyIO PyHeap PyDict Inventory.

#[local] Open Scope Z_scope.

(** ** Dictionary objects *)

(** The heap holds the entries of each dictionary. *)
Definition dstm (B : Type) : Type := stm (world (string * Z)) B.

(** [k in d] *)
Definition py_dict_contains_ref (d : ref) (k : string) : dstm bool :=
  entries ← list_load d; mret (py_dict_contains k entries).

(** [d[k]] *)
Definition py_dict_getitem_ref (d : ref) (k : string) : dstm Z :=
  entries ← list_load d; stm_lift (py_dict_getitem k entries).

(** [d[k] = v] *)
Definition py_dict_setitem_ref (d : ref) (k : string) (v : Z) : dstm () :=
  entries ← list_load d; list_store d (py_dict_setitem k v entries).

(** [d.get(k, default)] *)
Definition py_dict_get_ref (d : ref) (k : string) (default : Z) : dstm Z :=
  entries ← list_load d; mret (py_dict_get k default entries).

(** ** The class *)

(** A manager object: its attribute [inventory] names a dictionary. *)
Record InventoryObj := {
  inventory_ref : ref;
}.

(** [InventoryManager()]: [self.inventory = {}] makes a new dictionary. *)
Definition InventoryObj_init : dstm InventoryObj :=
  d ← list_alloc py_dict_empty; mret {| inventory_ref := d |}.

Definition update_inventory_h (self : InventoryObj) (item : string) (quantity : Z)
    : dstm () :=
  present ← py_dict_contains_ref (inventory_ref self) item;
  if present : bool then
    old ← py_dict_getitem_ref (inventory_ref self) item;
    py_dict_setitem_ref (inventory_ref self) item (old + quantity)
  else
    py_dict_setitem_ref (inventory_ref self) item quantity.

(** [return self.inventory]: the reference. *)
Definition get_inventory_status_h (self : InventoryObj) : dstm ref :=
  mret (inventory_ref self).

Definition check_inventory_h (self : InventoryObj) (item : string)
    (required_quantity : Z) : dstm bool :=
  stock ← py_dict_get_ref (inventory_ref self) item 0;
  mret (stock >=? required_quantity).

(** ** Specification *)

(** The heap holds the inventory [inv] at the manager's reference. *)
Definition holds (self : InventoryObj) (w : world (string * Z))
    (inv : InventoryManager) : Prop :=
  w_heap w !! inventory_ref self = Some (inventory inv).

(** Nothing but the dictionary at [d] differs between the two worlds. *)
Definition only_at (d : ref) (w w' : world (string * Z)) : Prop :=
  w_out w' = w_out w ∧ ∀ b, b ≠ d → w_heap w' !! b = w_heap w !! b.

(** A caller that takes the status and assigns to one of its entries. *)
Definition tamper (self : InventoryObj) (item : string) (quantity : Z) : dstm () :=
  status ← get_inventory_status_h self;
  py_dict_setitem_ref status item quantity.

(** ** The dictionary operations *)

Section dict_objects.
Implicit Types (w : world (string * Z)) (d : ref) (entries : pydict string Z).

Lemma py_dict_contains_ref_Some d k entries w :
  w_heap w !! d = Some entries →
  py_dict_contains_ref d k w = Some (Ok (py_dict_contains k entries), w).
Proof.
  intros Hd. unfold py_dict_contains_ref.
  by rewrite (stm_bind_Ok _ _ _ _ _ (list_load_Some _ _ _ Hd)).
Qed.

Lemma py_dict_getitem_ref_Some d k entries w :
  w_heap w !! d = Some entries →
  py_dict_getitem_ref d k w = Some (py_dict_getitem k entries, w).
Proof.
  intros Hd. unfold py_dict_getitem_ref.
  by rewrite (stm_bind_Ok _ _ _ _ _ (list_load_Some _ _ _ Hd)).
Qed.

Lemma py_dict_setitem_ref_Some d k v entries w :
  w_heap w !! d = Some entries →
  py_dict_setitem_ref d k v w =
    Some (Ok (), World (<[d := py_dict_setitem k v entries]> (w_heap w)) (w_out w)).
Proof.
  intros Hd. unfold py_dict_setitem_ref.
  by rewrite (stm_bind_Ok _ _ _ _ _ (list_load_Some _ _ _ Hd)).
Qed.

Lemma py_dict_get_ref_Some d k default entries w :
  w_heap w !! d = Some entries →
  py_dict_get_ref d k default w = Some (Ok (py_dict_get k default entries), w).
Proof.
  intros Hd. unfold py_dict_get_ref.
  by rewrite (stm_bind_Ok _ _ _ _ _ (list_load_Some _ _ _ Hd)).
Qed.
End dict_objects.

(** ** The methods *)

Section methods.
Context (self : InventoryObj).
Implicit Types (w : world (string * Z)) (inv : InventoryManager).

(** The update as one assignment to the dictionary. *)
Lemma update_inventory_h_Some inv item quantity w :
  holds self w inv →
  update_inventory_h self item quantity w =
    Some (Ok (),
      World (<[inventory_ref self :=
                py_dict_setitem item (py_dict_get item 0 (inventory inv) + quantity)
                  (inventory inv)]> (w_heap w)) (w_out w)).
Proof.
  intros Hinv. unfold update_inventory_h.
  rewrite (stm_bind_Ok _ _ _ _ _ (py_dict_contains_ref_Some _ item _ _ Hinv)).
  unfold py_dict_contains, py_dict_get.
  destruct (py_dict_lookup item (inventory inv)) as [old|] eqn:Hold.
  - assert (py_dict_getitem_ref (inventory_ref self) item w = Some (Ok old, w)) as Hget.
    { rewrite (py_dict_getitem_ref_Some _ _ _ _ Hinv). unfold py_dict_getitem.
      by rewrite Hold. }
    simpl. rewrite (stm_bind_Ok _ _ _ _ _ Hget). by apply py_dict_setitem_ref_Some.
  - simpl. rewrite Z.add_0_l. by apply py_dict_setitem_ref_Some.
Qed.

Lemma check_inventory_h_Some inv item required w :
  holds self w inv →
  check_inventory_h self item required w =
    Some (Ok (check_inventory inv item required), w).
Proof.
  intros Hinv. unfold check_inventory_h.
  by rewrite (stm_bind_Ok _ _ _ _ _ (py_dict_get_ref_Some _ item 0 _ _ Hinv)).
Qed.

(** The caller's assignment goes to the manager's dictionary. *)
Lemma tamper_Some inv item quantity w :
  holds self w inv →
  tamper self item quantity w =
    Some (Ok (),
      World (<[inventory_ref self := py_dict_setitem item quantity (inventory inv)]>
               (w_heap w)) (w_out w)).
Proof. intros Hinv. by apply py_dict_setitem_ref_Some. Qed.

(** C23: on the heap [update_inventory] does what the functional model
    computes: it returns, the manager's dictionary then holds the updated
    inventory, and no other object and no output has changed. *)
Theorem update_inventory_h_refines inv item quantity w :
  holds self w inv →
  ∃ inv' w',
    update_inventory inv item quantity = Ok inv' ∧
    update_inventory_h self item quantity w = Some (Ok (), w') ∧
    holds self w' inv' ∧ only_at (inventory_ref self) w w'.
Proof.
  intros Hinv. rewrite update_inventory_Ok, (update_inventory_h_Some _ _ _ _ Hinv).
  do 2 eexists. split_and!; [done|done| |split; [done|]].
  - unfold holds. simpl. by rewrite lookup_insert_eq.
  - intros b Hb. simpl. by rewrite lookup_insert_ne.
Qed.

(** C24: the status is the manager's own dictionary: when a caller assigns
    to an entry of the status it was given, the stock changes without a
    call of [update_inventory], and the next check answers for the
    caller's value. *)
Theorem get_inventory_status_h_alias inv item quantity required w :
  holds self w inv →
  ∃ w',
    (tamper self item quantity ≫= λ _, check_inventory_h self item required) w =
      Some (Ok (quantity >=? required), w') ∧
    holds self w' {| inventory := py_dict_setitem item quantity (inventory inv) |}.
Proof.
  intros Hinv. eexists. split.
  - rewrite (stm_bind_Ok _ _ _ _ _ (tamper_Some _ item quantity _ Hinv)).
    rewrite (check_inventory_h_Some
      {| inventory := py_dict_setitem item quantity (inventory inv) |})
      by (unfold holds; simpl; by rewrite lookup_insert_eq).
    unfold check_inventory, py_dict_get. simpl. by rewrite py_dict_lookup_setitem_eq.
  - unfold holds. simpl. by rewrite lookup_insert_eq.
Qed.

(** A new manager has a dictionary of its own: it is empty, it is not
    the dictionary of a manager that exists, and that manager keeps its
    stock. *)
Lemma InventoryObj_init_separate inv w :
  holds self w inv →
  ∃ other w',
    InventoryObj_init w = Some (Ok other, w') ∧
    inventory_ref other ≠ inventory_ref self ∧
    holds other w' InventoryManager_init ∧ holds self w' inv.
Proof.
  intros Hinv. destruct (list_alloc_fresh (py_dict_empty : pydict string Z) w)
    as (d & Halloc & Hfresh).
  assert (d ≠ inventory_ref self) as Hne
    by (intros ->; unfold holds, pydict in Hinv; congruence).
  exists {| inventory_ref := d |}. eexists. split_and!.
  - unfold InventoryObj_init. by rewrite (stm_bind_Ok _ _ _ _ _ Halloc).
  - done.
  - unfold holds. simpl. by rewrite lookup_insert_eq.
  - unfold holds. simpl. by rewrite lookup_insert_ne.
Qed.
End methods.

(** ** Witnesses *)

Lemma update_inventory_h_refines_witness :
  ∃ inv' w',
    update_inventory {| inventory := [("item_1"%string, 100)] |} "item_1" 5 = Ok inv' ∧
    update_inventory_h {| inventory_ref := Ref 1 |} "item_1" 5
      (World {[ Ref 1 := [("item_1"%string, 100)] ]} []) = Some (Ok (), w') ∧
    holds {| inventory_ref := Ref 1 |} w' inv' ∧
    only_at (Ref 1) (World {[ Ref 1 := [("item_1"%string, 100)] ]} []) w'.
Proof. apply update_inventory_h_refines. by vm_compute. Defined.

Lemma get_inventory_status_h_alias_witness :
  ∃ w',
    (tamper {| inventory_ref := Ref 1 |} "item_1" 0 ≫=
       λ _, check_inventory_h {| inventory_ref := Ref 1 |} "item_1" 20)
      (World {[ Ref 1 := [("item_1"%string, 100)] ]} []) = Some (Ok (0 >=? 20), w') ∧
    holds {| inventory_ref := Ref 1 |} w'
      {| inventory := py_dict_setitem "item_1" 0 [("item_1"%string, 100)] |}.
Proof.
  apply (get_inventory_status_h_alias _ {| inventory := [("item_1"%string, 100)] |}).
  by vm_compute.
Defined.

