(* ===== verification/Simulation.v ===== *)
(** * The driver

    [simulate_deliveries] ([src/main.py], lines 54-92).  The function is a
    sequence of four blocks, modelled one
    definition each: the route block (a [try] around the planner call and
    the listing of the route), the stocking of the inventory, the
    availability check (a second [try]) and the status listing.  Each is a
    [prog]: the lines written and the way the block ended.

    The blocks are parameterised by what the function binds before them
    (the planner and the start location, the inventory), so that their
    contracts are stated for every planner and every inventory; the
    function itself instantiates them with the values of the source.

    [check_block_dyn] is the availability check on an inventory of untyped
    quantities ([InventoryDyn]): there the comparison can raise, and the
    handler of the second [try] runs. *)

From Stdlib Require Import Floats ZArith String.
From stdpp Require Import prelude strings pretty.
From S2P Require Import Prelude PyBuiltins PyFloat PyRepr PyObject PyIO PyDict RoutePlanner.
From S2P Require Import RouteBounds.
From S2P Require Import Inventory InventoryDyn.

Set Warnings "-inexact-float".
#[local] Open Scope string_scope.
#[local] Open Scope list_scope.

(** ** Lines *)

(** [{loc}] for a location: a tuple of two floats. *)
Definition show_location (loc : location) : pyval :=
  VTuple loc.1 loc.2.

Definition banner_line : line := [Lit "Simulating Smart Delivery System..."].
Definition route_header_line : line := [Lit "Optimal route found:"].
Definition delivery_line (loc : location) : line :=
  [Lit "Delivery to location: "; Fmt (show_location loc)].
Definition route_failure_line (e : exn) : line :=
  [Lit "Failed to find the route: "; Fmt (VExn e)].
Definition available_line (required_quantity : Z) (required_item : string) : line :=
  [Fmt (VInt required_quantity); Lit " of "; Fmt (VStr required_item);
   Lit " is available for delivery."].
Definition insufficient_line (required_item : string) : line :=
  [Lit "Insufficient "; Fmt (VStr required_item); Lit " in inventory."].
Definition check_failure_line (e : exn) : line :=
  [Lit "Error checking inventory: "; Fmt (VExn e)].
Definition status_header_line : line := [Lit "Current Inventory Status:"].
Definition status_line (entry : string * Z) : line :=
  [Fmt (VStr entry.1); Lit ": "; Fmt (VInt entry.2); Lit " units"].

(** ** Blocks *)

(** The first [try] statement: plan, announce, list the stops. *)
Definition route_block (planner : RoutePlanner) (start_location : location) : prog () :=
  prog_try
    (route ← run_io (find_optimal_route planner start_location);
     _ ← run_io (print route_header_line);
     for_each route (λ loc, run_io (print (delivery_line loc))))
    (λ e, run_io (print (route_failure_line e))).

(** A new inventory and its two updates. *)
Definition stock_block : prog InventoryManager :=
  let inventory := InventoryManager_init in
  inventory ← run_result (update_inventory inventory "item_1" 100);
  run_result (update_inventory inventory "item_2" 75).

(** The second [try] statement: is the required quantity in stock? *)
Definition check_block (inventory : InventoryManager) : prog () :=
  prog_try
    (let required_item := "item_1" in
     let required_quantity := 20%Z in
     if check_inventory inventory required_item required_quantity
     then run_io (print (available_line required_quantity required_item))
     else run_io (print (insufficient_line required_item)))
    (λ e, run_io (print (check_failure_line e))).

(** The status listing: a header, then a line per item in the order of the
    dictionary. *)
Definition status_block (inventory : InventoryManager) : prog () :=
  _ ← run_io (print status_header_line);
  let status := get_inventory_status inventory in
  for_each (py_dict_items status) (λ entry, run_io (print (status_line entry))).

(** What [simulate_deliveries] does once the planner and the start location
    are bound. *)
Definition simulate_deliveries_body (planner : RoutePlanner) (start_location : location)
    : prog () :=
  _ ← route_block planner start_location;
  inventory ← stock_block;
  _ ← check_block inventory;
  status_block inventory.

Definition simulate_deliveries : prog () :=
  _ ← run_io (print banner_line);
  simulate_deliveries_body planner start_location.

(** The second [try] statement on an inventory of untyped quantities: the
    comparison of [check_inventory] may raise, and the handler prints what
    it raised. *)
Definition check_block_dyn (inventory : InventoryManager_dyn) : prog () :=
  prog_try
    (let required_item := "item_1" in
     let required_quantity := 20%Z in
     available ←
       run_result (check_inventory_dyn inventory required_item (OInt required_quantity));
     if available : bool
     then run_io (print (available_line required_quantity required_item))
     else run_io (print (insufficient_line required_item)))
    (λ e, run_io (print (check_failure_line e))).

(** ** Specification *)

(** The lines [simulate_deliveries] writes after the route block: they do
    not depend on the planner. *)
Definition inventory_report : list line :=
  [ available_line 20 "item_1";
    status_header_line;
    status_line ("item_1", 100%Z);
    status_line ("item_2", 75%Z) ].

(** ** Lemmas on the blocks *)

Lemma route_block_eq planner start_location :
  route_block planner start_location =
  Prog (io_out (find_optimal_route planner start_location) ++
        route_header_line :: (delivery_line <$> io_val (find_optimal_route planner start_location)))
       (Ok ()).
Proof.
  unfold route_block. by autorewrite with py_rw.
Qed.

Lemma stock_block_eq :
  stock_block = Prog [] (Ok {| inventory := [("item_1", 100%Z); ("item_2", 75%Z)] |}).
Proof. done. Qed.

Lemma check_block_eq inventory :
  check_block inventory =
  Prog [if check_inventory inventory "item_1" 20
        then available_line 20 "item_1" else insufficient_line "item_1"] (Ok ()).
Proof. unfold check_block. by destruct (check_inventory _ _ _). Qed.

Lemma status_block_eq inventory :
  status_block inventory =
  Prog (status_header_line :: (status_line <$> py_dict_items (get_inventory_status inventory)))
       (Ok ()).
Proof. unfold status_block. by autorewrite with py_rw. Qed.

Lemma simulate_deliveries_body_eq planner start_location :
  simulate_deliveries_body planner start_location =
  Prog (io_out (find_optimal_route planner start_location) ++
        route_header_line ::
        (delivery_line <$> io_val (find_optimal_route planner start_location)) ++
        inventory_report)
       (Ok ()).
Proof.
  unfold simulate_deliveries_body.
  rewrite route_block_eq, stock_block_eq, prog_bind_Ok, prog_bind_Ok. simpl.
  by rewrite <-app_assoc.
Qed.


(** The planner writes nothing but its error line. *)
Lemma find_optimal_route_out planner start_location l :
  l ∈ io_out (find_optimal_route planner start_location) → l = error_line OverflowError.
Proof.
  destruct (find_optimal_route_outcome planner start_location); simpl.
  - by intros ?%elem_of_nil.
  - by intros ?%list_elem_of_singleton.
Qed.

(** ** Contracts of the driver *)

(** The run of the program: the banner, the route from San Francisco
    through Los Angeles, Houston, Chicago and New York, the availability
    of item_1, and the status of the two items; no exception escapes. *)
Lemma simulate_deliveries_output :
  simulate_deliveries = Prog
    ([ banner_line; route_header_line ] ++
     (delivery_line <$>
        [ (37.7749, -122.4194); (34.0522, -118.2437); (29.7604, -95.3698);
          (41.8781, -87.6298); (40.7128, -74.0060) ]%float) ++
     [ available_line 20 "item_1"; status_header_line;
       status_line ("item_1", 100%Z); status_line ("item_2", 75%Z) ])
    (Ok ()).
Proof. vm_compute. reflexivity. Qed.

(** C31: whatever the planner and the start location, no exception escapes
    [simulate_deliveries], and the inventory report is written after the
    route block. *)
Theorem simulate_deliveries_body_no_exception planner start_location :
  prog_res (simulate_deliveries_body planner start_location) = Ok () ∧
  ∃ route_lines,
    prog_out (simulate_deliveries_body planner start_location) =
      route_lines ++ inventory_report.
Proof.
  rewrite simulate_deliveries_body_eq. simpl. split; [done|].
  eexists (_ ++ _ :: _). by rewrite <-app_assoc.
Qed.

(** C40: the two [except] clauses of [simulate_deliveries] are never
    entered: neither of their messages is ever written. *)
Theorem simulate_deliveries_handlers_unreachable planner start_location e :
  (route_failure_line e ∉ prog_out (simulate_deliveries_body planner start_location)) ∧
  (check_failure_line e ∉ prog_out (simulate_deliveries_body planner start_location)).
Proof.
  rewrite simulate_deliveries_body_eq; simpl.
  pose proof (find_optimal_route_out planner start_location) as Hout.
  unfold inventory_report.
  split; intros Hin; revert Hin.
  all: rewrite elem_of_app, elem_of_cons, elem_of_app, list_elem_of_fmap, !elem_of_cons,
    elem_of_nil.
  all: intros [?%Hout|[?|[(? & ? & _)|[?|[?|[?|[?|[]]]]]]]]; done.
Qed.

(** C32: when the planner fails, the route block writes the planner's
    error line and then still announces a route, with no stop listed. *)
Theorem route_block_after_failure planner start_location e :
  find_optimal_route_body planner start_location = Raise e →
  route_block planner start_location =
    Prog [error_line e; route_header_line] (Ok ()).
Proof.
  intros Hbody. rewrite route_block_eq. unfold find_optimal_route. by rewrite Hbody.
Qed.

(** When every distance the planner may need is defined, the route
    block announces the route and lists the start location followed by
    each location of the planner once, in nearest-neighbour order. *)
Lemma route_block_deliveries planner start_location :
  distances_defined planner (start_location :: locations planner) (locations planner) →
  ∃ r, greedy_route (calculate_distance planner) start_location (locations planner) r ∧
    r ≡ₚ locations planner ∧
    route_block planner start_location =
      Prog (route_header_line :: delivery_line start_location :: (delivery_line <$> r)) (Ok ()).
Proof.
  intros (route & Hbody)%find_optimal_route_body_total.
  destruct (find_optimal_route_body_greedy _ _ _ Hbody) as (r & -> & Hr).
  exists r. split_and!; [done|by eapply greedy_route_Permutation|].
  rewrite route_block_eq. unfold find_optimal_route. by rewrite Hbody.
Qed.

(** On latitudes and longitudes the route block lists the start and every
    location: the planner's error line is not written. *)
Lemma route_block_geographic planner start_location :
  geographic start_location → Forall geographic (locations planner) →
  ∃ r, r ≡ₚ locations planner ∧
    route_block planner start_location =
      Prog (route_header_line :: delivery_line start_location :: (delivery_line <$> r)) (Ok ()).
Proof.
  intros Hstart Hlocs.
  destruct (route_block_deliveries planner start_location) as (r & _ & Hperm & Hblock);
    [by apply distances_defined_geographic|eauto].
Qed.

(** C16: the run of the driver for any planner and start whose coordinates
    are all below [2 ^ k] in magnitude, for a [k] up to 508: it writes the
    header, a delivery line for the start and then one for each location
    of the planner in the order of the greedy tour, and after them the
    four lines of the inventory report; no error line is written and no
    exception escapes. *)
Theorem simulate_deliveries_body_bounded planner start_location k :
  (0 ≤ k ≤ 508)%Z → coordinates_below k start_location →
  Forall (coordinates_below k) (locations planner) →
  ∃ r, greedy_route (calculate_distance planner) start_location (locations planner) r ∧
    r ≡ₚ locations planner ∧
    simulate_deliveries_body planner start_location =
      Prog (route_header_line :: delivery_line start_location ::
              (delivery_line <$> r) ++ inventory_report)
           (Ok ()).
Proof.
  intros Hk Hstart Hlocs.
  destruct (find_optimal_route_body_total planner start_location) as [route Hbody];
    [by apply (distances_defined_below planner k Hk); [constructor|]|].
  destruct (find_optimal_route_body_greedy _ _ _ Hbody) as (r & -> & Hr).
  exists r. split_and!; [done|by eapply greedy_route_Permutation|].
  rewrite simulate_deliveries_body_eq. unfold find_optimal_route, try_except.
  by rewrite Hbody.
Qed.

(** The availability check prints that the required quantity is
    available exactly when the abstract inventory holds at least 20 units
    of item_1, and that it is insufficient otherwise. *)
Lemma check_block_refines inventory :
  check_block inventory =
    Prog [if spec_has_at_least (inv_abs inventory) "item_1" 20
          then available_line 20 "item_1" else insufficient_line "item_1"] (Ok ()).
Proof. by rewrite check_block_eq, check_inventory_abs. Qed.

(** Stocking an item that was not stocked adds one line at the end of
    the status listing; the lines before it are unchanged. *)
Lemma status_block_new_item inv item quantity inv' :
  update_inventory inv item quantity = Ok inv' →
  item ∉ stocked_items inv →
  prog_out (status_block inv') =
    prog_out (status_block inv) ++ [status_line (item, quantity)].
Proof.
  rewrite update_inventory_Ok. intros [= <-] Hnew. rewrite !status_block_eq; simpl.
  unfold get_inventory_status, py_dict_items; simpl.
  assert (py_dict_lookup item (inventory inv) = None) as Hnone
    by by apply py_dict_lookup_None.
  unfold py_dict_get. rewrite Hnone; simpl.
  rewrite py_dict_setitem_absent by done. by rewrite fmap_app.
Qed.

(** With locations so far apart that the squared difference
    overflows, the program writes the planner's error line, announces a
    route without stops, and goes on with the inventory report. *)
Lemma simulate_deliveries_overflow :
  simulate_deliveries_body (RoutePlanner_init [(1e200, 0)%float]) (0, 0)%float =
    Prog ([error_line OverflowError; route_header_line] ++ inventory_report) (Ok ()).
Proof. vm_compute. reflexivity. Qed.

(** ** The text written *)

(** The text the program writes, line by line, whatever the text of
    exceptions: none is printed. *)
Lemma simulate_deliveries_stdout exn_str :
  line_text exn_str <$> prog_out simulate_deliveries =
    [ "Simulating Smart Delivery System...";
      "Optimal route found:";
      "Delivery to location: (37.7749, -122.4194)";
      "Delivery to location: (34.0522, -118.2437)";
      "Delivery to location: (29.7604, -95.3698)";
      "Delivery to location: (41.8781, -87.6298)";
      "Delivery to location: (40.7128, -74.006)";
      "20 of item_1 is available for delivery.";
      "Current Inventory Status:";
      "item_1: 100 units";
      "item_2: 75 units" ].
Proof. vm_compute. reflexivity. Qed.

(** The text of a delivery line: the tuple in parentheses, each coordinate
    as [repr] prints it. *)
Lemma delivery_line_text exn_str loc :
  line_text exn_str (delivery_line loc) =
    "Delivery to location: (" +:+ float_repr loc.1 +:+ ", " +:+ float_repr loc.2 +:+ ")".
Proof.
  cbv [line_text delivery_line foldr frag_text py_str show_location].
  by rewrite string_app_nil_r.
Qed.

(** The text written when the planner fails: the planner's message with
    the text of the exception, and then the announcement of a route. *)
Lemma route_block_after_failure_text exn_str planner start_location e :
  find_optimal_route_body planner start_location = Raise e →
  line_text exn_str <$> prog_out (route_block planner start_location) =
    ["Error optimizing route: " +:+ exn_str e; "Optimal route found:"].
Proof.
  intros Hbody. rewrite route_block_eq. unfold find_optimal_route. rewrite Hbody.
  simpl. by rewrite string_app_nil_r.
Qed.

(** The text of a status line. *)
Lemma status_line_text exn_str item quantity :
  line_text exn_str (status_line (item, quantity)) =
    item +:+ ": " +:+ int_str quantity +:+ " units".
Proof. done. Qed.

(** The status listing determines the stock: two status lines of an
    item with the same text show the same quantity. *)
Lemma status_line_text_inj exn_str item quantity1 quantity2 :
  line_text exn_str (status_line (item, quantity1)) =
  line_text exn_str (status_line (item, quantity2)) →
  quantity1 = quantity2.
Proof.
  rewrite !status_line_text.
  intros Heq%(inj (String.app item))%(inj (String.app ": "))%string_app_inv_r.
  by apply (inj pretty) in Heq.
Qed.

(** ** The availability check on untyped quantities *)

(** The block by cases on the outcome of the comparison. *)
Lemma check_block_dyn_eq inventory :
  check_block_dyn inventory =
    Prog [match check_inventory_dyn inventory "item_1" (OInt 20) with
          | Ok true => available_line 20 "item_1"
          | Ok false => insufficient_line "item_1"
          | Raise e => check_failure_line e
          end] (Ok ()).
Proof.
  unfold check_block_dyn.
  by destruct (check_inventory_dyn inventory "item_1" (OInt 20)) as [[]|e].
Qed.

(** On the inventories of the typed model the check on untyped
    quantities is the typed check. *)
Lemma check_block_dyn_typed inventory :
  check_block_dyn (of_typed inventory) = check_block inventory.
Proof.
  rewrite check_block_dyn_eq, check_block_eq.
  pose proof (check_inventory_dyn_typed inventory "item_1" 20) as ->.
  by destruct (check_inventory _ _ _).
Qed.

(** C33: the handler of the second [try] runs exactly when the stock of
    item_1 is not a number: the block then writes that the check failed
    with [TypeError], and ends normally. *)
Theorem check_block_dyn_handler inventory e :
  check_failure_line e ∈ prog_out (check_block_dyn inventory) ↔
  e = TypeError ∧
  numeric (type_of (py_dict_get "item_1" (OInt 0) (inventory_dyn inventory))) = false.
Proof.
  rewrite check_block_dyn_eq, <- comparable_int, <- (py_ge_Raise _ (OInt 20)).
  simpl. rewrite list_elem_of_singleton. unfold check_inventory_dyn.
  destruct (py_ge _ _) as [[]|e']; split; try done; by intros [= ->].
Qed.

(** ** Witnesses *)

Lemma simulate_deliveries_body_bounded_witness :
  ∃ r, greedy_route (calculate_distance planner) start_location (locations planner) r ∧
    r ≡ₚ locations planner ∧
    simulate_deliveries_body planner start_location =
      Prog (route_header_line :: delivery_line start_location ::
              (delivery_line <$> r) ++ inventory_report)
           (Ok ()).
Proof.
  apply (simulate_deliveries_body_bounded planner start_location 8); [lia|..];
    by apply (bool_decide_unpack _).
Defined.

Lemma route_block_after_failure_witness :
  route_block (RoutePlanner_init [(1e200, 0)%float]) (0, 0)%float =
    Prog [error_line OverflowError; route_header_line] (Ok ()).
Proof. apply route_block_after_failure. vm_compute. reflexivity. Defined.
