(* ===== verification/Script.v ===== *)
(** * The module

    The statements of [src/main.py] at module level (lines 4-95), in the
    order in which the interpreter executes them: the two imports, the
    binding of [DELIVERY_LOCATIONS], the two [class] statements and the
    [def] statement, and the guard that calls [simulate_deliveries] when the
    file is run as a script.

    What the file can observe of the interpreter is its environment
    ([pyenv]): the modules [import] can find, and the value of [__name__].
    An import of a module that is not found raises [ModuleNotFoundError];
    the imports are outside every [try], so the exception ends the run.
    The other statements bind a name and cannot raise.  [script] returns
    the names the module binds. *)

From Stdlib Require Import String.
From stdpp Require Import prelude gmap strings.
From S2P Require Import Prelude PyIO RoutePlanner Simulation.

#[local] Open Scope string_scope.
#[local] Open Scope list_scope.

(** ** The interpreter's environment *)

Record pyenv := {
  installed : gset string;
  module_name : string;
}.

(** [import m]: the module is looked up; the binding of its name cannot
    fail. *)
Definition py_import (env : pyenv) (m : string) : result () :=
  if decide (m ∈ installed env) then Ok () else Raise ModuleNotFoundError.

(** ** The statements *)

(** [import numpy as np] and [import random]. *)
Definition imports (env : pyenv) : result (list string) :=
  _ ← py_import env "numpy";
  _ ← py_import env "random";
  mret ["np"; "random"].

(** [if __name__ == "__main__": simulate_deliveries()] *)
Definition main (name : string) : prog () :=
  if String.eqb name "__main__" then simulate_deliveries else mret ().

(** The module: the names bound by the imports, then by the assignment,
    the two classes and the function, then the guard. *)
Definition script (env : pyenv) : prog (list string) :=
  names ← run_result (imports env);
  let names := names ++ ["DELIVERY_LOCATIONS"] in
  let names := names ++ ["RoutePlanner"] in
  let names := names ++ ["InventoryManager"] in
  let names := names ++ ["simulate_deliveries"] in
  _ ← main (module_name env);
  mret names.

(** ** Specification *)

(** The names a module that imports this one can use. *)
Definition module_names : list string :=
  ["np"; "random"; "DELIVERY_LOCATIONS"; "RoutePlanner"; "InventoryManager";
   "simulate_deliveries"].

(** An environment in which both imports succeed. *)
Definition imports_found (env : pyenv) : Prop :=
  "numpy" ∈ installed env ∧ "random" ∈ installed env.

#[export] Instance imports_found_dec env : Decision (imports_found env).
Proof. unfold imports_found. apply _. Defined.

(** The interpreter running the file as a script, with numpy installed. *)
Definition script_env : pyenv :=
  {| installed := {["numpy"; "random"]}; module_name := "__main__" |}.

(** ** Imports *)

(** The two imports succeed together or raise [ModuleNotFoundError]. *)
Lemma imports_cases env :
  imports env =
    if decide (imports_found env) then Ok ["np"; "random"] else Raise ModuleNotFoundError.
Proof.
  unfold imports, imports_found, py_import.
  destruct (decide ("numpy" ∈ installed env)), (decide ("random" ∈ installed env));
    simpl; [by rewrite decide_True|by rewrite decide_False by (by intros [? ?])..].
Qed.

(** The guard never raises: [simulate_deliveries] does not. *)
Lemma main_Ok name : prog_res (main name) = Ok ().
Proof. unfold main. by destruct (String.eqb name "__main__"). Qed.

(** ** The module *)

(** The module when both imports succeed. *)
Lemma script_found env :
  imports_found env →
  script env = Prog (prog_out (main (module_name env))) (Ok module_names).
Proof.
  intros Hfound. unfold script.
  rewrite imports_cases, decide_True, run_result_bind_Ok by done.
  pose proof (main_Ok (module_name env)) as Hmain.
  destruct (main (module_name env)) as [out res]. simpl in *. subst res.
  rewrite prog_bind_Ok. simpl. by rewrite app_nil_r.
Qed.

(** Run as a script where both imports are found, the module writes
    what [simulate_deliveries] writes and ends normally. *)
Lemma script_runs env :
  imports_found env → module_name env = "__main__" →
  prog_out (script env) = prog_out simulate_deliveries ∧
  prog_res (script env) = Ok module_names.
Proof. intros Hfound Hname. rewrite script_found by done. unfold main. by rewrite Hname. Qed.

(** C37: the guard of the last two lines: where both imports are found the
    module binds its six names and ends normally; it runs
    [simulate_deliveries], and writes its lines, exactly when it is the
    main module, and writes nothing when it is imported under another
    name. *)
Theorem script_guard env :
  imports_found env →
  prog_res (script env) = Ok module_names ∧
  (module_name env = "__main__" → prog_out (script env) = prog_out simulate_deliveries) ∧
  (module_name env ≠ "__main__" → prog_out (script env) = []) ∧
  (prog_out (script env) ≠ [] ↔ module_name env = "__main__").
Proof.
  intros Hfound. rewrite script_found by done. unfold main. simpl.
  destruct (String.eqb_spec (module_name env) "__main__") as [Heq|Hne];
    by split_and!.
Qed.

(** Imported under any other name, the module writes nothing and binds
    its six names: the guard keeps the simulation from running. *)
Lemma script_imported env :
  imports_found env → module_name env ≠ "__main__" →
  script env = Prog [] (Ok module_names).
Proof.
  intros Hfound Hname%String.eqb_neq. rewrite script_found by done.
  unfold main. by rewrite Hname.
Qed.

(** C26: the run ends with an exception exactly when a module is not found;
    the exception is [ModuleNotFoundError], and nothing has been written:
    no handler of the program covers the imports. *)
Theorem script_Raise env e :
  prog_res (script env) = Raise e ↔
  e = ModuleNotFoundError ∧ ¬ imports_found env ∧ prog_out (script env) = [].
Proof.
  destruct (decide (imports_found env)) as [Hfound|Hmissing].
  - rewrite script_found by done. simpl. split; [done|]. by intros (_ & [] & _).
  - unfold script. rewrite imports_cases, decide_False by done. simpl.
    split; [by intros [= <-]|by intros (-> & _)].
Qed.

(** Although nothing in the program uses [random], the run depends on
    it: without it the script ends with [ModuleNotFoundError] before its
    first line is written, whatever else is installed. *)
Lemma script_needs_random env :
  "random" ∉ installed env →
  script env = Prog [] (Raise ModuleNotFoundError).
Proof.
  intros Hmissing. unfold script.
  by rewrite imports_cases, decide_False by (by intros [_ ?]).
Qed.

(** The text the script writes where numpy is installed: the eleven lines
    of [simulate_deliveries]. *)
Lemma script_stdout exn_str :
  length (prog_out (script script_env)) = 11 ∧
  line_text exn_str <$> prog_out (script script_env) =
    line_text exn_str <$> prog_out simulate_deliveries.
Proof. by vm_compute. Qed.

(** ** Witnesses *)

Lemma script_guard_witness :
  prog_res (script script_env) = Ok module_names ∧
  (module_name script_env = "__main__" →
     prog_out (script script_env) = prog_out simulate_deliveries) ∧
  (module_name script_env ≠ "__main__" → prog_out (script script_env) = []) ∧
  (prog_out (script script_env) ≠ [] ↔ module_name script_env = "__main__").
Proof. apply script_guard. apply (bool_decide_unpack _). by vm_compute. Defined.
