(* ===== verification/SimulationHeap.v ===== *)
(** * The driver on the heap

    [simulate_deliveries] ([src/main.py], lines 54-92) with the objects it
    handles: the list [DELIVERY_LOCATIONS] bound by the module (line 8),
    which the planner keeps by reference, the lists the planner makes, and
    the dictionary of the inventory manager.  The planner of [RouteHeap]
    and the inventory of [InventoryHeap] each run in a heap of their own
    class of objects; here the two heaps and the output are the parts of
    one [store], and a statement of a component runs on its part and
    leaves the rest as it was ([in_lists], [in_dicts]).

    The blocks of the driver are shown to write what the blocks of
    [Simulation] write, and the driver to refine [simulate_deliveries]:
    with fuel for one iteration per location it returns, writes the same
    lines, and changes no object that existed.  It follows that the
    function can be called again, and that a call plans the route on the
    locations the list holds at the time of the call. *)

From Stdlib Require Import Floats ZArith String.
From stdpp Require Import prelude gmap strings.
From S2P Require Import Prelude PyBuiltins PyFloat PyIO PyHeap PyDict RoutePlanner RouteHeap.
From S2P Require Import Inventory InventoryHeap Simulation Script.

#[local] Open Scope Z_scope.
#[local] Open Scope string_scope.
#[local] Open Scope list_scope.

(** ** The store *)

(** The objects of the program, by class, and the lines written. *)
Record store := Store {
  st_lists : gmap ref (list location);
  st_dicts : gmap ref (pydict string Z);
  st_out : list line;
}.

(** What a statement on lists sees of the store, and the store it
    leaves. *)
Definition lists_view (s : store) : world location :=
  World (st_lists s) (st_out s).
Definition with_lists (s : store) (w : world location) : store :=
  Store (w_heap w) (st_dicts s) (w_out w).

Definition dicts_view (s : store) : world (string * Z) :=
  World (st_dicts s) (st_out s).
Definition with_dicts (s : store) (w : world (string * Z)) : store :=
  Store (st_lists s) (w_heap w) (w_out w).

(** A statement of the planner, and a statement of the inventory, as
    statements on the store. *)
Definition in_lists {B} (m : stm (world location) B) : stm store B := λ s,
  match m (lists_view s) with
  | Some (r, w) => Some (r, with_lists s w)
  | None => None
  end.

Definition in_dicts {B} (m : stm (world (string * Z)) B) : stm store B := λ s,
  match m (dicts_view s) with
  | Some (r, w) => Some (r, with_dicts s w)
  | None => None
  end.

(** [print(l)] *)
Definition store_print (l : line) : stm store () := λ s,
  Some (Ok (), Store (st_lists s) (st_dicts s) (st_out s ++ [l])).

(** ** Blocks *)

Definition route_block_h (planner : RoutePlannerObj) (start_location : location)
    (fuel : nat) : stm store () :=
  stm_try
    (route ← in_lists (find_optimal_route_h planner start_location fuel);
     _ ← store_print route_header_line;
     stops ← in_lists (list_load route);
     stm_for_each stops (λ loc, store_print (delivery_line loc)))
    (λ e, store_print (route_failure_line e)).

Definition stock_block_h : stm store InventoryObj :=
  inventory ← in_dicts InventoryObj_init;
  _ ← in_dicts (update_inventory_h inventory "item_1" 100);
  _ ← in_dicts (update_inventory_h inventory "item_2" 75);
  mret inventory.

Definition check_block_h (inventory : InventoryObj) : stm store () :=
  stm_try
    (let required_item := "item_1" in
     let required_quantity := 20%Z in
     available ← in_dicts (check_inventory_h inventory required_item required_quantity);
     if available : bool
     then store_print (available_line required_quantity required_item)
     else store_print (insufficient_line required_item))
    (λ e, store_print (check_failure_line e)).

Definition status_block_h (inventory : InventoryObj) : stm store () :=
  _ ← store_print status_header_line;
  status ← in_dicts (get_inventory_status_h inventory);
  entries ← in_dicts (list_load status);
  stm_for_each (py_dict_items entries) (λ entry, store_print (status_line entry)).

(** ** The function and the module *)

(** [simulate_deliveries()], where the global [DELIVERY_LOCATIONS] names
    the list at [locations]. *)
Definition simulate_deliveries_h (locations : ref) (fuel : nat) : stm store () :=
  _ ← store_print banner_line;
  let planner := RoutePlannerObj_init locations in
  _ ← route_block_h planner start_location fuel;
  inventory ← stock_block_h;
  _ ← check_block_h inventory;
  status_block_h inventory.

(** The module: the imports, the list of line 8 as a new object, and the
    guard.  It returns the reference that [DELIVERY_LOCATIONS] names. *)
Definition script_h (env : pyenv) (fuel : nat) : stm store ref :=
  _ ← stm_lift (imports env);
  locations ← in_lists (list_alloc DELIVERY_LOCATIONS);
  _ ← (if String.eqb (module_name env) "__main__"
       then simulate_deliveries_h locations fuel else mret ());
  mret locations.

(** ** Specification *)

(** A statement changes no object that exists in [s]. *)
Definition store_preserves (s s' : store) : Prop :=
  (∀ b, is_Some (st_lists s !! b) → st_lists s' !! b = st_lists s !! b) ∧
  (∀ b, is_Some (st_dicts s !! b) → st_dicts s' !! b = st_dicts s !! b).

(** The store in which the interpreter starts the module. *)
Definition empty_store : store := Store ∅ ∅ [].

(** The lines of one call of [simulate_deliveries] on the locations
    [locs]. *)
Definition run_lines (locs : list location) : list line :=
  banner_line :: prog_out (simulate_deliveries_body (RoutePlanner_init locs) start_location).

(** A store in which the global names the list of line 8. *)
Definition module_store : store := Store {[ Ref 1 := DELIVERY_LOCATIONS ]} ∅ [].

(** ** Statements of the components in the store *)

Section lifting.
Implicit Types (s : store).

Lemma in_lists_Some {B} (m : stm (world location) B) s r h out :
  m (lists_view s) = Some (r, World h out) →
  in_lists m s = Some (r, Store h (st_dicts s) out).
Proof. unfold in_lists. by intros ->. Qed.

Lemma in_dicts_Some {B} (m : stm (world (string * Z)) B) s r h out :
  m (dicts_view s) = Some (r, World h out) →
  in_dicts m s = Some (r, Store (st_lists s) h out).
Proof. unfold in_dicts. by intros ->. Qed.

(** A loop whose body only prints writes the lines of its iterations in
    order. *)
Lemma stm_for_each_print {A} (l : list A) (f : A → line) s :
  stm_for_each l (λ x, store_print (f x)) s =
    Some (Ok (), Store (st_lists s) (st_dicts s) (st_out s ++ (f <$> l))).
Proof.
  revert s. induction l as [|x l IH]; intros s; simpl.
  - rewrite app_nil_r. by destruct s.
  - unfold mbind, stm_bind, store_print. rewrite IH. simpl.
    by rewrite <- app_assoc.
Qed.

Lemma store_preserves_refl s : store_preserves s s.
Proof. by split. Qed.
End lifting.

(** ** The blocks *)

Section blocks.
Implicit Types (s : store) (inv : InventoryManager).

Lemma store_print_bind {B} l (f : () → stm store B) s :
  (store_print l ≫= f) s = f () (Store (st_lists s) (st_dicts s) (st_out s ++ [l])).
Proof. done. Qed.

Lemma in_lists_load a l s :
  st_lists s !! a = Some l → in_lists (list_load a) s = Some (Ok l, s).
Proof.
  intros Ha. unfold in_lists. rewrite (list_load_Some a l (lists_view s) Ha). by destruct s.
Qed.

Lemma in_dicts_load d entries s :
  st_dicts s !! d = Some entries → in_dicts (list_load d) s = Some (Ok entries, s).
Proof.
  intros Hd. unfold in_dicts. rewrite (list_load_Some d entries (dicts_view s) Hd). by destruct s.
Qed.

(** The route block writes what the block of the functional model writes
    and changes no list that existed. *)
Lemma route_block_h_Some planner start_location locs fuel s :
  st_lists s !! locations_ref planner = Some locs → (length locs ≤ fuel)%nat →
  ∃ lists',
    route_block_h planner start_location fuel s =
      Some (Ok (), Store lists' (st_dicts s)
        (st_out s ++ prog_out (route_block (RoutePlanner_init locs) start_location))) ∧
    (∀ b, is_Some (st_lists s !! b) → lists' !! b = st_lists s !! b).
Proof.
  intros Hlocs Hfuel.
  destruct (find_optimal_route_h_spec planner start_location locs (lists_view s) fuel
    Hlocs Hfuel) as (a & h' & Hrun & Ha & _ & Hpres).
  exists h'. split; [|done]. apply stm_try_Ok.
  rewrite (stm_bind_Ok _ _ _ _ _ (in_lists_Some _ _ _ _ _ Hrun)), store_print_bind.
  erewrite stm_bind_Ok by (by apply in_lists_load).
  rewrite stm_for_each_print, route_block_eq. simpl.
  by rewrite <- !app_assoc.
Qed.

Lemma in_dicts_update self inv item quantity s :
  st_dicts s !! inventory_ref self = Some (inventory inv) →
  in_dicts (update_inventory_h self item quantity) s =
    Some (Ok (), Store (st_lists s)
      (<[inventory_ref self :=
          py_dict_setitem item (py_dict_get item 0 (inventory inv) + quantity)
            (inventory inv)]> (st_dicts s)) (st_out s)).
Proof.
  intros Hinv. by apply in_dicts_Some, (update_inventory_h_Some self inv item quantity).
Qed.

(** The stocking makes a new dictionary and leaves in it the inventory of
    the functional model. *)
Lemma stock_block_h_Some s :
  ∃ self inv dicts',
    stock_block_h s = Some (Ok self, Store (st_lists s) dicts' (st_out s)) ∧
    stock_block = Prog [] (Ok inv) ∧
    dicts' !! inventory_ref self = Some (inventory inv) ∧
    (∀ b, is_Some (st_dicts s !! b) → dicts' !! b = st_dicts s !! b).
Proof.
  destruct (list_alloc_fresh (py_dict_empty : pydict string Z) (dicts_view s))
    as (d & Halloc & Hfresh).
  exists {| inventory_ref := d |}. do 2 eexists. split_and!; [|done| |].
  - unfold stock_block_h.
    erewrite stm_bind_Ok; [|apply in_dicts_Some; unfold InventoryObj_init;
      by rewrite (stm_bind_Ok _ _ _ _ _ Halloc)].
    erewrite stm_bind_Ok;
      [|by apply (in_dicts_update _ InventoryManager_init), lookup_insert_eq].
    erewrite stm_bind_Ok;
      [|by apply (in_dicts_update _ {| inventory := [("item_1", 100)] |}),
         lookup_insert_eq].
    simpl. by rewrite !insert_insert_eq.
  - apply lookup_insert_eq.
  - intros b [entries Hb]. apply lookup_insert_ne. intros <-. simpl in Hfresh.
    unfold pydict in *. congruence.
Qed.

(** The availability check writes the line of the functional model and
    changes nothing. *)
Lemma check_block_h_Some self inv s :
  st_dicts s !! inventory_ref self = Some (inventory inv) →
  check_block_h self s =
    Some (Ok (), Store (st_lists s) (st_dicts s) (st_out s ++ prog_out (check_block inv))).
Proof.
  intros Hinv. apply stm_try_Ok. simpl.
  erewrite stm_bind_Ok;
    [|by apply in_dicts_Some, (check_inventory_h_Some self inv "item_1" 20)].
  rewrite check_block_eq. by destruct (check_inventory inv "item_1" 20).
Qed.

(** The status listing writes the lines of the functional model, in the
    order of the dictionary, and changes nothing. *)
Lemma status_block_h_Some self inv s :
  st_dicts s !! inventory_ref self = Some (inventory inv) →
  status_block_h self s =
    Some (Ok (), Store (st_lists s) (st_dicts s) (st_out s ++ prog_out (status_block inv))).
Proof.
  intros Hinv. unfold status_block_h. rewrite store_print_bind.
  erewrite stm_bind_Ok; [|by apply in_dicts_Some].
  erewrite stm_bind_Ok; [|by apply in_dicts_load].
  rewrite stm_for_each_print, status_block_eq. simpl. by rewrite <- app_assoc.
Qed.
End blocks.

(** ** The function *)

Section driver.
Implicit Types (s : store) (locs : list location).

(** What a call does, for the list the global names at the time of the
    call. *)
Lemma simulate_deliveries_h_Some locations locs fuel s :
  st_lists s !! locations = Some locs → (length locs ≤ fuel)%nat →
  ∃ lists' dicts',
    simulate_deliveries_h locations fuel s =
      Some (Ok (), Store lists' dicts'
        (st_out s ++ run_lines locs)) ∧
    store_preserves s (Store lists' dicts' []).
Proof.
  intros Hlocs Hfuel. unfold simulate_deliveries_h. rewrite store_print_bind.
  edestruct (route_block_h_Some (RoutePlannerObj_init locations) start_location locs fuel
    (Store (st_lists s) (st_dicts s) (st_out s ++ [banner_line])))
    as (lists' & Hroute & Hlists); [exact Hlocs|done|].
  rewrite (stm_bind_Ok _ _ _ _ _ Hroute).
  edestruct stock_block_h_Some as (self & inv & dicts' & Hstock & Hinv & Hself & Hdicts).
  rewrite (stm_bind_Ok _ _ _ _ _ Hstock).
  erewrite stm_bind_Ok; [|by apply (check_block_h_Some self inv)].
  rewrite (status_block_h_Some self inv) by done.
  exists lists', dicts'. split; [|by split]. unfold run_lines.
  rewrite stock_block_eq in Hinv. injection Hinv as <-.
  rewrite simulate_deliveries_body_eq, route_block_eq, check_block_eq, status_block_eq.
  simpl. by rewrite <- !app_assoc.
Qed.

(** C10: with fuel for one iteration per location, [simulate_deliveries] on
    the heap returns without an exception, writes the lines the functional
    model writes for the locations the global names at the time of the
    call, and changes no list and no dictionary that existed. *)
Theorem simulate_deliveries_h_refines locations locs fuel s :
  st_lists s !! locations = Some locs → (length locs ≤ fuel)%nat →
  ∃ s',
    simulate_deliveries_h locations fuel s = Some (Ok (), s') ∧
    st_out s' =
      st_out s ++ banner_line ::
        prog_out (simulate_deliveries_body (RoutePlanner_init locs) start_location) ∧
    store_preserves s s'.
Proof.
  intros Hlocs Hfuel.
  destruct (simulate_deliveries_h_Some locations locs fuel s Hlocs Hfuel)
    as (lists' & dicts' & Hrun & Hpres).
  by eexists.
Qed.

(** C28: the function can be called again: a second call writes the same
    lines as the first, since the first left the list of locations as it
    was and the second stocks a dictionary of its own. *)
Theorem simulate_deliveries_h_twice locations locs fuel s :
  st_lists s !! locations = Some locs → (length locs ≤ fuel)%nat →
  ∃ s',
    (simulate_deliveries_h locations fuel ≫= λ _, simulate_deliveries_h locations fuel) s =
      Some (Ok (), s') ∧
    st_out s' = st_out s ++ run_lines locs ++ run_lines locs ∧
    store_preserves s s'.
Proof.
  intros Hlocs Hfuel.
  destruct (simulate_deliveries_h_Some locations locs fuel s Hlocs Hfuel)
    as (lists1 & dicts1 & Hrun1 & Hlists1 & Hdicts1).
  rewrite (stm_bind_Ok _ _ _ _ _ Hrun1).
  edestruct (simulate_deliveries_h_Some locations locs fuel) as
    (lists2 & dicts2 & -> & Hlists2 & Hdicts2); [|done|].
  { simpl in *. by rewrite Hlists1, Hlocs. }
  eexists. split_and!; [done|by simpl; rewrite <- app_assoc|split; simpl in *].
  - intros b Hb. rewrite Hlists2; rewrite Hlists1; done.
  - intros b Hb. rewrite Hdicts2; rewrite Hdicts1; done.
Qed.
End driver.

(** The planner keeps the list it was given, not a copy: after a caller
    appends a location to the list the global names, a call plans the
    route through that location too. *)
Lemma simulate_deliveries_h_after_append locations locs loc fuel s :
  st_lists s !! locations = Some locs → (length locs < fuel)%nat →
  ∃ s',
    (in_lists (py_append_ref locations loc) ≫= λ _, simulate_deliveries_h locations fuel) s =
      Some (Ok (), s') ∧
    st_out s' = st_out s ++ run_lines (locs ++ [loc]).
Proof.
  intros Hlocs Hfuel.
  erewrite stm_bind_Ok;
    [|by apply in_lists_Some, (py_append_ref_Some locations loc locs (lists_view s))].
  edestruct (simulate_deliveries_h_Some locations (locs ++ [loc]) fuel)
    as (lists' & dicts' & -> & _); [apply lookup_insert_eq| |by eexists].
  rewrite length_app. simpl. lia.
Qed.

(** ** The module *)

Lemma run_lines_simulate_deliveries :
  run_lines DELIVERY_LOCATIONS = prog_out simulate_deliveries.
Proof. done. Qed.

(** What the module does from any store. *)
Lemma script_h_Some env fuel s :
  (length DELIVERY_LOCATIONS ≤ fuel)%nat →
  ∃ r s',
    script_h env fuel s = Some (r, s') ∧
    st_out s' = st_out s ++ prog_out (script env) ∧
    match prog_res (script env) with
    | Ok _ => ∃ d, r = Ok d ∧ st_lists s !! d = None ∧
        st_lists s' !! d = Some DELIVERY_LOCATIONS
    | Raise e => r = Raise e
    end.
Proof.
  intros Hfuel. unfold script_h. rewrite imports_cases.
  destruct (decide (imports_found env)) as [Hfound|Hmissing].
  2: { exists (Raise ModuleNotFoundError), s. unfold script.
       rewrite imports_cases, decide_False by done. simpl. by rewrite app_nil_r. }
  rewrite script_found, (stm_bind_Ok _ _ _ _ _ eq_refl) by done.
  destruct (list_alloc_fresh DELIVERY_LOCATIONS (lists_view s)) as (d & Halloc & Hfresh).
  rewrite (stm_bind_Ok _ _ _ _ _ (in_lists_Some _ _ _ _ _ Halloc)).
  unfold main. destruct (String.eqb (module_name env) "__main__").
  - edestruct (simulate_deliveries_h_Some d DELIVERY_LOCATIONS fuel
      (Store (<[d := DELIVERY_LOCATIONS]> (st_lists s)) (st_dicts s) (st_out s)))
      as (lists' & dicts' & Hrun & Hlists & _); [apply lookup_insert_eq|done|].
    rewrite (stm_bind_Ok _ _ _ _ _ Hrun). do 2 eexists. split_and!; [done|done|].
    exists d. simpl. split_and!; [done..|].
    rewrite Hlists; simpl; [apply lookup_insert_eq|]. by rewrite lookup_insert_eq.
  - do 2 eexists. split_and!; [done|by simpl; rewrite app_nil_r|].
    exists d. simpl. split_and!; [done..|apply lookup_insert_eq].
Qed.

(** C27: the module on the heap refines the module of [Script]: started by
    the interpreter, with fuel for the four locations, it writes the lines
    [script] writes and ends as [script] ends; when it ends normally the
    global names a list that holds the four locations. *)
Theorem script_h_refines env fuel :
  (length DELIVERY_LOCATIONS ≤ fuel)%nat →
  ∃ r s',
    script_h env fuel empty_store = Some (r, s') ∧
    st_out s' = prog_out (script env) ∧
    match prog_res (script env) with
    | Ok _ => ∃ d, r = Ok d ∧ st_lists s' !! d = Some DELIVERY_LOCATIONS
    | Raise e => r = Raise e
    end.
Proof.
  intros Hfuel.
  destruct (script_h_Some env fuel empty_store Hfuel) as (r & s' & Hrun & Hout & Hres).
  exists r, s'. split_and!; [done..|].
  destruct (prog_res (script env)); [|done]. destruct Hres as (d & ? & _ & ?). eauto.
Qed.

(** The text the script writes on the heap, run where numpy is found: the
    eleven lines of the functional model. *)
Lemma script_h_stdout exn_str fuel :
  (4 ≤ fuel)%nat →
  ∃ d s',
    script_h script_env fuel empty_store = Some (Ok d, s') ∧
    line_text exn_str <$> st_out s' =
      [ "Simulating Smart Delivery System...";
        "Optimal route found:";
        "Delivery to location: (37.7749, -122.4194)";
        "Delivery to location: (34.0522, -118.2437)";
        "Delivery to location: (29.7604, -95.3698)";
        "Delivery to location: (41.8781, -87.6298)";
        "Delivery to location: (40.7128, -74.006)";
        "20 of item_1 is available for delivery.";
        "Current Inventory Status:";
        "item_1: 100 units";
        "item_2: 75 units" ].
Proof.
  intros Hfuel.
  destruct (script_h_Some script_env fuel empty_store Hfuel) as (r & s' & Hrun & Hout & Hres).
  assert (prog_res (script script_env) = Ok module_names) as Hok by by vm_compute.
  rewrite Hok in Hres. destruct Hres as (d & -> & _). exists d, s'. split; [done|].
  rewrite Hout. by vm_compute.
Qed.

(** ** Witnesses *)

Lemma simulate_deliveries_h_refines_witness :
  ∃ s',
    simulate_deliveries_h (Ref 1) 4 module_store = Some (Ok (), s') ∧
    st_out s' =
      st_out module_store ++ banner_line ::
        prog_out (simulate_deliveries_body (RoutePlanner_init DELIVERY_LOCATIONS)
                    start_location) ∧
    store_preserves module_store s'.
Proof. apply simulate_deliveries_h_refines; [done|simpl; lia]. Defined.

Lemma simulate_deliveries_h_twice_witness :
  ∃ s',
    (simulate_deliveries_h (Ref 1) 4 ≫= λ _, simulate_deliveries_h (Ref 1) 4) module_store =
      Some (Ok (), s') ∧
    st_out s' =
      st_out module_store ++ run_lines DELIVERY_LOCATIONS ++ run_lines DELIVERY_LOCATIONS ∧
    store_preserves module_store s'.
Proof. apply simulate_deliveries_h_twice; [done|simpl; lia]. Defined.

Lemma script_h_refines_witness :
  ∃ r s',
    script_h script_env 4 empty_store = Some (r, s') ∧
    st_out s' = prog_out (script script_env) ∧
    match prog_res (script script_env) with
    | Ok _ => ∃ d, r = Ok d ∧ st_lists s' !! d = Some DELIVERY_LOCATIONS
    | Raise e => r = Raise e
    end.
Proof. apply script_h_refines. simpl. lia. Defined.
